(** * ACS_Internet: dimensional reconciliation and weighted aggregation

    A shallow embedding of the star-schema builders
    ([src/create_star_schema.py], [src/schema/create_star_schema.py]) and of
    the two weighted-statistics analysers
    ([src/analysis/analyze_weighted_stats.py], [src/analyze_weighted_stats.py]).

    Conventions of the embedding:
    - a pandas column of integer codes is a [list Z]; survey weights and
      percentages are exact rationals ([Q]) standing for the float columns,
      and what is stated on them does not depend on rounding; the rounding
      of the percentage itself is studied on the binary64 computation of
      [Float64], on weight columns of whole numbers;
    - a Python exception is the [Raise] branch of [result];
    - a missing value (NaN / null cell) is [None];
    - a DataFrame column named by a string literal in the source is a record
      field of the same name, and a column passed by name is passed as the
      corresponding accessor function. *)

From Stdlib Require Import ZArith QArith List String Ascii Bool Lia.
From Stdlib Require Import Permutation Sorted DecimalString DecimalPos FinFun.
From Stdlib Require PrimFloat Uint63.
Import ListNotations.

Local Open Scope string_scope.
Local Open Scope Z_scope.

(* ===================================================================== *)
(** * Python and pandas primitives used by the sources                    *)
(* ===================================================================== *)

Module Py.

(** The exception classes that the modelled code can raise. *)
Inductive exn : Type :=
| ValueError
| TypeError
| KeyError
| ZeroDivisionError.

Inductive result (A : Type) : Type :=
| Ok (a : A)
| Raise (e : exn).
Arguments Ok {A} a.
Arguments Raise {A} e.

Definition bind {A B : Type} (m : result A) (k : A -> result B) : result B :=
  match m with
  | Ok a => k a
  | Raise e => Raise e
  end.

(** [try: body except Exception: handler]. *)
Definition try_except {A : Type} (body : result A) (handler : exn -> A) : A :=
  match body with
  | Ok a => a
  | Raise e => handler e
  end.

Fixpoint mapM {A B : Type} (f : A -> result B) (l : list A) : result (list B) :=
  match l with
  | [] => Ok []
  | x :: xs =>
      bind (f x) (fun y => bind (mapM f xs) (fun ys => Ok (y :: ys)))
  end.

(** ** [int(s)] on an ASCII string

    Surrounding whitespace is stripped, one sign is accepted, and the
    digits may be grouped by single underscores; anything else raises
    [ValueError]. Leading zeros are accepted, so ["01"] and ["1"] both
    denote 1. *)

Definition is_space (c : ascii) : bool :=
  let n := nat_of_ascii c in
  ((9 <=? n)%nat && (n <=? 13)%nat) || ((28 <=? n)%nat && (n <=? 32)%nat).

Fixpoint lstrip (s : string) : string :=
  match s with
  | EmptyString => EmptyString
  | String c s' => if is_space c then lstrip s' else s
  end.

Fixpoint rstrip (s : string) : string :=
  match s with
  | EmptyString => EmptyString
  | String c s' =>
      match rstrip s' with
      | EmptyString => if is_space c then EmptyString else String c EmptyString
      | r => String c r
      end
  end.

Definition strip (s : string) : string := rstrip (lstrip s).

Definition digit_val (c : ascii) : option Z :=
  let n := nat_of_ascii c in
  if ((48 <=? n)%nat && (n <=? 57)%nat)%bool
  then Some (Z.of_nat (n - 48))
  else None.

(** [prev_digit] records that the previous character was a digit: an
    underscore is legal only between two digits. *)
Fixpoint parse_digits (acc : Z) (prev_digit : bool) (s : string) : option Z :=
  match s with
  | EmptyString => if prev_digit then Some acc else None
  | String c s' =>
      match digit_val c with
      | Some d => parse_digits (10 * acc + d) true s'
      | None =>
          if (Ascii.eqb c "_" && prev_digit)%bool
          then parse_digits acc false s'
          else None
      end
  end.

Definition int (s : string) : result Z :=
  let body := strip s in
  let '(negative, digits) :=
    match body with
    | String "-" r => (true, r)
    | String "+" r => (false, r)
    | _ => (false, body)
    end in
  match parse_digits 0 false digits with
  | Some n => Ok (if negative then - n else n)
  | None => Raise ValueError
  end.

(** [str(n)] / [f'{n}'] for an integer. *)
Definition str (n : Z) : string := NilZero.string_of_int (Z.to_int n).

(** [s.upper()] on ASCII. *)
Definition upper_ascii (c : ascii) : ascii :=
  let n := nat_of_ascii c in
  if ((97 <=? n)%nat && (n <=? 122)%nat)%bool then ascii_of_nat (n - 32) else c.

Fixpoint upper (s : string) : string :=
  match s with
  | EmptyString => EmptyString
  | String c s' => String (upper_ascii c) (upper s')
  end.

(** ** Sorting

    [sorted(xs)] and [sort_values] are modelled by an insertion sort on a
    boolean order. It is stable: among equal keys the earlier element stays
    first. pandas sorts with [kind='quicksort'], which promises no order
    among equal keys; no property below relies on the order of ties except
    where that is said explicitly. *)

Section Sorting.
Context {A : Type} (leb : A -> A -> bool).

Fixpoint insert_by (x : A) (l : list A) : list A :=
  match l with
  | [] => [x]
  | y :: l' => if leb x y then x :: l else y :: insert_by x l'
  end.

Definition sort_by (l : list A) : list A := fold_right insert_by [] l.

(** The order decided by [leb], as a relation. *)
Definition le_of : A -> A -> Prop := fun a b => leb a b = true.
End Sorting.

Definition sorted (l : list Z) : list Z := sort_by Z.leb l.

(** [Series.unique()] / [set(...)]: distinct values in order of first
    appearance. *)
Section Unique.
Context {A : Type} (eqb : A -> A -> bool).

Definition mem (x : A) (l : list A) : bool := existsb (eqb x) l.

Fixpoint unique_from (seen : list A) (l : list A) : list A :=
  match l with
  | [] => []
  | x :: l' =>
      if mem x seen then unique_from seen l'
      else x :: unique_from (x :: seen) l'
  end.

Definition unique (l : list A) : list A := unique_from [] l.
End Unique.

(** [Series.sum()] of a float column. *)
Definition sum (l : list Q) : Q := fold_right Qplus 0%Q l.

(** [any(mask)]. *)
Definition any (mask : list bool) : bool := existsb (fun b => b) mask.

End Py.

Import Py.

Notation "x <- m ;; k" := (Py.bind m (fun x => k))
  (at level 61, m at next level, right associativity).

(* ===================================================================== *)
(** * [src/create_star_schema.py]: dimension tables from the codebook     *)
(* ===================================================================== *)

Module StarSchema.

Definition MEASURE_VARS : list string := ["PERWT"; "AGE"; "HHINCOME"; "INCTOT"].
Definition EXCLUDE_VARS : list string := ["PERNUM"; "YEAR"].

(** A code held in a dimension table: [int(code)] when the codebook key
    parses, otherwise the key itself. *)
Inductive code : Type :=
| NumCode (n : Z)
| SymCode (s : string).

Definition code_eqb (a b : code) : bool :=
  match a, b with
  | NumCode x, NumCode y => Z.eqb x y
  | SymCode x, SymCode y => String.eqb x y
  | _, _ => false
  end.

Definition is_num (c : code) : bool :=
  match c with NumCode _ => true | SymCode _ => false end.

Definition is_sym (c : code) : bool := negb (is_num c).

(** [ipums_vars[var_name]]: the description and the [codes] dict, kept as
    an association list in insertion order (a dict has unique keys). *)
Record VariableDefinition : Type := {
  desc : string;
  codes : list (string * string)
}.

(** One row of [dim_df]: the columns [var], [var_value], [var_desc]. *)
Record DimEntry : Type := {
  dim_code : code;
  dim_value : string;
  dim_desc : string
}.

(** [try: code_val = int(code) except ValueError: code_val = code]. *)
Definition code_val (key : string) : code :=
  match Py.int key with
  | Ok n => NumCode n
  | Raise _ => SymCode key
  end.

Definition declared_entries (var_info : VariableDefinition) : list DimEntry :=
  map (fun kv => {| dim_code := code_val (fst kv);
                    dim_value := snd kv;
                    dim_desc := desc var_info |}) (codes var_info).

Definition undefined_entry (var_info : VariableDefinition) (val : Z) : DimEntry :=
  {| dim_code := NumCode val;
     dim_value := "Undefined code: " ++ Py.str val;
     dim_desc := desc var_info |}.

(** [actual_values - defined_values], as a duplicate-free list. *)
Definition missing_values (fact_column : list Z) (defined_values : list code) : list Z :=
  filter (fun v => negb (Py.mem code_eqb (NumCode v) defined_values))
         (Py.unique Z.eqb fact_column).

Definition code_leb (a b : code) : bool :=
  match a, b with
  | NumCode x, NumCode y => Z.leb x y
  | SymCode x, SymCode y => String.leb x y
  | _, _ => false
  end.

(** [dim_df.sort_values(var_name)]: an integer column sorts numerically, a
    column of strings sorts by code point, and a column holding both raises
    [TypeError] ('<' is not supported between [str] and [int]). *)
Definition sort_values (rows : list DimEntry) : result (list DimEntry) :=
  let col := map dim_code rows in
  if (forallb is_num col || forallb is_sym col)%bool
  then Ok (Py.sort_by (fun a b => code_leb (dim_code a) (dim_code b)) rows)
  else Raise TypeError.

(** The body of the loop of [create_dimension_tables] for one variable.
    With an empty [codes] dict, [pd.DataFrame([])] has no column and
    [dim_df[var_name]] raises [KeyError]. *)
Definition create_dimension_table
    (var_info : VariableDefinition) (fact_column : list Z)
  : result (list DimEntry) :=
  let dim_data := declared_entries var_info in
  match dim_data with
  | [] => Raise KeyError
  | _ :: _ =>
      let defined_values := Py.unique code_eqb (map dim_code dim_data) in
      let missing := missing_values fact_column defined_values in
      let dim_data :=
        (dim_data ++ map (undefined_entry var_info) (Py.sorted missing))%list in
      sort_values dim_data
  end.

(** The codes that the codebook declares for a variable, as they enter the
    table. *)
Definition declared_codes (var_info : VariableDefinition) : list code :=
  map (fun kv => code_val (fst kv)) (codes var_info).

(** The rows of [dim_data] handed to [sort_values] when [codes] is not
    empty. *)
Definition reconciled (var_info : VariableDefinition) (fact_column : list Z)
  : list DimEntry :=
  (declared_entries var_info
   ++ map (undefined_entry var_info)
          (Py.sorted (missing_values fact_column
                        (Py.unique code_eqb (map dim_code (declared_entries var_info))))))%list.

Fixpoint lookup {V : Type} (k : string) (d : list (string * V)) : option V :=
  match d with
  | [] => None
  | (k', v) :: d' => if String.eqb k k' then Some v else lookup k d'
  end.

(** [create_dimension_tables]: every column that is neither a measure nor
    excluded gets a table; a variable without a definition is skipped, and
    an exception raised for one variable ends the loop. *)
Definition create_dimension_tables
    (fact_df : list (string * list Z))
    (ipums_vars : list (string * VariableDefinition))
  : result (list (string * list DimEntry)) :=
  let dim_vars :=
    filter (fun col => negb (Py.mem String.eqb (fst col) MEASURE_VARS)
                       && negb (Py.mem String.eqb (fst col) EXCLUDE_VARS))
           fact_df in
  fold_left
    (fun acc col =>
       tables <- acc ;;
       match lookup (fst col) ipums_vars with
       | None => Ok tables
       | Some var_info =>
           dim_df <- create_dimension_table var_info (snd col) ;;
           Ok (tables ++ [(fst col, dim_df)])%list
       end)
    dim_vars (Ok []).

(** ** [save_fact_table] *)

(** [df.drop(columns=[var])]. *)
Definition drop_column {C : Type} (var : string) (df : list (string * C))
  : list (string * C) :=
  filter (fun col => negb (String.eqb (fst col) var)) df.

(** The fact table that is written: each excluded variable is dropped when
    it is a column. *)
Definition save_fact_table {C : Type} (fact_df : list (string * C))
  : list (string * C) :=
  fold_left
    (fun df var =>
       if Py.mem String.eqb var (map fst df) then drop_column var df else df)
    EXCLUDE_VARS fact_df.

(** ** The codes of one variable in [load_data] *)

(** A [catgry] element: its [catValu] and [labl] children. The outer [None]
    is a missing child, the inner one a child without text. *)
Record catgry : Type := {
  catValu : option (option string);
  labl : option (option string)
}.

(** [if text:] for the text of an element. *)
Definition truthy (text : option string) : bool :=
  match text with
  | None => false
  | Some EmptyString => false
  | Some _ => true
  end.

(** [d[k] = v] on a dict: a present key keeps its place and takes the new
    value, a new key goes last. *)
Fixpoint dict_set {V : Type} (k : string) (v : V) (d : list (string * V))
  : list (string * V) :=
  match d with
  | [] => [(k, v)]
  | (k', v') :: d' =>
      if String.eqb k k' then (k, v) :: d' else (k', v') :: dict_set k v d'
  end.

Definition add_catgry (codes : list (string * string)) (c : catgry)
  : list (string * string) :=
  match catValu c, labl c with
  | Some code_elem, Some label_elem =>
      match code_elem, label_elem with
      | Some code_value, Some code_label =>
          if truthy code_elem && truthy label_elem
          then dict_set code_value code_label codes
          else codes
      | _, _ => codes
      end
  | _, _ => codes
  end.

(** The loop over [var.findall('.//ddi:catgry')], from the empty dict. *)
Definition load_codes (catgries : list catgry) : list (string * string) :=
  fold_left add_catgry catgries [].

End StarSchema.


(* ===================================================================== *)
(** * [src/schema/create_star_schema.py]: fixed-band group tables         *)
(* ===================================================================== *)

Module Schema.

(** [(min_val, max_val, label)]. *)
Definition band : Type := (Z * Z * string)%type.

Definition income_groups : list band :=
  [ (-10000000, 0, "Negative or Zero");
    (1, 9999, "Under $10,000");
    (10000, 24999, "$10,000-$24,999");
    (25000, 49999, "$25,000-$49,999");
    (50000, 74999, "$50,000-$74,999");
    (75000, 99999, "$75,000-$99,999");
    (100000, 149999, "$100,000-$149,999");
    (150000, 10000000, "$150,000+") ].

Definition hhincome_groups : list band :=
  [ (-10000000, 0, "Negative or Zero");
    (1, 24999, "Under $25,000");
    (25000, 49999, "$25,000-$49,999");
    (50000, 74999, "$50,000-$74,999");
    (75000, 99999, "$75,000-$99,999");
    (100000, 149999, "$100,000-$149,999");
    (150000, 199999, "$150,000-$199,999");
    (200000, 10000000, "$200,000+");
    (9999999, 9999999, "N/A or Missing") ].

Definition in_band (b : band) (income : Z) : bool :=
  let '(min_val, max_val, _) := b in
  (min_val <=? income) && (income <=? max_val).

Definition band_label (b : band) : string := snd b.

(** The inner loop: [group = 'Unknown'], then the first band with
    [min_val <= income <= max_val] sets the label and breaks. *)
Fixpoint assign_group (groups : list band) (income : Z) : string :=
  match groups with
  | [] => "Unknown"
  | b :: rest => if in_band b income then band_label b else assign_group rest income
  end.

Definition group_table (groups : list band) (column : list Z) : list (Z * string) :=
  map (fun income => (income, assign_group groups income))
      (Py.sorted (Py.unique Z.eqb column)).

(** [create_income_groups]: nothing is written when the fact table has no
    [INCTOT] column. *)
Definition create_income_groups (INCTOT : option (list Z)) : option (list (Z * string)) :=
  option_map (group_table income_groups) INCTOT.

Definition create_household_income_groups (HHINCOME : option (list Z))
  : option (list (Z * string)) :=
  option_map (group_table hhincome_groups) HHINCOME.

(** ** [create_dimension_tables] of this builder *)

(** One variable: [int(code)] for every key, in the order of the codebook;
    a key that is not an integer raises [ValueError]. *)
Definition create_dimension_table (codes : list (string * string))
  : result (list (Z * string)) :=
  Py.mapM (fun kv => n <- Py.int (fst kv) ;; Ok (n, snd kv)) codes.

Definition create_dimension_tables (ipums_vars : list (string * list (string * string)))
  : result (list (string * list (Z * string))) :=
  Py.mapM (fun var => dim_df <- create_dimension_table (snd var) ;;
                      Ok (fst var, dim_df))
          ipums_vars.

(** ** [create_age_groups] *)

Definition age_groups : list band :=
  [ (0, 4, "Under 5"); (5, 17, "5-17"); (18, 24, "18-24"); (25, 34, "25-34");
    (35, 44, "35-44"); (45, 54, "45-54"); (55, 64, "55-64"); (65, 74, "65-74");
    (75, 120, "75+") ].

(** [range(start, stop)]. *)
Definition range (start stop : Z) : list Z :=
  map (fun i => start + Z.of_nat i) (seq 0 (Z.to_nat (stop - start))).

(** The two nested loops: one row per age of each band. *)
Definition age_rows (groups : list band) : list (Z * string) :=
  flat_map
    (fun b : band =>
       let '(min_age, max_age, label) := b in
       map (fun age => (age, label)) (range min_age (max_age + 1)))
    groups.

Definition create_age_groups (AGE : option (list Z)) : option (list (Z * string)) :=
  option_map (fun _ => age_rows age_groups) AGE.

End Schema.

(* ===================================================================== *)
(** * [src/schema/verify_dim_tables.py]                                   *)
(* ===================================================================== *)

Module Verify.

(** The table is the one that [pd.read_csv] returns: per row the code and
    the cell of the value column, which is the text of a label or [None] for
    a cell read as NaN (an empty field, or a label such as [N/A] that is one
    of the missing-value markers of [read_csv]). *)

(** What [verify_dim_table] prints for a table that has both columns: the
    codebook codes absent from the table, the table codes absent from the
    codebook, and per mismatching row the code, the expected and the found
    value. *)
Record Report : Type := {
  missing_codes : list string;
  extra_codes : list string;
  mismatches : list (string * string * option string)
}.

(** [value != expected_value]: NaN differs from every string. *)
Definition differs (value : option string) (expected_value : string) : bool :=
  match value with
  | Some text => negb (String.eqb text expected_value)
  | None => true
  end.

Definition sorted_strings (l : list string) : list string :=
  Py.sort_by String.leb l.

Definition verify_dim_table (dim_df : list (Z * option string))
    (ipums_codes : list (string * string)) : Report :=
  (* dim_df[code_col].astype(str) *)
  let dim_df := map (fun row => (Py.str (fst row), snd row)) dim_df in
  let dim_codes := Py.unique String.eqb (map fst dim_df) in
  let ipums_code_set := map fst ipums_codes in
  {| missing_codes :=
       sorted_strings
         (filter (fun k => negb (Py.mem String.eqb k dim_codes)) ipums_code_set);
     extra_codes :=
       sorted_strings
         (filter (fun k => negb (Py.mem String.eqb k ipums_code_set)) dim_codes);
     mismatches :=
       flat_map
         (fun row =>
            match StarSchema.lookup (fst row) ipums_codes with
            | Some expected_value =>
                if differs (snd row) expected_value
                then [(fst row, expected_value, snd row)]
                else []
            | None => []
            end)
         dim_df |}.

End Verify.

(* ===================================================================== *)
(** * The fact relation                                                   *)
(* ===================================================================== *)

(** One respondent: the columns of [fact_acs_2023.csv] that the analysers
    read. *)
Record FactRow : Type := {
  STATEFIP : Z;
  EDUC : Z;
  AGE : Z;
  INCTOT : Z;
  PERWT : Q;
  CINETHH : Z;
  CISMRTPHN : Z
}.

(* ===================================================================== *)
(** * [src/analyze_weighted_stats.py]: buckets and grouped statistics     *)
(* ===================================================================== *)

Module AccessStats.

(** ** [pd.cut] with explicit bin edges *)

Inductive edge : Type :=
| NegInf
| Fin (z : Z)
| PosInf.

Definition edge_ltb (a b : edge) : bool :=
  match a, b with
  | NegInf, NegInf => false
  | NegInf, _ => true
  | Fin x, Fin y => x <? y
  | Fin _, PosInf => true
  | _, _ => false
  end.

Definition edge_leb (a b : edge) : bool := negb (edge_ltb b a).

(** [pd.cut(x, bins, labels)] with the defaults [right=True],
    [include_lowest=False]: the i-th label is given to the values of
    [(bins[i], bins[i+1]]]; a value in no interval becomes NaN. *)
Fixpoint cut (bins : list edge) (labels : list string) (x : Z) : option string :=
  match bins, labels with
  | lo :: ((hi :: _) as rest), l :: ls =>
      if edge_ltb lo (Fin x) && edge_leb (Fin x) hi then Some l
      else cut rest ls x
  | _, _ => None
  end.

Definition pd_cut (column : list Z) (bins : list edge) (labels : list string)
  : list (option string) :=
  map (cut bins labels) column.

Definition age_bins : list edge :=
  [Fin 0; Fin 18; Fin 25; Fin 35; Fin 50; Fin 65; Fin 100].
Definition age_labels : list string :=
  ["0-18"; "19-25"; "26-35"; "36-50"; "51-65"; "65+"].

Definition age_bucket (age : Z) : option string := cut age_bins age_labels age.

(** ** Categorical series *)

(** A Series of dtype [category]: the dtype (categories and orderedness) and
    the cells. *)
Record Categorical : Type := {
  categories : list string;
  ordered : bool;
  cells : list (option string)
}.

(** [pd.Series(index=index, dtype='category')]: all cells NaN, no category. *)
Definition empty_categorical {A : Type} (index : list A) : Categorical :=
  {| categories := []; ordered := false; cells := map (fun _ => None) index |}.

Fixpoint putmask {A : Type} (old : list A) (mask : list bool) (new : list A) : list A :=
  match old, mask, new with
  | o :: old', m :: mask', n :: new' =>
      (if m then n else o) :: putmask old' mask' new'
  | _, _, _ => old
  end.

(** [ser[mask] = value] for a scalar. A Categorical only accepts values
    among its categories: any other value raises [TypeError] (Cannot setitem
    on a Categorical with a new category, set the categories first). Recent
    pandas returns before that test when the mask selects nothing, which is
    the behaviour kept here; older versions raise under any mask. *)
Definition setitem_scalar (ser : Categorical) (mask : list bool) (value : string)
  : result Categorical :=
  if negb (Py.any mask) then Ok ser
  else if Py.mem String.eqb value (categories ser)
  then Ok {| categories := categories ser; ordered := ordered ser;
             cells := putmask (cells ser) mask (map (fun _ => Some value) mask) |}
  else Raise TypeError.

Definition same_dtype (a b : Categorical) : bool :=
  (if list_eq_dec string_dec (categories a) (categories b) then true else false)
  && Bool.eqb (ordered a) (ordered b).

(** [value] reindexed on the whole index: the cells of [value] at the true
    positions of [mask], NaN elsewhere. *)
Fixpoint align (mask : list bool) (value : list (option string)) : list (option string) :=
  match mask with
  | [] => []
  | true :: mask' =>
      match value with
      | v :: value' => v :: align mask' value'
      | [] => None :: align mask' []
      end
  | false :: mask' => None :: align mask' value
  end.

(** [ser[mask] = value] for a categorical Series: the cells are taken from
    [value] aligned on the index of [ser]. A Categorical can only be set from
    another one of identical dtype, that is with the same categories and
    orderedness; otherwise the assignment raises [TypeError] (Cannot set a
    Categorical with another, without identical categories). *)
Definition setitem_series (ser : Categorical) (mask : list bool) (value : Categorical)
  : result Categorical :=
  if negb (Py.any mask) then Ok ser
  else if same_dtype ser value
  then Ok {| categories := categories ser; ordered := ordered ser;
             cells := putmask (cells ser) mask (align mask (cells value)) |}
  else Raise TypeError.

(** ** [create_income_buckets] *)

Definition n_quantiles : nat := 7.

Definition quantile_labels : list string :=
  ["Very Low Income"; "Low Income"; "Lower Middle"; "Middle";
   "Upper Middle"; "High"; "Very High"].

Definition fallback_bins : list edge :=
  [NegInf; Fin 0; Fin 20000; Fin 40000; Fin 60000; Fin 100000; PosInf].
Definition fallback_labels : list string :=
  ["No Income"; "Very Low"; "Low"; "Middle"; "High"; "Very High"].

(** [income_data.clip(lower=0)]. *)
Definition clip (lower : Z) (column : list Z) : list Z := map (Z.max lower) column.

(** [column[mask]]. *)
Fixpoint select {A : Type} (column : list A) (mask : list bool) : list A :=
  match column, mask with
  | x :: column', m :: mask' =>
      if m then x :: select column' mask' else select column' mask'
  | _, _ => []
  end.

Section IncomeBuckets.

(** [pd.qcut(values, q, labels, duplicates='drop')] is numpy's quantile
    arithmetic and stays abstract: it either raises or gives each value one
    of the labels. When it succeeds the Series it returns is an ordered
    categorical whose categories are the labels passed in. *)
Variable qcut : list Z -> nat -> list string -> result (list string).

Definition pd_qcut (values : list Z) (q : nat) (labels : list string)
  : result Categorical :=
  assigned <- qcut values q labels ;;
  Ok {| categories := labels; ordered := true; cells := map Some assigned |}.

(** The body of the [try] block. [result] starts as a categorical Series
    without categories, and both assignments go through the rules above. *)
Definition quantile_buckets (income_data : list Z) : result (list (option string)) :=
  let positive_mask := map (fun x => 0 <? x) income_data in
  if Py.any positive_mask then
    buckets <- pd_qcut (select income_data positive_mask) n_quantiles quantile_labels ;;
    let ser := empty_categorical income_data in
    ser <- setitem_scalar ser (map (fun x => x =? 0) income_data) "No Income" ;;
    ser <- setitem_series ser positive_mask buckets ;;
    Ok (cells ser)
  else Ok (map (fun _ => Some "No Income") income_data).

Definition create_income_buckets (income_data : list Z) : list (option string) :=
  let income_data := clip 0 income_data in
  Py.try_except
    (quantile_buckets income_data)
    (fun _ => pd_cut income_data fallback_bins fallback_labels).

(** ** [load_and_prepare_data], after the files are read *)

Record PreparedRow : Type := {
  fact : FactRow;
  AGE_BUCKET : option string;
  INCTOT_BUCKET : option string
}.

Fixpoint zip3 (rows : list FactRow) (ages incomes : list (option string))
  : list PreparedRow :=
  match rows, ages, incomes with
  | r :: rows', a :: ages', i :: incomes' =>
      {| fact := r; AGE_BUCKET := a; INCTOT_BUCKET := i |} :: zip3 rows' ages' incomes'
  | _, _, _ => []
  end.

Definition load_and_prepare_data (fact_df : list FactRow) : list PreparedRow :=
  let internet_data := filter (fun r => negb (CINETHH r =? 9)) fact_df in
  zip3 internet_data
       (pd_cut (map AGE internet_data) age_bins age_labels)
       (create_income_buckets (map INCTOT internet_data)).

End IncomeBuckets.

(** ** [calculate_weighted_access_stats] *)

Record AccessStat : Type := {
  dimension_value : Z;
  population_estimate : Q;
  internet_percentage : Q
}.

(** [np.average(a, weights=w)] for a boolean [a], in exact arithmetic:
    raises [ZeroDivisionError] when the weights sum to zero. *)
Definition np_average (a : list bool) (weights : list Q) : result Q :=
  let scl := Py.sum weights in
  if Qeq_bool scl 0 then Raise ZeroDivisionError
  else
    let weighted := map (fun aw : bool * Q => if fst aw then snd aw else 0%Q)
                        (combine a weights) in
    Ok (Py.sum weighted / scl)%Q.

(** [sort_values(col, ascending=False)]. *)
Definition sort_values_desc {A : Type} (col : A -> Q) (rows : list A) : list A :=
  Py.sort_by (fun a b => Qle_bool (col b) (col a)) rows.

Section Grouped.
Context {Row : Type}.
Variables (group_col : Row -> Z) (weight_col : Row -> Q) (access_col : Row -> Z).

(** The rows of one group of [data_frame.groupby(group_col)]. *)
Definition group_rows (data_frame : list Row) (g : Z) : list Row :=
  filter (fun r => group_col r =? g) data_frame.

(** The group keys, which [groupby] yields in ascending order. *)
Definition group_keys (data_frame : list Row) : list Z :=
  Py.sorted (Py.unique Z.eqb (map group_col data_frame)).

Definition group_stat (data_frame : list Row) (g : Z) : result AccessStat :=
  let x := group_rows data_frame g in
  avg <- np_average (map (fun r => access_col r =? 1) x) (map weight_col x) ;;
  Ok {| dimension_value := g;
        population_estimate := Py.sum (map weight_col x);
        internet_percentage := (avg * 100)%Q |}.

Definition calculate_weighted_access_stats (data_frame : list Row)
  : result (list AccessStat) :=
  grouped_stats <- Py.mapM (group_stat data_frame) (group_keys data_frame) ;;
  Ok (sort_values_desc internet_percentage grouped_stats).

End Grouped.

(** ** [merge_dimension_descriptions] *)

(** A dimension table as read back from [dim_<name>.csv]: its column names
    and, per row, the code with the cell of the [<NAME>_value] column. A cell
    is the text of the label, or [None] for a cell that [pd.read_csv] returns
    as NaN (an empty field, or a label such as [N/A] that is one of its
    missing-value markers). *)
Record DimRow : Type := {
  code : Z;
  value : option string
}.

Record DimTable : Type := {
  columns : list string;
  rows : list DimRow
}.

(** A statistics row after the merge; [label] is its [<NAME>_value] cell and
    [None] is a null cell. A frame returned unmerged has no label column and
    is given as rows without a label. *)
Record Labeled (Stat : Type) : Type := {
  stat : Stat;
  label : option string
}.
Arguments stat {Stat} _.
Arguments label {Stat} _.

(** [pd.merge(left, right, left_on=.., right_on=.., how='left')]: the left
    rows in their order, each once per matching right row with the cell of
    that row, or once with nulls when nothing matches. *)
Definition merge_left {Stat : Type} (key : Stat -> Z) (left : list Stat)
    (right : list DimRow) : list (Labeled Stat) :=
  flat_map
    (fun s =>
       match filter (fun d => code d =? key s) right with
       | [] => [ {| stat := s; label := None |} ]
       | matches => map (fun d => {| stat := s; label := value d |}) matches
       end)
    left.

(** No dimension row carries the key of [s]. *)
Definition unmatched {Stat : Type} (key : Stat -> Z) (s : Stat)
    (right : list DimRow) : Prop :=
  forall d, In d right -> code d <> key s.

Definition unlabeled {Stat : Type} (stats : list Stat) : list (Labeled Stat) :=
  map (fun s => {| stat := s; label := None |}) stats.

Definition merge_dimension_descriptions
    (stats_df : list AccessStat) (dim_table : DimTable) (dim_name : string)
  : result (list (Labeled AccessStat)) :=
  if negb (Py.mem String.eqb dim_name ["AGE_BUCKET"; "INCTOT_BUCKET"]) then
    let dim_col := Py.upper dim_name in
    let value_col := dim_col ++ "_value" in
    if Py.mem String.eqb value_col (columns dim_table) then
      if Py.mem String.eqb dim_col (columns dim_table)
      then Ok (merge_left dimension_value stats_df (rows dim_table))
      else Raise KeyError
    else Ok (unlabeled stats_df)
  else Ok (unlabeled stats_df).

(** [analyze_dimension] for a coded dimension; [group_col] is the accessor
    of the column [dim_name.upper()]. *)
Definition analyze_dimension {Row : Type} (internet_data : list Row)
    (PERWT_col : Row -> Q) (CINETHH_col : Row -> Z)
    (dim_table : DimTable) (dim_name : string) (group_col : Row -> Z)
  : result (list (Labeled AccessStat)) :=
  access_stats <- calculate_weighted_access_stats group_col PERWT_col CINETHH_col internet_data ;;
  merge_dimension_descriptions access_stats dim_table dim_name.

(** ** The summary kept by [main] for one dimension *)

(** [Series.max()] and [Series.min()]; an empty Series gives NaN. *)
Definition max_from (x : Q) (l : list Q) : Q :=
  fold_left (fun m y => if Qle_bool m y then y else m) l x.

Definition min_from (x : Q) (l : list Q) : Q :=
  fold_left (fun m y => if Qle_bool y m then y else m) l x.

Definition series_max (l : list Q) : option Q :=
  match l with
  | [] => None
  | x :: l' => Some (max_from x l')
  end.

Definition series_min (l : list Q) : option Q :=
  match l with
  | [] => None
  | x :: l' => Some (min_from x l')
  end.

Record Summary : Type := {
  highest_access : option Q;
  lowest_access : option Q;
  access_range : option Q
}.

Definition summarize (results_df : list (Labeled AccessStat)) : Summary :=
  let col := map (fun r => internet_percentage (stat r)) results_df in
  {| highest_access := series_max col;
     lowest_access := series_min col;
     access_range :=
       match series_max col, series_min col with
       | Some hi, Some lo => Some (hi - lo)%Q
       | _, _ => None
       end |}.

End AccessStats.


(* ===================================================================== *)
(** * [src/analysis/analyze_weighted_stats.py]: [TechnologyAccessAnalyzer] *)
(* ===================================================================== *)

Module Analyzer.

Import AccessStats.

(** The state of the analyser after the three files are read. *)
Record TechnologyAccessAnalyzer : Type := {
  fact_df : list FactRow;
  state_dim : list DimRow;
  educ_dim : list DimRow
}.

(** [load_data]: the rows whose condition column does not carry the
    missing-data code 9. *)
Definition valid_internet (self : TechnologyAccessAnalyzer) : list FactRow :=
  filter (fun r => negb (CINETHH r =? 9)) (fact_df self).

Definition valid_smartphone (self : TechnologyAccessAnalyzer) : list FactRow :=
  filter (fun r => negb (CISMRTPHN r =? 9)) (fact_df self).

(** The percentage in exact arithmetic; its rounding in float64 is the
    subject of [Float64.calculate_weighted_percentage] below. *)
Definition calculate_weighted_percentage {Row : Type} (df : list Row)
    (weight_col : Row -> Q) (condition_col : Row -> Z) (condition_value : Z) : Q :=
  let total_weight := Py.sum (map weight_col df) in
  if Qeq_bool total_weight 0 then 0%Q
  else
    let condition_weight :=
      Py.sum (map weight_col
                  (filter (fun r => condition_col r =? condition_value) df)) in
    (condition_weight / total_weight * 100)%Q.

(** One dict appended to [state_stats] / [educ_stats]. *)
Record TechStat : Type := {
  group_code : Z;
  internet_percentage : Q;
  smartphone_percentage : Q;
  population_estimate : Q
}.

Section ByDimension.
Variable self : TechnologyAccessAnalyzer.
(** [STATEFIP] or [EDUC]. *)
Variable dim_col : FactRow -> Z.

(** The body of the [for] loop for one dimension code. *)
Definition code_stats (dim_code : Z) : list TechStat :=
  let dim_internet := filter (fun r => dim_col r =? dim_code) (valid_internet self) in
  let dim_smartphone := filter (fun r => dim_col r =? dim_code) (valid_smartphone self) in
  if ((0 <? List.length dim_internet) && (0 <? List.length dim_smartphone))%nat then
    let internet_pct := calculate_weighted_percentage dim_internet PERWT CINETHH 1 in
    let smartphone_pct := calculate_weighted_percentage dim_smartphone PERWT CISMRTPHN 1 in
    let population := Py.sum (map PERWT dim_internet) in
    [ {| group_code := dim_code;
         internet_percentage := internet_pct;
         smartphone_percentage := smartphone_pct;
         population_estimate := population |} ]
  else [].

Definition collect_stats (dim_codes : list Z) : list TechStat :=
  flat_map code_stats dim_codes.

(** The tail of both analyses: build the frame, merge the dimension on the
    code column, sort by [internet_percentage] descending. A frame built from
    an empty list has no column, and merging on the code column raises
    [KeyError]. *)
Definition merge_and_sort (stats : list TechStat) (dim : list DimRow)
  : result (list (Labeled TechStat)) :=
  match stats with
  | [] => Raise KeyError
  | _ :: _ =>
      let stats_df := merge_left group_code stats dim in
      Ok (sort_values_desc (fun r => internet_percentage (stat r)) stats_df)
  end.

End ByDimension.

Definition analyze_by_state (self : TechnologyAccessAnalyzer)
  : result (list (Labeled TechStat)) :=
  let state_stats := collect_stats self STATEFIP (map code (state_dim self)) in
  merge_and_sort state_stats (state_dim self).

Definition analyze_by_education (self : TechnologyAccessAnalyzer)
  : result (list (Labeled TechStat)) :=
  let educ_stats := collect_stats self EDUC (Py.sorted (map code (educ_dim self))) in
  merge_and_sort educ_stats (educ_dim self).

(** ** The figures of [generate_summary_statistics] *)

(** [Series.mean()]; NaN on an empty Series. *)
Definition series_mean (l : list Q) : option Q :=
  match l with
  | [] => None
  | _ :: _ => Some (Py.sum l / inject_Z (Z.of_nat (List.length l)))%Q
  end.

(** [df.head()] and [df.tail()]: the first and the last five rows. *)
Definition head {A : Type} (df : list A) : list A := firstn 5 df.
Definition tail {A : Type} (df : list A) : list A :=
  skipn (List.length df - 5) df.

Record SummaryStatistics : Type := {
  national_average_internet : option Q;
  national_average_smartphone : option Q;
  top_states : list (Labeled TechStat);
  bottom_states : list (Labeled TechStat);
  (** the row printed as [Highest], with the figure printed next to it *)
  highest_education : Labeled TechStat * Q;
  lowest_education : Labeled TechStat * Q;
  internet_range : option Q;
  states_higher_smartphone : nat
}.

(** The figures that are logged. On an empty education frame
    [educ_stats_df['EDUC_value'].iloc[0]] raises [IndexError]: that is the
    [None] result. *)
Definition generate_summary_statistics
    (state_stats_df educ_stats_df : list (Labeled TechStat))
  : option SummaryStatistics :=
  let pct := fun r : Labeled TechStat => internet_percentage (stat r) in
  match educ_stats_df with
  | [] => None
  | first_row :: rest =>
      Some
        {| national_average_internet := series_mean (map pct state_stats_df);
           national_average_smartphone :=
             series_mean (map (fun r => smartphone_percentage (stat r)) state_stats_df);
           top_states := head state_stats_df;
           bottom_states := tail state_stats_df;
           highest_education := (first_row, max_from (pct first_row) (map pct rest));
           lowest_education :=
             (List.last rest first_row, min_from (pct first_row) (map pct rest));
           internet_range :=
             match series_max (map pct state_stats_df),
                   series_min (map pct state_stats_df) with
             | Some hi, Some lo => Some (hi - lo)%Q
             | _, _ => None
             end;
           states_higher_smartphone :=
             List.length
               (filter (fun r => negb (Qle_bool (smartphone_percentage (stat r))
                                                (internet_percentage (stat r))))
                       state_stats_df) |}
  end.

End Analyzer.


(* ===================================================================== *)
(** * [calculate_weighted_percentage] in binary64                         *)
(* ===================================================================== *)

(** The percentage as the program computes it, in float64, for a weight
    column that holds non-negative whole numbers whose total is below 2^53.
    On such a column every partial sum is a whole number below 2^53, so
    [Series.sum()] is exact whatever the order in which pandas adds the
    cells, and the sums are given as integers. The two operations that round
    are the division and the multiplication by 100, in the order of the
    source: [condition_weight / total_weight * 100]. *)
Module Float64.

(** The float64 value of a whole number (exact below 2^53). *)
Definition of_whole (n : Z) : PrimFloat.float :=
  PrimFloat.of_uint63 (Uint63.of_Z n).

(** [Series.sum()] of a column of whole numbers. *)
Definition whole_sum (l : list Z) : Z := fold_right Z.add 0 l.

(** [load_data]: [df[df[condition_col] != 9]]. *)
Definition drop_missing {Row : Type} (condition_col : Row -> Z) (df : list Row)
  : list Row :=
  filter (fun r => negb (condition_col r =? 9)) df.

Definition calculate_weighted_percentage {Row : Type} (df : list Row)
    (weight_col : Row -> Z) (condition_col : Row -> Z) (condition_value : Z)
  : PrimFloat.float :=
  let total_weight := whole_sum (map weight_col df) in
  if total_weight =? 0 then of_whole 0
  else
    let condition_weight :=
      whole_sum (map weight_col
                     (filter (fun r => condition_col r =? condition_value) df)) in
    PrimFloat.mul
      (PrimFloat.div (of_whole condition_weight) (of_whole total_weight))
      (of_whole 100).

End Float64.


(* ===================================================================== *)
(** * Vocabulary of the statements                                        *)
(* ===================================================================== *)

Module Spec.

(** The sum of [weight] over the rows that satisfy [p]. *)
Fixpoint weight_where {Row : Type} (p : Row -> bool) (weight : Row -> Q)
    (rows : list Row) : Q :=
  match rows with
  | [] => 0%Q
  | r :: rows' =>
      if p r then (weight r + weight_where p weight rows')%Q
      else weight_where p weight rows'
  end.

(** The same sum for a weight column of whole numbers. *)
Fixpoint whole_weight_where {Row : Type} (p : Row -> bool) (weight : Row -> Z)
    (rows : list Row) : Z :=
  match rows with
  | [] => 0
  | r :: rows' =>
      if p r then weight r + whole_weight_where p weight rows'
      else whole_weight_where p weight rows'
  end.

(** The number of rows that satisfy [p]. *)
Fixpoint count_where {Row : Type} (p : Row -> bool) (rows : list Row) : nat :=
  match rows with
  | [] => 0%nat
  | r :: rows' => if p r then S (count_where p rows') else count_where p rows'
  end.

(** [x] belongs to group [c] of [dim_col] and its [condition_col] does not
    carry the missing-data code 9. *)
Definition valid (condition_col dim_col : FactRow -> Z) (c : Z) (x : FactRow) : bool :=
  negb (condition_col x =? 9) && (dim_col x =? c).

(** Some row of group [c] does not carry the missing-data code in
    [condition_col]. *)
Definition has_valid_row (condition_col dim_col : FactRow -> Z) (c : Z)
    (rows : list FactRow) : Prop :=
  exists x, In x rows /\ dim_col x = c /\ condition_col x <> 9.

(** The (code, label) pairs of the categories that [load_data] accepts, in
    document order. *)
Definition valid_pairs (catgries : list StarSchema.catgry) : list (string * string) :=
  flat_map
    (fun c =>
       match StarSchema.catValu c, StarSchema.labl c with
       | Some (Some (String a v)), Some (Some (String b l)) =>
           [(String a v, String b l)]
       | _, _ => []
       end)
    catgries.

(** A column of the fact table that needs a dimension table. *)
Definition is_dim_var {C : Type} (col : string * C) : bool :=
  negb (Py.mem String.eqb (fst col) StarSchema.MEASURE_VARS)
  && negb (Py.mem String.eqb (fst col) StarSchema.EXCLUDE_VARS).

(** The variable of [col] has a definition in the codebook. *)
Definition has_definition {C : Type}
    (ipums_vars : list (string * StarSchema.VariableDefinition))
    (col : string * C) : bool :=
  match StarSchema.lookup (fst col) ipums_vars with
  | Some _ => true
  | None => false
  end.

(** One turn of the loop of [create_dimension_tables]. *)
Definition dimension_step
    (ipums_vars : list (string * StarSchema.VariableDefinition))
    (acc : result (list (string * list StarSchema.DimEntry)))
    (col : string * list Z)
  : result (list (string * list StarSchema.DimEntry)) :=
  tables <- acc ;;
  match StarSchema.lookup (fst col) ipums_vars with
  | None => Ok tables
  | Some var_info =>
      dim_df <- StarSchema.create_dimension_table var_info (snd col) ;;
      Ok (tables ++ [(fst col, dim_df)])%list
  end.

(** [row] is the table built for the column [col]. *)
Definition table_of
    (ipums_vars : list (string * StarSchema.VariableDefinition))
    (col : string * list Z) (row : string * list StarSchema.DimEntry) : Prop :=
  fst row = fst col
  /\ exists var_info,
      StarSchema.lookup (fst col) ipums_vars = Some var_info
      /\ StarSchema.create_dimension_table var_info (snd col) = Ok (snd row).

(** Descending by percentage. *)
Definition descending {A : Type} (pct : A -> Q) (out : list A) : Prop :=
  StronglySorted (fun a b => (pct b <= pct a)%Q) out.

(** Groups of equal percentage appear in ascending order of group value. *)
Definition ties_ascending {A : Type} (pct : A -> Q) (group : A -> Z)
    (out : list A) : Prop :=
  forall (i j : nat) (a b : A),
    (i < j)%nat -> nth_error out i = Some a -> nth_error out j = Some b ->
    (pct a == pct b)%Q -> group a <= group b.

End Spec.


(* ===================================================================== *)
(** * Inputs of the concrete scenarios                                    *)
(* ===================================================================== *)

Module Scenario.

(** Scenario 3: the age bands written as inclusive triples. *)
Definition age_bands : list Schema.band :=
  [ (0, 18, "0-18"); (19, 25, "19-25"); (26, 35, "26-35");
    (36, 50, "36-50"); (51, 65, "51-65"); (65, 100, "65+") ].

Definition ages : list Z := [-5; 0; 18; 19; 100; 999].

Definition expected_buckets : list string :=
  ["0-18"; "0-18"; "0-18"; "19-25"; "65+"; "Unknown"].

(** A respondent of state [s] with weight [w], internet code [c] and
    smartphone code [p]. *)
Definition respondent (s : Z) (w : Q) (c p : Z) : FactRow :=
  {| STATEFIP := s; EDUC := 6; AGE := 40; INCTOT := 30000;
     PERWT := w; CINETHH := c; CISMRTPHN := p |}.

(** Scenario 1: (weight, condition) = (10,1), (10,0), (5,1), (5,9). *)
Definition four_rows : list FactRow :=
  [ respondent 1 10 1 1; respondent 1 10 0 1;
    respondent 1 5 1 1; respondent 1 5 9 1 ].

(** Scenario 1 as (weight, condition) pairs. *)
Definition weighted_pairs : list (Z * Z) := [(10, 1); (10, 0); (5, 1); (5, 9)].

(** Twenty rows of weight 1, eleven of which satisfy the condition. *)
Definition unit_pairs : list (Z * Z) :=
  (repeat (1, 1) 11 ++ repeat (1, 0) 9)%list.

(** Two states that both reach 100 percent, listed in the dimension table
    with code 2 before code 1. *)
Definition tied_states : Analyzer.TechnologyAccessAnalyzer :=
  {| Analyzer.fact_df := [respondent 1 10 1 1; respondent 2 10 1 1];
     Analyzer.state_dim := [ {| AccessStats.code := 2; AccessStats.value := Some "B" |};
                             {| AccessStats.code := 1; AccessStats.value := Some "A" |} ];
     Analyzer.educ_dim := [] |}.

(** The four rows with their state in the dimension table. *)
Definition four_rows_analyzer : Analyzer.TechnologyAccessAnalyzer :=
  {| Analyzer.fact_df := four_rows;
     Analyzer.state_dim := [ {| AccessStats.code := 1; AccessStats.value := Some "A" |} ];
     Analyzer.educ_dim := [ {| AccessStats.code := 6; AccessStats.value := Some "Grade 12" |} ] |}.

End Scenario.


(* ===================================================================== *)
(** * Properties                                                          *)
(* ===================================================================== *)

(** ** Sorting and distinct values *)

Section SortingFacts.
Context {A : Type} (leb : A -> A -> bool).

Lemma insert_by_perm (x : A) (l : list A) :
  Permutation (Py.insert_by leb x l) (x :: l).
Proof.
  induction l as [|y l IH]; simpl.
  - apply Permutation_refl.
  - destruct (leb x y).
    + apply Permutation_refl.
    + eapply perm_trans; [apply perm_skip, IH | apply perm_swap].
Qed.

Lemma sort_by_perm (l : list A) : Permutation (Py.sort_by leb l) l.
Proof.
  induction l as [|x l IH]; simpl.
  - constructor.
  - eapply perm_trans; [apply insert_by_perm | now apply perm_skip].
Qed.

Lemma sort_by_In (l : list A) (x : A) : In x (Py.sort_by leb l) <-> In x l.
Proof.
  split; apply Permutation_in;
    [apply sort_by_perm | apply Permutation_sym, sort_by_perm].
Qed.

Hypothesis leb_total : forall a b, leb a b = false -> leb b a = true.

Lemma insert_by_HdRel (a x : A) (l : list A) :
  Py.le_of leb a x -> HdRel (Py.le_of leb) a l ->
  HdRel (Py.le_of leb) a (Py.insert_by leb x l).
Proof.
  intros Hax Hl. destruct l as [|y l]; simpl.
  - now constructor.
  - destruct (leb x y); constructor; trivial.
    now inversion Hl.
Qed.

Lemma insert_by_sorted (x : A) (l : list A) :
  Sorted (Py.le_of leb) l -> Sorted (Py.le_of leb) (Py.insert_by leb x l).
Proof.
  induction 1 as [|y l Hs IH Hhd]; simpl.
  - repeat constructor.
  - destruct (leb x y) eqn:E.
    + constructor; [now constructor | now constructor].
    + constructor; [exact IH |].
      apply insert_by_HdRel; [now apply leb_total | exact Hhd].
Qed.

Lemma sort_by_sorted (l : list A) : Sorted (Py.le_of leb) (Py.sort_by leb l).
Proof.
  induction l as [|x l IH]; simpl.
  - constructor.
  - now apply insert_by_sorted.
Qed.

End SortingFacts.

Lemma sorted_perm (l : list Z) : Permutation (Py.sorted l) l.
Proof. apply sort_by_perm. Qed.

Section UniqueFacts.
Context {A : Type} (eqb : A -> A -> bool).
Hypothesis eqb_spec : forall a b, eqb a b = true <-> a = b.

Lemma mem_In (x : A) (l : list A) : Py.mem eqb x l = true <-> In x l.
Proof.
  unfold Py.mem. rewrite existsb_exists. split.
  - intros [y [Hy E]]. apply eqb_spec in E. now subst.
  - intros H. exists x. split; [exact H | now apply eqb_spec].
Qed.

Lemma mem_false (x : A) (l : list A) : Py.mem eqb x l = false <-> ~ In x l.
Proof.
  rewrite <- mem_In. destruct (Py.mem eqb x l); split; congruence.
Qed.

Lemma unique_from_In (l seen : list A) (x : A) :
  In x (Py.unique_from eqb seen l) <-> In x l /\ ~ In x seen.
Proof.
  revert seen. induction l as [|y l IH]; intros seen; simpl.
  - tauto.
  - destruct (Py.mem eqb y seen) eqn:E.
    + apply mem_In in E. rewrite IH. split.
      * intros [H1 H2]. tauto.
      * intros [[->|H1] H2]; tauto.
    + apply mem_false in E. simpl. rewrite IH. simpl. split.
      * intros [->|[H1 H2]]; [tauto|]. split; [tauto|]. intros H. apply H2. now right.
      * intros [[->|H1] H2]; [now left|].
        destruct (eqb y x) eqn:Eyx.
        -- apply eqb_spec in Eyx. now left.
        -- right. split; [exact H1|]. intros [->|H]; [|tauto].
           assert (eqb x x = true) by now apply eqb_spec. congruence.
Qed.

Lemma unique_from_NoDup (l seen : list A) : NoDup (Py.unique_from eqb seen l).
Proof.
  revert seen. induction l as [|y l IH]; intros seen; simpl.
  - constructor.
  - destruct (Py.mem eqb y seen) eqn:E; [apply IH|].
    constructor; [|apply IH].
    rewrite unique_from_In. intros [_ H]. apply H. now left.
Qed.

Lemma unique_In (l : list A) (x : A) : In x (Py.unique eqb l) <-> In x l.
Proof. unfold Py.unique. rewrite unique_from_In. simpl. tauto. Qed.

Lemma unique_NoDup (l : list A) : NoDup (Py.unique eqb l).
Proof. apply unique_from_NoDup. Qed.

End UniqueFacts.

Lemma NoDup_singleton {A : Type} (l : list A) (a : A) :
  NoDup l -> (forall x, In x l <-> x = a) -> l = [a].
Proof.
  intros Hnd H. destruct l as [|x l].
  - exfalso. now apply (H a).
  - assert (x = a) by (apply H; now left). subst x.
    destruct l as [|y l]; [reflexivity|].
    assert (y = a) by (apply H; right; now left). subst y.
    inversion Hnd as [|? ? Hn _]. exfalso. apply Hn. now left.
Qed.

Lemma Zeqb_spec' (a b : Z) : (a =? b) = true <-> a = b.
Proof. apply Z.eqb_eq. Qed.

(** ** Reconciliation of the codebook with the fact column *)

Section Reconciliation.
Import StarSchema.

Lemma code_eqb_spec (a b : code) : code_eqb a b = true <-> a = b.
Proof.
  destruct a as [x|x], b as [y|y]; simpl.
  - rewrite Z.eqb_eq. split; congruence.
  - split; discriminate.
  - split; discriminate.
  - rewrite String.eqb_eq. split; congruence.
Qed.

Lemma declared_entries_codes (var_info : VariableDefinition) :
  map dim_code (declared_entries var_info) = declared_codes var_info.
Proof.
  unfold declared_entries, declared_codes. rewrite map_map. reflexivity.
Qed.

Lemma missing_values_In (col : list Z) (defined : list code) (v : Z) :
  In v (missing_values col defined) <-> In v col /\ ~ In (NumCode v) defined.
Proof.
  unfold missing_values. rewrite filter_In, (unique_In Z.eqb Zeqb_spec').
  rewrite negb_true_iff, (mem_false code_eqb code_eqb_spec). tauto.
Qed.

Lemma missing_values_NoDup (col : list Z) (defined : list code) :
  NoDup (missing_values col defined).
Proof. apply NoDup_filter, (unique_NoDup Z.eqb Zeqb_spec'). Qed.

Lemma sort_values_Ok_perm (rows tbl : list DimEntry) :
  sort_values rows = Ok tbl -> Permutation tbl rows.
Proof.
  unfold sort_values. destruct (_ || _)%bool; [|discriminate].
  intros [= <-]. apply sort_by_perm.
Qed.

Lemma sort_values_numeric (rows : list DimEntry) :
  forallb is_num (map dim_code rows) = true ->
  sort_values rows
  = Ok (Py.sort_by (fun a b => code_leb (dim_code a) (dim_code b)) rows).
Proof. unfold sort_values. now intros ->. Qed.

(** A column holding both an integer and a string cannot be sorted. *)
Lemma sort_values_mixed (rows : list DimEntry) (a b : DimEntry) :
  In a rows -> In b rows -> is_num (dim_code a) = true -> is_num (dim_code b) = false ->
  sort_values rows = Raise TypeError.
Proof.
  intros Ha Hb Na Nb. unfold sort_values.
  assert (forallb is_num (map dim_code rows) = false) as ->.
  { apply not_true_is_false. rewrite forallb_forall. intros H.
    specialize (H (dim_code b) (in_map _ _ _ Hb)). congruence. }
  assert (forallb is_sym (map dim_code rows) = false) as ->.
  { apply not_true_is_false. rewrite forallb_forall. intros H.
    specialize (H (dim_code a) (in_map _ _ _ Ha)). unfold is_sym in H.
    rewrite Na in H. discriminate. }
  reflexivity.
Qed.

Lemma create_dimension_table_unfold (var_info : VariableDefinition) (col : list Z) :
  codes var_info <> [] ->
  create_dimension_table var_info col = sort_values (reconciled var_info col).
Proof.
  intros Hne. unfold create_dimension_table, reconciled.
  destruct (declared_entries var_info) eqn:E; [|reflexivity].
  unfold declared_entries in E. apply map_eq_nil in E. contradiction.
Qed.

Lemma create_dimension_table_Ok_nonempty (var_info : VariableDefinition)
    (col : list Z) (tbl : list DimEntry) :
  create_dimension_table var_info col = Ok tbl -> codes var_info <> [].
Proof.
  unfold create_dimension_table, declared_entries. intros H E.
  rewrite E in H. discriminate.
Qed.

Lemma reconciled_codes (var_info : VariableDefinition) (col : list Z) :
  map dim_code (reconciled var_info col)
  = (declared_codes var_info
     ++ map NumCode (Py.sorted (missing_values col
                                  (Py.unique code_eqb (declared_codes var_info)))))%list.
Proof.
  unfold reconciled. rewrite map_app, map_map, declared_entries_codes. reflexivity.
Qed.

Lemma reconciled_In (var_info : VariableDefinition) (col : list Z) (c : code) :
  In c (map dim_code (reconciled var_info col))
  <-> In c (declared_codes var_info) \/ exists v, c = NumCode v /\ In v col.
Proof.
  rewrite reconciled_codes, in_app_iff, in_map_iff. split.
  - intros [H|[v [<- Hv]]]; [now left|]. right. exists v. split; [reflexivity|].
    apply (Permutation_in _ (sorted_perm _)) in Hv.
    now apply missing_values_In in Hv.
  - intros [H|[v [-> Hv]]]; [now left|].
    destruct (Py.mem code_eqb (NumCode v) (declared_codes var_info)) eqn:E.
    + left. now apply (mem_In code_eqb code_eqb_spec).
    + right. exists v. split; [reflexivity|].
      apply (Permutation_in _ (Permutation_sym (sorted_perm _))).
      apply missing_values_In. split; [exact Hv|].
      rewrite (unique_In code_eqb code_eqb_spec).
      now apply (mem_false code_eqb code_eqb_spec).
Qed.

Lemma reconciled_NoDup (var_info : VariableDefinition) (col : list Z) :
  NoDup (declared_codes var_info) ->
  NoDup (map dim_code (reconciled var_info col)).
Proof.
  intros Hd. rewrite reconciled_codes. apply NoDup_app.
  - exact Hd.
  - apply Injective_map_NoDup; [intros x y; congruence|].
    eapply Permutation_NoDup; [apply Permutation_sym, sorted_perm|].
    apply missing_values_NoDup.
  - intros c Hc Hm. apply in_map_iff in Hm. destruct Hm as [v [<- Hv]].
    apply (Permutation_in _ (sorted_perm _)) in Hv.
    apply missing_values_In in Hv. destruct Hv as [_ Hv]. apply Hv.
    now rewrite (unique_In code_eqb code_eqb_spec).
Qed.

Lemma reconciled_numeric (var_info : VariableDefinition) (col : list Z) :
  forallb is_num (declared_codes var_info) = true ->
  forallb is_num (map dim_code (reconciled var_info col)) = true.
Proof.
  intros H. rewrite reconciled_codes, forallb_app, H. simpl.
  apply forallb_forall. intros c Hc. apply in_map_iff in Hc.
  now destruct Hc as [v [<- _]].
Qed.

End Reconciliation.

Section ReconciliationClaims.
Import StarSchema.

(** C1 (amended). When no two declared code strings denote the same code
    (as ["1"] and ["01"] do), every dimension table built from a variable
    definition and a fact column holds exactly the declared codes and the
    observed codes, each once; a table is built whenever the codebook
    declares at least one code and all declared codes are integers. With
    declared codes 1: Yes and 2: No and a fact column whose values are 1, 2
    and 3 the table has three entries, the third being code 3 labelled
    [Undefined code: 3]. *)
Theorem C1_reconciliation_complete :
  (forall (var_info : VariableDefinition) (fact_column : list Z),
      NoDup (declared_codes var_info) ->
      (forall tbl,
          create_dimension_table var_info fact_column = Ok tbl ->
          (forall c, In c (map dim_code tbl)
                     <-> In c (declared_codes var_info)
                         \/ exists v, c = NumCode v /\ In v fact_column)
          /\ NoDup (map dim_code tbl))
      /\ (codes var_info <> [] ->
          forallb is_num (declared_codes var_info) = true ->
          exists tbl, create_dimension_table var_info fact_column = Ok tbl))
  /\ (forall (d : string) (fact_column : list Z),
         (forall v, In v fact_column <-> v = 1 \/ v = 2 \/ v = 3) ->
         create_dimension_table
           {| desc := d; codes := [("1", "Yes"); ("2", "No")] |} fact_column
         = Ok [ {| dim_code := NumCode 1; dim_value := "Yes"; dim_desc := d |};
                {| dim_code := NumCode 2; dim_value := "No"; dim_desc := d |};
                {| dim_code := NumCode 3; dim_value := "Undefined code: 3";
                   dim_desc := d |} ]).
Proof.
  split.
  - intros var_info col Hd. split.
    + intros tbl Htbl.
      pose proof (create_dimension_table_Ok_nonempty _ _ _ Htbl) as Hne.
      rewrite (create_dimension_table_unfold _ _ Hne) in Htbl.
      apply sort_values_Ok_perm in Htbl.
      assert (Permutation (map dim_code tbl) (map dim_code (reconciled var_info col)))
        as Hp by now apply Permutation_map.
      split.
      * intros c. rewrite <- reconciled_In. split; apply Permutation_in; trivial.
        now apply Permutation_sym.
      * eapply Permutation_NoDup; [apply Permutation_sym, Hp|].
        now apply reconciled_NoDup.
    + intros Hne Hnum. rewrite (create_dimension_table_unfold _ _ Hne).
      rewrite sort_values_numeric; [eauto|]. now apply reconciled_numeric.
  - intros d col Hcol.
    set (vi := {| desc := d; codes := [("1", "Yes"); ("2", "No")] |}).
    assert (missing_values col (Py.unique code_eqb (map dim_code (declared_entries vi)))
            = [3]) as Hm.
    { apply NoDup_singleton; [apply missing_values_NoDup|].
      intros v. rewrite missing_values_In, Hcol.
      change (Py.unique code_eqb (map dim_code (declared_entries vi)))
        with [NumCode 1; NumCode 2].
      simpl. split.
      - intros [[ -> | [ -> | -> ] ] Hn]; trivial; exfalso; apply Hn; auto.
      - intros ->. split; [auto|]. intros [H|[H|[]]]; discriminate. }
    unfold create_dimension_table.
    change (declared_entries vi)
      with [ {| dim_code := NumCode 1; dim_value := "Yes"; dim_desc := d |};
             {| dim_code := NumCode 2; dim_value := "No"; dim_desc := d |} ] in *.
    cbv zeta. rewrite Hm. reflexivity.
Qed.

Lemma C1_reconciliation_complete_witness :
  exists tbl,
    create_dimension_table
      {| desc := "Answer"; codes := [("1", "Yes"); ("2", "No")] |} [2; 3; 1; 3]
    = Ok tbl
    /\ NoDup (map dim_code tbl)
    /\ nth_error tbl 2
       = Some {| dim_code := NumCode 3; dim_value := "Undefined code: 3";
                 dim_desc := "Answer" |}.
Proof.
  set (vi := {| desc := "Answer"; codes := [("1", "Yes"); ("2", "No")] |}).
  assert (NoDup (declared_codes vi)) as Hd.
  { vm_compute. repeat constructor; simpl; intuition discriminate. }
  destruct (proj1 C1_reconciliation_complete vi [2; 3; 1; 3] Hd) as [Hall Hex].
  destruct Hex as [tbl Htbl]; [discriminate | reflexivity |].
  exists tbl. split; [exact Htbl|]. split; [apply (Hall tbl Htbl)|].
  assert (forall v, In v [2; 3; 1; 3] <-> v = 1 \/ v = 2 \/ v = 3) as Hcol.
  { intros v. simpl. intuition. }
  pose proof (proj2 C1_reconciliation_complete "Answer" [2; 3; 1; 3] Hcol) as Hs.
  fold vi in Hs. rewrite Hs in Htbl. injection Htbl as <-. reflexivity.
Defined.

(** C1, as stated, fails: a codebook whose keys ["1"] and ["01"] both parse
    to 1 yields a table in which code 1 appears twice. *)
Lemma C1_duplicate_code_counterexample :
  exists tbl,
    create_dimension_table
      {| desc := "Answer"; codes := [("1", "Yes"); ("01", "Yes again")] |} [1]
    = Ok tbl
    /\ ~ NoDup (map dim_code tbl).
Proof.
  eexists. split; [vm_compute; reflexivity|].
  simpl. intros H. inversion H as [|? ? Hn _]. apply Hn. now left.
Qed.

(** C6: on a codebook that declares the integer code ["1"] and the symbolic
    code ["B"], [create_dimension_table] raises [TypeError] in the sort
    instead of placing 1 before B. *)
Theorem C6_mixed_codes_raise :
  create_dimension_table
    {| desc := "Answer"; codes := [("1", "Yes"); ("B", "Other")] |} [1]
  = Raise TypeError.
Proof. vm_compute. reflexivity. Qed.

(** Whenever the codebook mixes an integer code and a symbolic one, no table
    is produced. *)
Lemma create_dimension_table_mixed (var_info : VariableDefinition) (col : list Z) :
  existsb is_num (declared_codes var_info) = true ->
  existsb is_sym (declared_codes var_info) = true ->
  create_dimension_table var_info col = Raise TypeError.
Proof.
  intros Hn Hs.
  apply existsb_exists in Hn. destruct Hn as [a [Ha Na]].
  apply existsb_exists in Hs. destruct Hs as [b [Hb Nb]].
  rewrite <- declared_entries_codes in Ha, Hb.
  apply in_map_iff in Ha. destruct Ha as [ea [<- Ha]].
  apply in_map_iff in Hb. destruct Hb as [eb [<- Hb]].
  rewrite create_dimension_table_unfold.
  - apply (sort_values_mixed _ ea eb); unfold reconciled; try (apply in_or_app; now left); trivial.
    unfold is_sym in Nb. now apply negb_true_iff in Nb.
  - intros E. unfold declared_entries in Ha. rewrite E in Ha. contradiction.
Qed.

(** A table of integer codes comes out in ascending numeric order. *)
Lemma create_dimension_table_numeric_sorted
    (var_info : VariableDefinition) (col : list Z) (tbl : list DimEntry) :
  forallb is_num (declared_codes var_info) = true ->
  create_dimension_table var_info col = Ok tbl ->
  Sorted (fun a b => code_leb (dim_code a) (dim_code b) = true) tbl.
Proof.
  intros Hnum Htbl.
  pose proof (create_dimension_table_Ok_nonempty _ _ _ Htbl) as Hne.
  rewrite (create_dimension_table_unfold _ _ Hne) in Htbl.
  pose proof (reconciled_numeric var_info col Hnum) as Hall.
  rewrite (sort_values_numeric _ Hall) in Htbl. injection Htbl as <-.
  set (rows := reconciled var_info col) in *.
  set (leb := fun a b => code_leb (dim_code a) (dim_code b)).
  assert (forall l, (forall e, In e l -> In e rows) ->
                    Sorted (Py.le_of leb) (Py.sort_by leb l)) as Hs.
  { induction l as [|x l IH]; intros Hin; simpl; [constructor|].
    assert (Sorted (Py.le_of leb) (Py.sort_by leb l)) as IH'
        by (apply IH; intros e He; apply Hin; now right).
    assert (In x rows) as Hx by (apply Hin; now left).
    assert (forall m, (forall e, In e m -> In e rows) -> Sorted (Py.le_of leb) m ->
                      Sorted (Py.le_of leb) (Py.insert_by leb x m)) as Hins.
    { induction m as [|y m IHm]; intros Hm Hsm; simpl; [repeat constructor|].
      assert (In y rows) as Hy by (apply Hm; now left).
      destruct (leb x y) eqn:E.
      - constructor; [exact Hsm | now constructor].
      - inversion Hsm as [|? ? Hsm' Hhd]; subst.
        constructor; [apply IHm; trivial; intros e He; apply Hm; now right|].
        assert (Py.le_of leb y x) as Hyx.
        { rewrite forallb_forall in Hall.
          pose proof (Hall _ (in_map dim_code _ _ Hx)) as Nx.
          pose proof (Hall _ (in_map dim_code _ _ Hy)) as Ny.
          unfold Py.le_of, leb in *. destruct (dim_code x), (dim_code y); try discriminate.
          simpl in *. lia. }
        destruct m as [|z m]; simpl; [now constructor|].
        destruct (leb x z); constructor; trivial. now inversion Hhd. }
    apply Hins; trivial.
    intros e He. apply Hin. right. now apply (sort_by_In leb l e). }
  apply Hs. auto.
Qed.

End ReconciliationClaims.

(** ** Bucketizers *)

Section Bucketizers.
Import Schema AccessStats.

Lemma assign_group_cases (groups : list band) (v : Z) :
  (exists pre b post,
      groups = (pre ++ b :: post)%list
      /\ forallb (fun b' => negb (in_band b' v)) pre = true
      /\ in_band b v = true
      /\ assign_group groups v = band_label b)
  \/ (forallb (fun b => negb (in_band b v)) groups = true
      /\ assign_group groups v = "Unknown").
Proof.
  induction groups as [|b groups IH]; simpl.
  - right. auto.
  - destruct (in_band b v) eqn:E.
    + left. exists [], b, groups. auto.
    + destruct IH as [[pre [b' [post [-> [Hpre [Hb Ha]]]]]]|[Hall Ha]].
      * left. exists (b :: pre), b', post. simpl. rewrite E. auto.
      * right. simpl. auto.
Qed.

Lemma age_bucket_in_range (age : Z) :
  0 < age <= 100 ->
  age_bucket age
  = Some (if age <=? 18 then "0-18"
          else if age <=? 25 then "19-25"
          else if age <=? 35 then "26-35"
          else if age <=? 50 then "36-50"
          else if age <=? 65 then "51-65"
          else "65+").
Proof.
  intros H. unfold age_bucket, age_bins, age_labels, cut, edge_leb, edge_ltb.
  repeat match goal with
         | |- context [?a <? ?b] => destruct (Z.ltb_spec a b); simpl
         | |- context [?a <=? ?b] => destruct (Z.leb_spec a b); simpl
         end; try reflexivity; lia.
Qed.

Lemma age_bucket_out_of_range (age : Z) :
  age < 0 \/ 100 < age -> age_bucket age = None.
Proof.
  intros H. unfold age_bucket, age_bins, age_labels, cut, edge_leb, edge_ltb.
  repeat match goal with
         | |- context [?a <? ?b] => destruct (Z.ltb_spec a b); simpl
         end; try reflexivity; lia.
Qed.

(** C4 (amended). The fixed-band loop gives every value exactly one label:
    that of the first band whose inclusive range holds the value, or
    [Unknown] when no band does; values are not clamped. The age cut gives
    every age in (0, 100] the label of its band (0-18 up to 18, 19-25 up to
    25, 26-35 up to 35, 36-50 up to 50, 51-65 up to 65, 65+ above), which is
    one of the six labels, and gives negative ages and ages above 100 no
    label at all. Neither raises. With the bands of the
    scenario the loop maps -5, 0, 18, 19, 100, 999 to Unknown, 0-18, 0-18,
    19-25, 65+, Unknown, and the age cut maps -5, 18, 19, 100, 999 to no
    label, 0-18, 19-25, 65+, no label. *)
Theorem C4_bucket_coverage :
  (forall (groups : list band) (v : Z),
      (exists pre b post,
          groups = (pre ++ b :: post)%list
          /\ forallb (fun b' => negb (in_band b' v)) pre = true
          /\ in_band b v = true
          /\ assign_group groups v = band_label b)
      \/ (forallb (fun b => negb (in_band b v)) groups = true
          /\ assign_group groups v = "Unknown"))
  /\ (forall age, 0 < age <= 100 ->
        age_bucket age
        = Some (if age <=? 18 then "0-18"
                else if age <=? 25 then "19-25"
                else if age <=? 35 then "26-35"
                else if age <=? 50 then "36-50"
                else if age <=? 65 then "51-65"
                else "65+"))
  /\ (forall age, 0 < age <= 100 ->
        exists l, age_bucket age = Some l /\ In l age_labels)
  /\ (forall age, age < 0 \/ 100 < age -> age_bucket age = None)
  /\ map (assign_group Scenario.age_bands) Scenario.ages
     = ["Unknown"; "0-18"; "0-18"; "19-25"; "65+"; "Unknown"]
  /\ pd_cut [-5; 18; 19; 100; 999] age_bins age_labels
     = [None; Some "0-18"; Some "19-25"; Some "65+"; None].
Proof.
  split; [exact assign_group_cases|].
  split; [exact age_bucket_in_range|].
  split.
  { intros age H. rewrite (age_bucket_in_range age H). eexists. split; [reflexivity|].
    unfold age_labels.
    repeat match goal with
           | |- context [?a <=? ?b] => destruct (a <=? b)
           end; simpl; auto 10. }
  split; [exact age_bucket_out_of_range|].
  split; reflexivity.
Qed.

Lemma C4_bucket_coverage_witness :
  age_bucket 42 = Some "36-50"
  /\ age_bucket 18 = Some "0-18"
  /\ age_bucket 19 = Some "19-25"
  /\ (exists l, age_bucket 42 = Some l /\ In l age_labels)
  /\ age_bucket (-5) = None
  /\ age_bucket 999 = None.
Proof.
  destruct C4_bucket_coverage as [_ [Hband [Hin [Hout _]]]].
  split; [apply (Hband 42); lia|].
  split; [apply (Hband 18); lia|].
  split; [apply (Hband 19); lia|].
  split; [apply (Hin 42); lia|].
  split; apply Hout; lia.
Defined.

(** C4, as stated, fails on the scenario: the age cut gives -5, 0 and 999 no
    label, and the fixed-band loop sends -5 to [Unknown]; neither yields the
    expected list. *)
Lemma C4_scenario_counterexample :
  pd_cut Scenario.ages age_bins age_labels <> map Some Scenario.expected_buckets
  /\ map (assign_group Scenario.age_bands) Scenario.ages <> Scenario.expected_buckets.
Proof. split; vm_compute; discriminate. Qed.

(** *** Income buckets *)

Section Income.
Variable qcut : list Z -> nat -> list string -> result (list string).

Lemma clip_nonneg (column : list Z) : Forall (fun x => 0 <= x) (clip 0 column).
Proof. unfold clip. apply Forall_forall. intros x Hx. apply in_map_iff in Hx.
  destruct Hx as [y [<- _]]. lia. Qed.

Lemma any_map_false {A : Type} (f : A -> bool) (l : list A) :
  Py.any (map f l) = false <-> forall x, In x l -> f x = false.
Proof.
  unfold Py.any. induction l as [|a l IH]; simpl.
  - split; [intros _ x []|reflexivity].
  - rewrite orb_false_iff, IH. split.
    + intros [Ha Hl] x [<-|Hx]; auto.
    + intros H. split; [apply H; now left|]. intros x Hx. apply H. now right.
Qed.

(** Once some income is positive, the [try] block cannot complete: the
    result Series has dtype [category] without categories, so assigning the
    quantile buckets to it raises. *)
Lemma quantile_buckets_raises (income_data : list Z) :
  Py.any (map (fun x => 0 <? x) income_data) = true ->
  exists e, quantile_buckets qcut income_data = Raise e.
Proof.
  intros Hany. unfold quantile_buckets. rewrite Hany.
  unfold pd_qcut. destruct (qcut _ _ _) as [assigned|e]; simpl; [|eauto].
  unfold setitem_scalar.
  destruct (negb (Py.any (map (fun x => x =? 0) income_data))); simpl; [|eauto].
  unfold setitem_series. rewrite Hany. simpl. eauto.
Qed.

Lemma create_income_buckets_fallback (income_data : list Z) :
  existsb (fun x => 0 <? x) income_data = true ->
  create_income_buckets qcut income_data
  = pd_cut (clip 0 income_data) fallback_bins fallback_labels.
Proof.
  intros Hpos. unfold create_income_buckets.
  destruct (quantile_buckets_raises (clip 0 income_data)) as [e ->]; [|reflexivity].
  apply existsb_exists in Hpos. destruct Hpos as [x [Hx Px]].
  unfold Py.any. apply existsb_exists. exists true. split; [|reflexivity].
  apply in_map_iff. exists (Z.max 0 x). split.
  - apply Z.ltb_lt. apply Z.ltb_lt in Px. lia.
  - unfold clip. now apply in_map.
Qed.

Lemma create_income_buckets_no_positive (income_data : list Z) :
  (forall x, In x income_data -> x <= 0) ->
  create_income_buckets qcut income_data
  = map (fun _ => Some "No Income") income_data.
Proof.
  intros H. unfold create_income_buckets, quantile_buckets.
  assert (Py.any (map (fun x => 0 <? x) (clip 0 income_data)) = false) as ->.
  { apply any_map_false. intros x Hx. unfold clip in Hx. apply in_map_iff in Hx.
    destruct Hx as [y [<- Hy]]. apply H in Hy. apply Z.ltb_ge. lia. }
  simpl. unfold clip. now rewrite map_map.
Qed.

(** Under the fallback bands every clamped value has a label, and zero has
    [No Income]. *)
Lemma fallback_cut_total (x : Z) :
  0 <= x -> exists l, cut fallback_bins fallback_labels x = Some l /\ In l fallback_labels.
Proof.
  intros H. unfold fallback_bins, fallback_labels, cut, edge_leb, edge_ltb.
  repeat match goal with
         | |- context [?a <? ?b] => destruct (Z.ltb_spec a b); simpl
         end; try lia; eexists; (split; [reflexivity|simpl; auto 10]).
Qed.

(** C5: on seven distinct positive incomes, for which quantile cutting is
    possible, [create_income_buckets] still answers with the fallback bands,
    whatever [pd.qcut] computes: no value lands in a quantile bucket. *)
Theorem C5_quantile_buckets_never_returned :
  create_income_buckets qcut [10000; 20000; 30000; 40000; 50000; 60000; 70000]
  = [Some "Very Low"; Some "Very Low"; Some "Low"; Some "Low";
     Some "Middle"; Some "Middle"; Some "High"].
Proof. rewrite create_income_buckets_fallback; reflexivity. Qed.

End Income.
End Bucketizers.

(** ** Weighted sums *)

Section WeightedSums.
Context {Row : Type}.
Implicit Types (p q : Row -> bool) (w : Row -> Q) (l : list Row).

Lemma sum_filter_weight_where p w l :
  Py.sum (map w (filter p l)) = Spec.weight_where p w l.
Proof.
  induction l as [|r l IH]; simpl; [reflexivity|].
  destruct (p r); simpl; now rewrite IH.
Qed.

Lemma filter_filter p q l :
  filter p (filter q l) = filter (fun r => q r && p r) l.
Proof.
  induction l as [|r l IH]; simpl; [reflexivity|].
  destruct (q r); simpl; [destruct (p r)|]; now rewrite IH.
Qed.

Lemma length_filter_count p l :
  List.length (filter p l) = Spec.count_where p l.
Proof.
  induction l as [|r l IH]; simpl; [reflexivity|].
  destruct (p r); simpl; now rewrite IH.
Qed.

Lemma count_where_pos p l :
  (0 < Spec.count_where p l)%nat <-> exists r, In r l /\ p r = true.
Proof.
  induction l as [|r l IH]; simpl.
  - split; [lia | intros [r [[] _]]].
  - destruct (p r) eqn:E.
    + split; [intros _; exists r; auto | lia].
    + rewrite IH. split.
      * intros [x [Hx Px]]. exists x. auto.
      * intros [x [[->|Hx] Px]]; [congruence | exists x; auto].
Qed.

End WeightedSums.

(** ** The analyser's percentage *)

Section Percentage.
Import AccessStats Analyzer.
Context {Row : Type}.
Variables (weight_col : Row -> Q) (condition_col : Row -> Z) (condition_value : Z).

Lemma calculate_weighted_percentage_zero (df : list Row) :
  (Py.sum (map weight_col df) == 0)%Q ->
  calculate_weighted_percentage df weight_col condition_col condition_value = 0%Q.
Proof.
  intros H. unfold calculate_weighted_percentage.
  now rewrite (Qeq_eq_bool _ _ H).
Qed.

End Percentage.

(** ** Descending sort and left merge *)

Section SortMerge.
Import AccessStats.

Lemma Sorted_weaken {A : Type} (R R' : A -> A -> Prop) (l : list A) :
  (forall a b, R a b -> R' a b) -> Sorted R l -> Sorted R' l.
Proof.
  intros HR. induction 1 as [|a l Hs IH Hhd]; constructor; trivial.
  destruct Hhd; constructor; auto.
Qed.

Lemma sort_values_desc_descending {A : Type} (col : A -> Q) (rows : list A) :
  Spec.descending col (sort_values_desc col rows).
Proof.
  unfold Spec.descending, sort_values_desc.
  apply Sorted_StronglySorted.
  - intros a b c Hab Hbc. eapply Qle_trans; eauto.
  - apply (Sorted_weaken (Py.le_of (fun a b => Qle_bool (col b) (col a)))).
    + intros a b H. now apply Qle_bool_iff.
    + apply sort_by_sorted. intros a b H.
      apply Qle_bool_iff. apply Qlt_le_weak, Qnot_le_lt.
      intros Hle. apply Qle_bool_iff in Hle. congruence.
Qed.

Lemma sort_values_desc_In {A : Type} (col : A -> Q) (rows : list A) (x : A) :
  In x (sort_values_desc col rows) <-> In x rows.
Proof. apply sort_by_In. Qed.

Section MergeLeft.
Context {Stat : Type} (key : Stat -> Z).
Implicit Types (left : list Stat) (right : list DimRow).

Lemma filter_nil_unmatched (s : Stat) right :
  filter (fun d => code d =? key s) right = [] <-> unmatched key s right.
Proof.
  unfold unmatched. induction right as [|d right IH]; simpl.
  - split; [intros _ d []|reflexivity].
  - destruct (Z.eqb_spec (code d) (key s)) as [E|E].
    + split; [discriminate|]. intros H. exfalso. apply (H d); auto.
    + rewrite IH. split.
      * intros H x [<-|Hx]; auto.
      * intros H x Hx. apply H. now right.
Qed.

(** The rows of the merge: a statistics row with the cell of a dimension
    row of the same code, or with a null label when the dimension has no
    such row. *)
Lemma merge_left_In left right (r : Labeled Stat) :
  In r (merge_left key left right)
  <-> In (stat r) left
      /\ ((exists d, In d right /\ code d = key (stat r) /\ label r = value d)
          \/ (unmatched key (stat r) right /\ label r = None)).
Proof.
  unfold merge_left. rewrite in_flat_map. split.
  - intros [s [Hs Hr]].
    destruct (filter _ right) as [|d0 ds] eqn:E.
    + destruct Hr as [<-|[]]. simpl. split; [exact Hs|]. right.
      split; [now apply filter_nil_unmatched | reflexivity].
    + apply in_map_iff in Hr. destruct Hr as [d [<- Hd]].
      rewrite <- E in Hd. simpl. split; [exact Hs|]. left.
      apply filter_In in Hd. destruct Hd as [Hd Hk].
      exists d. split; [exact Hd|]. split; [now apply Z.eqb_eq | reflexivity].
  - intros [Hs Hl]. exists (stat r). split; [exact Hs|].
    destruct r as [s l]; simpl in *. destruct Hl as [[d [Hd [Hk ->]]]|[Hu ->]].
    + assert (In d (filter (fun d => code d =? key s) right)) as Hf
          by (apply filter_In; split; [exact Hd | now apply Z.eqb_eq]).
      destruct (filter _ right) as [|d0 ds] eqn:E; [destruct Hf|].
      change (In {| stat := s; label := value d |}
                 (map (fun d1 => {| stat := s; label := value d1 |}) (d0 :: ds))).
      apply in_map_iff. exists d. split; [reflexivity | exact Hf].
    + apply filter_nil_unmatched in Hu. rewrite Hu. now left.
Qed.

(** A statistics row with a dimension row of its code is in the merge with
    the cell of that row. *)
Lemma merge_left_matched left right (s : Stat) (d : DimRow) :
  In s left -> In d right -> code d = key s ->
  In {| stat := s; label := value d |} (merge_left key left right).
Proof.
  intros Hs Hd Hk. apply merge_left_In. simpl. split; [exact Hs|].
  left. exists d. auto.
Qed.

(** A statistics row without a dimension row of its code is in the merge
    with a null label. *)
Lemma merge_left_unmatched left right (s : Stat) :
  In s left -> unmatched key s right ->
  In {| stat := s; label := None |} (merge_left key left right).
Proof.
  intros Hs Hu. apply merge_left_In. simpl. split; [exact Hs|]. right. auto.
Qed.

(** The left merge keeps every statistics row. *)
Lemma merge_left_keeps left right (s : Stat) :
  In s left -> exists r, In r (merge_left key left right) /\ stat r = s.
Proof.
  intros Hs.
  destruct (filter (fun d => code d =? key s) right) as [|d ds] eqn:E.
  - exists {| stat := s; label := None |}. split; [|reflexivity].
    apply merge_left_unmatched; [exact Hs|]. now apply filter_nil_unmatched.
  - exists {| stat := s; label := value d |}. split; [|reflexivity].
    assert (In d (filter (fun d => code d =? key s) right)) as Hd
        by (rewrite E; now left).
    apply filter_In in Hd. destruct Hd as [Hd Hk].
    apply merge_left_matched; [exact Hs | exact Hd | now apply Z.eqb_eq].
Qed.

End MergeLeft.
End SortMerge.

(** ** The per-state and per-education analyses *)

Section AnalyzerFacts.
Import AccessStats Analyzer.

Variable self : TechnologyAccessAnalyzer.
Variable dim_col : FactRow -> Z.

Lemma dim_internet_eq (c : Z) :
  filter (fun r => dim_col r =? c) (valid_internet self)
  = filter (Spec.valid CINETHH dim_col c) (fact_df self).
Proof. unfold valid_internet. now rewrite filter_filter. Qed.

Lemma dim_smartphone_eq (c : Z) :
  filter (fun r => dim_col r =? c) (valid_smartphone self)
  = filter (Spec.valid CISMRTPHN dim_col c) (fact_df self).
Proof. unfold valid_smartphone. now rewrite filter_filter. Qed.

(** The record that the loop body builds for code [c]. *)
Lemma code_stats_In (c : Z) (r : TechStat) :
  In r (code_stats self dim_col c)
  <-> (0 < Spec.count_where (Spec.valid CINETHH dim_col c) (fact_df self))%nat
      /\ (0 < Spec.count_where (Spec.valid CISMRTPHN dim_col c) (fact_df self))%nat
      /\ r = {| group_code := c;
                internet_percentage :=
                  calculate_weighted_percentage
                    (filter (Spec.valid CINETHH dim_col c) (fact_df self)) PERWT CINETHH 1;
                smartphone_percentage :=
                  calculate_weighted_percentage
                    (filter (Spec.valid CISMRTPHN dim_col c) (fact_df self)) PERWT CISMRTPHN 1;
                population_estimate :=
                  Spec.weight_where (Spec.valid CINETHH dim_col c) PERWT (fact_df self) |}.
Proof.
  unfold code_stats. rewrite dim_internet_eq, dim_smartphone_eq.
  rewrite sum_filter_weight_where, !length_filter_count.
  destruct (Nat.ltb_spec 0 (Spec.count_where (Spec.valid CINETHH dim_col c) (fact_df self)))
    as [E1|E1];
    destruct (Nat.ltb_spec 0 (Spec.count_where (Spec.valid CISMRTPHN dim_col c) (fact_df self)))
    as [E2|E2]; simpl.
  - split; [intros [<-|[]]; auto | intros [_ [_ ->]]; now left].
  - split; [intros [] | intros [_ [H _]]; lia].
  - split; [intros [] | intros [H _]; lia].
  - split; [intros [] | intros [H _]; lia].
Qed.

Lemma collect_stats_In (dim_codes : list Z) (r : TechStat) :
  In r (collect_stats self dim_col dim_codes)
  <-> In (group_code r) dim_codes /\ In r (code_stats self dim_col (group_code r)).
Proof.
  unfold collect_stats. rewrite in_flat_map. split.
  - intros [c [Hc Hr]].
    assert (group_code r = c) as ->; [|auto].
    apply code_stats_In in Hr. destruct Hr as [_ [_ ->]]. reflexivity.
  - intros [Hc Hr]. eauto.
Qed.

Lemma merge_and_sort_Ok (stats : list TechStat) (dim : list DimRow)
    (out : list (Labeled TechStat)) :
  merge_and_sort stats dim = Ok out ->
  out = sort_values_desc (fun r => internet_percentage (stat r))
                         (merge_left group_code stats dim).
Proof. unfold merge_and_sort. destruct stats; [discriminate|]. now intros [= <-]. Qed.

Lemma merge_and_sort_total (stats : list TechStat) (dim : list DimRow) :
  stats <> [] -> exists out, merge_and_sort stats dim = Ok out.
Proof. unfold merge_and_sort. destruct stats; [congruence|eauto]. Qed.

(** The statistics rows of an analysis are exactly the rows of its output. *)
Lemma merge_and_sort_stats (stats : list TechStat) (dim : list DimRow)
    (out : list (Labeled TechStat)) (s : TechStat) :
  merge_and_sort stats dim = Ok out ->
  (In s stats <-> exists r, In r out /\ stat r = s).
Proof.
  intros H. apply merge_and_sort_Ok in H. subst out. split.
  - intros Hs. destruct (merge_left_keeps group_code stats dim s Hs) as [r [Hr E]].
    exists r. split; [now apply sort_values_desc_In | exact E].
  - intros [r [Hr <-]]. apply sort_values_desc_In in Hr.
    apply merge_left_In in Hr. exact (proj1 Hr).
Qed.

End AnalyzerFacts.

Section AnalyzerClaims.
Import AccessStats Analyzer.

(** *** The percentage in binary64 *)

Lemma whole_sum_filter {Row : Type} (p : Row -> bool) (w : Row -> Z) (l : list Row) :
  Float64.whole_sum (map w (filter p l)) = Spec.whole_weight_where p w l.
Proof.
  induction l as [|r l IH]; simpl; [reflexivity|].
  destruct (p r); simpl; now rewrite IH.
Qed.

Lemma whole_sum_all {Row : Type} (w : Row -> Z) (l : list Row) :
  Float64.whole_sum (map w l) = Spec.whole_weight_where (fun _ => true) w l.
Proof. induction l as [|r l IH]; simpl; [reflexivity | now rewrite IH]. Qed.

Lemma whole_weight_where_unit {Row : Type} (p : Row -> bool) (w : Row -> Z)
    (l : list Row) :
  (forall r, In r l -> w r = 1) ->
  Spec.whole_weight_where p w l = Z.of_nat (Spec.count_where p l).
Proof.
  induction l as [|r l IH]; intros H; simpl; [reflexivity|].
  rewrite IH by (intros x Hx; apply H; now right).
  destruct (p r); [|reflexivity].
  rewrite (H r (or_introl eq_refl)). lia.
Qed.

Lemma count_where_true {Row : Type} (l : list Row) :
  Spec.count_where (fun _ => true) l = List.length l.
Proof. induction l as [|r l IH]; simpl; [reflexivity | now rewrite IH]. Qed.

(** C3 (amended). On a frame whose weights are non-negative whole numbers
    with a non-zero total below 2^53, [calculate_weighted_percentage] returns
    the float64 value of (condition weight / total weight) * 100, where the
    condition weight is the sum of the weights of the rows whose condition
    equals the condition value and the total weight the sum of the weights
    of all rows: the quotient is rounded before it is multiplied by 100.
    When every weight is 1 this is the float64 value of (k / n) * 100 for
    the k rows out of n that satisfy the condition. The filter of
    [load_data] keeps exactly the rows whose condition is not 9, and on the
    four rows (10,1), (10,0), (5,1), (5,9) it leaves three rows with total
    weight 25, condition weight 15 and percentage exactly 60.0. *)
Theorem C3_weighted_percentage_float64 :
  (forall (Row : Type) (df : list Row) (weight_col condition_col : Row -> Z)
          (condition_value : Z),
      let condition_weight :=
        Spec.whole_weight_where (fun r => condition_col r =? condition_value)
                                weight_col df in
      let total_weight := Spec.whole_weight_where (fun _ => true) weight_col df in
      (forall r, In r df -> 0 <= weight_col r) ->
      0 < total_weight < 2 ^ 53 ->
      Float64.calculate_weighted_percentage df weight_col condition_col condition_value
      = PrimFloat.mul
          (PrimFloat.div (Float64.of_whole condition_weight)
                         (Float64.of_whole total_weight))
          (Float64.of_whole 100))
  /\ (forall (Row : Type) (df : list Row) (weight_col condition_col : Row -> Z)
             (condition_value : Z),
         (forall r, In r df -> weight_col r = 1) ->
         0 < Z.of_nat (List.length df) < 2 ^ 53 ->
         Float64.calculate_weighted_percentage df weight_col condition_col condition_value
         = PrimFloat.mul
             (PrimFloat.div
                (Float64.of_whole
                   (Z.of_nat (Spec.count_where
                                (fun r => condition_col r =? condition_value) df)))
                (Float64.of_whole (Z.of_nat (List.length df))))
             (Float64.of_whole 100))
  /\ (forall (Row : Type) (condition_col : Row -> Z) (df : list Row) (r : Row),
         In r (Float64.drop_missing condition_col df)
         <-> In r df /\ condition_col r <> 9)
  /\ (forall self : TechnologyAccessAnalyzer,
         valid_internet self = Float64.drop_missing CINETHH (fact_df self)
         /\ valid_smartphone self = Float64.drop_missing CISMRTPHN (fact_df self))
  /\ (let df := Float64.drop_missing snd Scenario.weighted_pairs in
      df = [(10, 1); (10, 0); (5, 1)]
      /\ Float64.whole_sum (map fst df) = 25
      /\ Float64.whole_sum (map fst (filter (fun r => snd r =? 1) df)) = 15
      /\ Float64.calculate_weighted_percentage df fst snd 1 = Float64.of_whole 60).
Proof.
  assert (forall (Row : Type) (df : list Row) (weight_col condition_col : Row -> Z)
                 (condition_value : Z),
             Spec.whole_weight_where (fun _ => true) weight_col df <> 0 ->
             Float64.calculate_weighted_percentage df weight_col condition_col
                                                   condition_value
             = PrimFloat.mul
                 (PrimFloat.div
                    (Float64.of_whole
                       (Spec.whole_weight_where
                          (fun r => condition_col r =? condition_value) weight_col df))
                    (Float64.of_whole
                       (Spec.whole_weight_where (fun _ => true) weight_col df)))
                 (Float64.of_whole 100)) as Hgen.
  { intros Row df weight_col condition_col condition_value Hnz.
    unfold Float64.calculate_weighted_percentage.
    rewrite whole_sum_filter, whole_sum_all.
    destruct (Z.eqb_spec (Spec.whole_weight_where (fun _ => true) weight_col df) 0)
      as [E|E]; [contradiction | reflexivity]. }
  split; [|split; [|split; [|split]]].
  - intros Row df weight_col condition_col condition_value cw tw _ Htw.
    apply Hgen. fold tw. lia.
  - intros Row df weight_col condition_col condition_value Hunit Hlen.
    pose proof (whole_weight_where_unit (fun r => condition_col r =? condition_value)
                  weight_col df Hunit) as Hc.
    pose proof (whole_weight_where_unit (fun _ => true) weight_col df Hunit) as Ht.
    rewrite count_where_true in Ht.
    rewrite <- Hc, <- Ht. apply Hgen. rewrite Ht. lia.
  - intros Row condition_col df r. unfold Float64.drop_missing.
    rewrite filter_In, negb_true_iff, Z.eqb_neq. reflexivity.
  - intros self. split; reflexivity.
  - cbv zeta. repeat split; vm_compute; reflexivity.
Qed.

Lemma C3_weighted_percentage_float64_witness :
  Float64.calculate_weighted_percentage
    (Float64.drop_missing snd Scenario.weighted_pairs) fst snd 1
  = Float64.of_whole 60
  /\ Float64.calculate_weighted_percentage Scenario.unit_pairs fst snd 1
     = PrimFloat.mul
         (PrimFloat.div (Float64.of_whole 11) (Float64.of_whole 20))
         (Float64.of_whole 100).
Proof.
  split.
  - rewrite (proj1 C3_weighted_percentage_float64 (Z * Z)%type
               (Float64.drop_missing snd Scenario.weighted_pairs) fst snd 1).
    + vm_compute. reflexivity.
    + intros r [<-|[<-|[<-|[]]]]; simpl; lia.
    + vm_compute. split; reflexivity.
  - rewrite (proj1 (proj2 C3_weighted_percentage_float64) (Z * Z)%type
               Scenario.unit_pairs fst snd 1).
    + vm_compute. reflexivity.
    + intros r Hr. unfold Scenario.unit_pairs in Hr. apply in_app_or in Hr.
      destruct Hr as [Hr|Hr]; apply repeat_spec in Hr; subst r; reflexivity.
    + vm_compute. split; reflexivity.
Defined.

(** C3, as stated, fails in the last place. On twenty rows of weight 1 of
    which eleven satisfy the condition, 100 * 11 / 20 is 55, in float64 as in
    exact arithmetic, but the program returns the float64 number next above
    55 (printed 55.00000000000001): the quotient 11 / 20 is rounded before
    the multiplication by 100. *)
Lemma C3_unit_weight_counterexample :
  (forall r, In r Scenario.unit_pairs -> fst r = 1)
  /\ List.length Scenario.unit_pairs = 20%nat
  /\ Spec.count_where (fun r => snd r =? 1) Scenario.unit_pairs = 11%nat
  /\ PrimFloat.div (PrimFloat.mul (Float64.of_whole 100) (Float64.of_whole 11))
                   (Float64.of_whole 20)
     = Float64.of_whole 55
  /\ Float64.calculate_weighted_percentage Scenario.unit_pairs fst snd 1
     = PrimFloat.next_up (Float64.of_whole 55)
  /\ Float64.calculate_weighted_percentage Scenario.unit_pairs fst snd 1
     <> Float64.of_whole 55.
Proof.
  split.
  { intros r Hr. unfold Scenario.unit_pairs in Hr. apply in_app_or in Hr.
    destruct Hr as [Hr|Hr]; apply repeat_spec in Hr; subst r; reflexivity. }
  repeat split; try (vm_compute; reflexivity).
  intros H.
  apply (f_equal (fun x => PrimFloat.eqb x (Float64.of_whole 55))) in H.
  vm_compute in H. discriminate.
Qed.

(** The analyser's guard: a group of zero total weight has percentage 0 (and
    its population estimate, the same total, is 0). *)
Lemma code_stats_zero_weight (self : TechnologyAccessAnalyzer)
    (dim_col : FactRow -> Z) (c : Z) (r : TechStat) :
  In r (code_stats self dim_col c) ->
  (population_estimate r == 0)%Q ->
  internet_percentage r = 0%Q.
Proof.
  intros Hr Hz. apply code_stats_In in Hr. destruct Hr as [_ [_ ->]]. simpl in *.
  apply calculate_weighted_percentage_zero. now rewrite sum_filter_weight_where.
Qed.

Lemma valid_count_pos (condition_col dim_col : FactRow -> Z) (c : Z) (rows : list FactRow) :
  (0 < Spec.count_where (Spec.valid condition_col dim_col c) rows)%nat
  <-> Spec.has_valid_row condition_col dim_col c rows.
Proof.
  rewrite count_where_pos. unfold Spec.has_valid_row, Spec.valid.
  split; intros [x [Hx H]]; exists x; (split; [exact Hx|]).
  - apply andb_true_iff in H. destruct H as [H1 H2].
    apply negb_true_iff, Z.eqb_neq in H1. apply Z.eqb_eq in H2. auto.
  - destruct H as [H1 H2]. apply andb_true_iff. split.
    + now apply negb_true_iff, Z.eqb_neq.
    + now apply Z.eqb_eq.
Qed.

(** What both analyses emit, for any list of dimension codes. *)
Lemma emitted_iff (self : TechnologyAccessAnalyzer) (dim_col : FactRow -> Z)
    (dim_codes : list Z) (dim : list DimRow) (out : list (Labeled TechStat)) (c : Z) :
  merge_and_sort (collect_stats self dim_col dim_codes) dim = Ok out ->
  ((exists r, In r out /\ group_code (stat r) = c)
   <-> In c dim_codes
       /\ Spec.has_valid_row CINETHH dim_col c (fact_df self)
       /\ Spec.has_valid_row CISMRTPHN dim_col c (fact_df self)).
Proof.
  intros Hout. rewrite <- !valid_count_pos. split.
  - intros [r [Hr <-]].
    assert (In (stat r) (collect_stats self dim_col dim_codes)) as Hs
        by (apply (merge_and_sort_stats _ _ _ _ Hout); eauto).
    apply collect_stats_In in Hs. destruct Hs as [Hc Hs].
    apply code_stats_In in Hs. tauto.
  - intros [Hc [H1 H2]].
    pose proof (proj2 (code_stats_In self dim_col c _) (conj H1 (conj H2 eq_refl))) as Hs.
    match type of Hs with In ?s0 _ => set (s := s0) in * end.
    assert (In s (collect_stats self dim_col dim_codes)) as Hin
        by (apply collect_stats_In; split; [exact Hc | exact Hs]).
    apply (merge_and_sort_stats _ _ _ _ Hout) in Hin. destruct Hin as [r [Hr E]].
    exists r. split; [exact Hr|]. now rewrite E.
Qed.

Lemma emitted_total (self : TechnologyAccessAnalyzer) (dim_col : FactRow -> Z)
    (dim_codes : list Z) (dim : list DimRow) (c : Z) :
  In c dim_codes ->
  Spec.has_valid_row CINETHH dim_col c (fact_df self) ->
  Spec.has_valid_row CISMRTPHN dim_col c (fact_df self) ->
  exists out, merge_and_sort (collect_stats self dim_col dim_codes) dim = Ok out.
Proof.
  intros Hc H1 H2. apply merge_and_sort_total.
  apply valid_count_pos in H1, H2.
  pose proof (proj2 (code_stats_In self dim_col c _) (conj H1 (conj H2 eq_refl))) as Hs.
  intros E.
  assert (In _ (collect_stats self dim_col dim_codes)) as Hin
      by (apply collect_stats_In; split; [|exact Hs]; exact Hc).
  rewrite E in Hin. destruct Hin.
Qed.

End AnalyzerClaims.

(** ** Grouped access statistics *)

Section AccessStatsFacts.
Import AccessStats.

Lemma mapM_Ok {A B : Type} (f : A -> result B) (l : list A) (ys : list B) :
  Py.mapM f l = Ok ys -> Forall2 (fun x y => f x = Ok y) l ys.
Proof.
  revert ys. induction l as [|x l IH]; intros ys; simpl.
  - intros [= <-]. constructor.
  - destruct (f x) as [y|e] eqn:E; simpl; [|discriminate].
    destruct (Py.mapM f l) as [ys'|e]; simpl; [|discriminate].
    intros [= <-]. constructor; auto.
Qed.

Lemma mapM_total {A B : Type} (f : A -> result B) (l : list A) :
  (forall x, In x l -> exists y, f x = Ok y) -> exists ys, Py.mapM f l = Ok ys.
Proof.
  induction l as [|x l IH]; intros H; simpl; [eauto|].
  destruct (H x (or_introl eq_refl)) as [y ->]. simpl.
  destruct IH as [ys ->]; [intros z Hz; apply H; now right|]. simpl. eauto.
Qed.

Lemma mapM_raises {A B : Type} (f : A -> result B) (l : list A) (e : Py.exn) :
  (forall x e', f x = Raise e' -> e' = e) ->
  (exists x, In x l /\ f x = Raise e) ->
  Py.mapM f l = Raise e.
Proof.
  intros Honly. induction l as [|x l IH]; intros [z [Hz Ez]]; simpl; [destruct Hz|].
  destruct (f x) as [y|e'] eqn:E; simpl.
  - destruct Hz as [->|Hz]; [congruence|].
    rewrite IH; [reflexivity | eauto].
  - now rewrite (Honly x e' E).
Qed.

Lemma Forall2_In_r {A B : Type} (R : A -> B -> Prop) (l : list A) (ys : list B) (y : B) :
  Forall2 R l ys -> In y ys -> exists x, In x l /\ R x y.
Proof.
  induction 1 as [|x y' l ys HR _ IH]; intros Hy; [destruct Hy|].
  destruct Hy as [<-|Hy]; [exists x; simpl; auto|].
  destruct (IH Hy) as [x' [Hx' HR']]. exists x'. simpl. auto.
Qed.

Lemma Forall2_In_l {A B : Type} (R : A -> B -> Prop) (l : list A) (ys : list B) (x : A) :
  Forall2 R l ys -> In x l -> exists y, In y ys /\ R x y.
Proof.
  induction 1 as [|x' y l ys HR _ IH]; intros Hx; [destruct Hx|].
  destruct Hx as [<-|Hx]; [exists y; simpl; auto|].
  destruct (IH Hx) as [y' [Hy' HR']]. exists y'. simpl. auto.
Qed.

Context {Row : Type}.
Variables (group_col : Row -> Z) (weight_col : Row -> Q) (access_col : Row -> Z).

Lemma group_keys_In (data_frame : list Row) (g : Z) :
  In g (group_keys group_col data_frame) <-> In g (map group_col data_frame).
Proof.
  unfold group_keys. split; intros H.
  - apply (unique_In Z.eqb Zeqb_spec'). revert H. apply Permutation_in, sorted_perm.
  - apply (unique_In Z.eqb Zeqb_spec') in H. revert H.
    apply Permutation_in, Permutation_sym, sorted_perm.
Qed.

Lemma group_stat_Ok (data_frame : list Row) (g : Z) (s : AccessStat) :
  group_stat group_col weight_col access_col data_frame g = Ok s ->
  dimension_value s = g
  /\ population_estimate s
     = Spec.weight_where (fun r => group_col r =? g) weight_col data_frame.
Proof.
  unfold group_stat, group_rows. destruct (np_average _ _); simpl; [|discriminate].
  intros [= <-]. simpl. split; [reflexivity|]. apply sum_filter_weight_where.
Qed.

Lemma group_stat_zero_weight (data_frame : list Row) (g : Z) :
  (Spec.weight_where (fun r => group_col r =? g) weight_col data_frame == 0)%Q ->
  group_stat group_col weight_col access_col data_frame g = Raise ZeroDivisionError.
Proof.
  intros H. unfold group_stat, group_rows, np_average.
  rewrite sum_filter_weight_where, (Qeq_eq_bool _ _ H). reflexivity.
Qed.

Lemma group_stat_nonzero_weight (data_frame : list Row) (g : Z) :
  (~ Spec.weight_where (fun r => group_col r =? g) weight_col data_frame == 0)%Q ->
  exists s, group_stat group_col weight_col access_col data_frame g = Ok s.
Proof.
  intros H. unfold group_stat, group_rows, np_average.
  rewrite sum_filter_weight_where.
  destruct (Qeq_bool _ 0) eqn:E; [apply Qeq_bool_eq in E; contradiction|].
  simpl. eauto.
Qed.

Lemma group_stat_raises_only (data_frame : list Row) (g : Z) (e : Py.exn) :
  group_stat group_col weight_col access_col data_frame g = Raise e ->
  e = ZeroDivisionError.
Proof.
  unfold group_stat, np_average. destruct (Qeq_bool _ 0); simpl; congruence.
Qed.

(** A group of zero total weight makes the whole aggregation raise. *)
Lemma access_stats_zero_weight_raises (data_frame : list Row) (g : Z) :
  In g (map group_col data_frame) ->
  (Spec.weight_where (fun r => group_col r =? g) weight_col data_frame == 0)%Q ->
  calculate_weighted_access_stats group_col weight_col access_col data_frame
  = Raise ZeroDivisionError.
Proof.
  intros Hg Hz. unfold calculate_weighted_access_stats.
  rewrite (mapM_raises _ _ ZeroDivisionError); [reflexivity | |].
  - intros x e. apply group_stat_raises_only.
  - exists g. split; [now apply group_keys_In | now apply group_stat_zero_weight].
Qed.

(** With no group of zero total weight the aggregation returns. *)
Lemma access_stats_total (data_frame : list Row) :
  (forall g, In g (map group_col data_frame) ->
             ~ Spec.weight_where (fun r => group_col r =? g) weight_col data_frame == 0)%Q ->
  exists out,
    calculate_weighted_access_stats group_col weight_col access_col data_frame = Ok out.
Proof.
  intros H. unfold calculate_weighted_access_stats.
  destruct (mapM_total (group_stat group_col weight_col access_col data_frame)
                       (group_keys group_col data_frame)) as [ys ->].
  - intros g Hg. apply group_stat_nonzero_weight, H. now apply group_keys_In.
  - simpl. eauto.
Qed.

Lemma access_stats_Ok (data_frame : list Row) (out : list AccessStat) :
  calculate_weighted_access_stats group_col weight_col access_col data_frame = Ok out ->
  exists grouped_stats,
    Py.mapM (group_stat group_col weight_col access_col data_frame)
            (group_keys group_col data_frame) = Ok grouped_stats
    /\ out = sort_values_desc internet_percentage grouped_stats.
Proof.
  unfold calculate_weighted_access_stats.
  destruct (Py.mapM _ _) as [ys|e]; simpl; [|discriminate].
  intros [= <-]. eauto.
Qed.

End AccessStatsFacts.

(** ** Claims on the weighted statistics *)

Section StatisticsClaims.
Import AccessStats Analyzer.

(** C2: on one respondent of weight 0 the analyser's percentage is 0, but
    [calculate_weighted_access_stats] raises [ZeroDivisionError] instead of
    returning percentage 0 and population estimate 0. *)
Theorem C2_zero_weight_group :
  calculate_weighted_percentage [Scenario.respondent 1 0 1 1] PERWT CINETHH 1 = 0%Q
  /\ calculate_weighted_access_stats STATEFIP PERWT CINETHH [Scenario.respondent 1 0 1 1]
     = Raise ZeroDivisionError.
Proof. split; reflexivity. Qed.

Lemma analyze_by_state_unfold (self : TechnologyAccessAnalyzer) :
  analyze_by_state self
  = merge_and_sort (collect_stats self STATEFIP (map code (state_dim self)))
                   (state_dim self).
Proof. reflexivity. Qed.

Lemma analyze_by_education_unfold (self : TechnologyAccessAnalyzer) :
  analyze_by_education self
  = merge_and_sort (collect_stats self EDUC (Py.sorted (map code (educ_dim self))))
                   (educ_dim self).
Proof. reflexivity. Qed.

Lemma analysis_population (self : TechnologyAccessAnalyzer) (dim_col : FactRow -> Z)
    (dim_codes : list Z) (dim : list DimRow) (out : list (Labeled TechStat))
    (r : Labeled TechStat) :
  merge_and_sort (collect_stats self dim_col dim_codes) dim = Ok out ->
  In r out ->
  population_estimate (stat r)
  = Spec.weight_where (Spec.valid CINETHH dim_col (group_code (stat r))) PERWT (fact_df self).
Proof.
  intros Hout Hr.
  assert (In (stat r) (collect_stats self dim_col dim_codes)) as Hs
      by (apply (merge_and_sort_stats _ _ _ _ Hout); eauto).
  apply collect_stats_In in Hs. destruct Hs as [_ Hs].
  apply code_stats_In in Hs. destruct Hs as [_ [_ Hs]].
  rewrite Hs at 1. reflexivity.
Qed.

(** C7. Every record of the per-state and per-education analyses carries as
    population estimate the sum of the weights of all rows of its group among
    the rows that do not carry the missing-data code, whatever their
    condition value; every record of [calculate_weighted_access_stats]
    belongs to a group of the input and carries the sum of the weights of
    all rows of that group. *)
Theorem C7_population_estimate :
  (forall (self : TechnologyAccessAnalyzer) out r,
      analyze_by_state self = Ok out -> In r out ->
      population_estimate (stat r)
      = Spec.weight_where (Spec.valid CINETHH STATEFIP (group_code (stat r)))
                          PERWT (fact_df self))
  /\ (forall (self : TechnologyAccessAnalyzer) out r,
         analyze_by_education self = Ok out -> In r out ->
         population_estimate (stat r)
         = Spec.weight_where (Spec.valid CINETHH EDUC (group_code (stat r)))
                             PERWT (fact_df self))
  /\ (forall (Row : Type) (group_col : Row -> Z) (weight_col : Row -> Q)
             (access_col : Row -> Z) (data_frame : list Row) out s,
         calculate_weighted_access_stats group_col weight_col access_col data_frame = Ok out ->
         In s out ->
         In (dimension_value s) (map group_col data_frame)
         /\ AccessStats.population_estimate s
            = Spec.weight_where (fun r => group_col r =? dimension_value s)
                                weight_col data_frame).
Proof.
  split; [|split].
  - intros self out r Hout Hr. now apply (analysis_population _ _ _ _ _ _ Hout).
  - intros self out r Hout Hr. now apply (analysis_population _ _ _ _ _ _ Hout).
  - intros Row group_col weight_col access_col df out s Hout Hs.
    apply access_stats_Ok in Hout. destruct Hout as [ys [Hm ->]].
    apply sort_values_desc_In in Hs. apply mapM_Ok in Hm.
    destruct (Forall2_In_r _ _ _ _ Hm Hs) as [g [Hg Hgs]].
    apply group_stat_Ok in Hgs. destruct Hgs as [Hd Hp].
    rewrite Hd. split; [now apply group_keys_In in Hg | exact Hp].
Qed.

Lemma C7_population_estimate_witness :
  exists out r,
    analyze_by_state Scenario.four_rows_analyzer = Ok out
    /\ In r out
    /\ population_estimate (stat r) = 25%Q.
Proof.
  eexists. eexists.
  split; [reflexivity|]. split; [left; reflexivity|].
  rewrite (proj1 C7_population_estimate Scenario.four_rows_analyzer _ _ eq_refl
                 (or_introl eq_refl)).
  reflexivity.
Defined.

(** C8. Merging labels is a left join on group value = dimension code.
    Where [merge_dimension_descriptions] merges (a coded dimension whose
    table has the [<NAME>_value] column) and in the merge of the per-state
    and per-education analyses, the output holds exactly the statistics rows
    paired with the label cell of each dimension entry of their code, and
    the statistics rows without such an entry paired with a null label: a
    row with a matching entry receives the label of that entry, a row
    without one is retained with a null label, and no statistics row is
    dropped. Whatever branch [merge_dimension_descriptions] takes, every
    statistics row is retained, a row without a matching entry has a null
    label, and a label that is present is the cell of a dimension entry with
    the row's code; it returns whenever the table has its code column. *)
Theorem C8_left_join_keeps_every_group :
  (forall stats_df dim_table dim_name out,
      Py.mem String.eqb dim_name ["AGE_BUCKET"; "INCTOT_BUCKET"] = false ->
      Py.mem String.eqb (Py.upper dim_name ++ "_value") (columns dim_table) = true ->
      merge_dimension_descriptions stats_df dim_table dim_name = Ok out ->
      (forall r,
          In r out
          <-> In (stat r) stats_df
              /\ ((exists d, In d (rows dim_table)
                             /\ code d = dimension_value (stat r)
                             /\ label r = value d)
                  \/ (unmatched dimension_value (stat r) (rows dim_table)
                      /\ label r = None)))
      /\ (forall s d,
             In s stats_df -> In d (rows dim_table) -> code d = dimension_value s ->
             In {| stat := s; label := value d |} out)
      /\ (forall s,
             In s stats_df -> unmatched dimension_value s (rows dim_table) ->
             In {| stat := s; label := None |} out))
  /\ (forall stats_df dim_table dim_name out,
         merge_dimension_descriptions stats_df dim_table dim_name = Ok out ->
         (forall s, In s stats_df ->
                    (exists r, In r out /\ stat r = s)
                    /\ (unmatched dimension_value s (rows dim_table) ->
                        In {| stat := s; label := None |} out))
         /\ (forall r, In r out -> In (stat r) stats_df)
         /\ (forall r v, In r out -> label r = Some v ->
                         exists d, In d (rows dim_table)
                                   /\ code d = dimension_value (stat r)
                                   /\ value d = Some v))
  /\ (forall stats_df dim_table dim_name,
         Py.mem String.eqb (Py.upper dim_name) (columns dim_table) = true ->
         exists out, merge_dimension_descriptions stats_df dim_table dim_name = Ok out)
  /\ (forall stats dim out,
         merge_and_sort stats dim = Ok out ->
         (forall r,
             In r out
             <-> In (stat r) stats
                 /\ ((exists d, In d dim /\ code d = group_code (stat r)
                                /\ label r = value d)
                     \/ (unmatched group_code (stat r) dim /\ label r = None)))
         /\ (forall s d,
                In s stats -> In d dim -> code d = group_code s ->
                In {| stat := s; label := value d |} out)
         /\ (forall s,
                In s stats ->
                (exists r, In r out /\ stat r = s)
                /\ (unmatched group_code s dim ->
                    In {| stat := s; label := None |} out))).
Proof.
  split; [|split; [|split]].
  - intros stats dim_table dim_name out Hb Hv. unfold merge_dimension_descriptions.
    rewrite Hb. cbv zeta. rewrite Hv. simpl.
    destruct (Py.mem String.eqb (Py.upper dim_name) _); [|discriminate].
    intros [= <-]. split; [|split].
    + intros r. apply merge_left_In.
    + intros s d. apply merge_left_matched.
    + intros s. apply merge_left_unmatched.
  - intros stats dim_table dim_name out. unfold merge_dimension_descriptions.
    assert (forall l : list (Labeled AccessStat),
               l = unlabeled stats ->
               (forall s, In s stats ->
                          (exists r, In r l /\ stat r = s)
                          /\ (unmatched dimension_value s (rows dim_table) ->
                              In {| stat := s; label := None |} l))
               /\ (forall r, In r l -> In (stat r) stats)
               /\ (forall r v, In r l -> label r = Some v ->
                               exists d, In d (rows dim_table)
                                         /\ code d = dimension_value (stat r)
                                         /\ value d = Some v)) as Hun.
    { intros l ->. unfold unlabeled. split; [|split].
      - intros s Hs.
        assert (In {| stat := s; label := None |}
                   (map (fun s => {| stat := s; label := None |}) stats)) as Hin
            by (apply in_map_iff; eauto).
        split; [eexists; split; [exact Hin | reflexivity] | intros _; exact Hin].
      - intros r Hr. apply in_map_iff in Hr. destruct Hr as [s [<- Hs]]. exact Hs.
      - intros r v Hr Hl. apply in_map_iff in Hr. destruct Hr as [s [<- _]].
        discriminate. }
    destruct (negb _); [|intros [= <-]; now apply Hun].
    destruct (Py.mem String.eqb (_ ++ _)%string _); [|intros [= <-]; now apply Hun].
    destruct (Py.mem String.eqb _ _); [|discriminate].
    intros [= <-]. split; [|split].
    + intros s Hs. split; [now apply merge_left_keeps|].
      now apply merge_left_unmatched.
    + intros r Hr. apply merge_left_In in Hr. exact (proj1 Hr).
    + intros r v Hr Hl. apply merge_left_In in Hr.
      destruct Hr as [_ [[d [Hd [Hk Hv]]]|[_ Hn]]]; [|congruence].
      exists d. split; [exact Hd|]. split; [exact Hk | congruence].
  - intros stats dim_table dim_name Hcol. unfold merge_dimension_descriptions.
    destruct (negb (Py.mem String.eqb dim_name _)); [|eauto].
    destruct (Py.mem String.eqb (_ ++ _)%string _); [|eauto].
    rewrite Hcol. eauto.
  - intros stats dim out Hout. apply merge_and_sort_Ok in Hout. subst out.
    split; [|split].
    + intros r. rewrite sort_values_desc_In. apply merge_left_In.
    + intros s d Hs Hd Hk. apply sort_values_desc_In. now apply merge_left_matched.
    + intros s Hs. split.
      * destruct (merge_left_keeps group_code stats dim s Hs) as [r [Hr E]].
        exists r. split; [now apply sort_values_desc_In | exact E].
      * intros Hu. apply sort_values_desc_In. now apply merge_left_unmatched.
Qed.

Lemma C8_left_join_keeps_every_group_witness :
  let alabama :=
    {| dimension_value := 1; AccessStats.population_estimate := 25;
       AccessStats.internet_percentage := 60 |} in
  let guam :=
    {| dimension_value := 7; AccessStats.population_estimate := 10;
       AccessStats.internet_percentage := 50 |} in
  let dim_table :=
    {| columns := ["STATEFIP"; "STATEFIP_value"];
       rows := [ {| code := 1; value := Some "Alabama" |} ] |} in
  exists out,
    merge_dimension_descriptions [alabama; guam] dim_table "statefip" = Ok out
    /\ In {| stat := alabama; label := Some "Alabama" |} out
    /\ In {| stat := guam; label := None |} out.
Proof.
  intros alabama guam dim_table.
  destruct (proj1 (proj2 (proj2 C8_left_join_keeps_every_group))
                  [alabama; guam] dim_table "statefip")
    as [out Hout]; [reflexivity|].
  exists out. split; [exact Hout|].
  destruct (proj1 C8_left_join_keeps_every_group
                  [alabama; guam] dim_table "statefip" out eq_refl eq_refl Hout)
    as [_ [Hmatched Hunmatched]].
  split.
  - apply (Hmatched alabama {| code := 1; value := Some "Alabama" |}).
    + left. reflexivity.
    + left. reflexivity.
    + reflexivity.
  - apply Hunmatched.
    + right. left. reflexivity.
    + intros d [<-|[]]. simpl. discriminate.
Defined.

(** C9 (amended). Every result sequence of the per-state analysis, of the
    per-education analysis and of [calculate_weighted_access_stats] is
    ordered descending by internet percentage; the sort has no tie-break on
    the group column. *)
Theorem C9_descending_by_percentage :
  (forall (self : TechnologyAccessAnalyzer) out,
      analyze_by_state self = Ok out ->
      Spec.descending (fun r => internet_percentage (stat r)) out)
  /\ (forall (self : TechnologyAccessAnalyzer) out,
         analyze_by_education self = Ok out ->
         Spec.descending (fun r => internet_percentage (stat r)) out)
  /\ (forall (Row : Type) (group_col : Row -> Z) (weight_col : Row -> Q)
             (access_col : Row -> Z) (data_frame : list Row) out,
         calculate_weighted_access_stats group_col weight_col access_col data_frame = Ok out ->
         Spec.descending AccessStats.internet_percentage out).
Proof.
  split; [|split].
  - intros self out Hout. apply merge_and_sort_Ok in Hout. subst out.
    apply sort_values_desc_descending.
  - intros self out Hout. apply merge_and_sort_Ok in Hout. subst out.
    apply sort_values_desc_descending.
  - intros Row group_col weight_col access_col df out Hout.
    apply access_stats_Ok in Hout. destruct Hout as [ys [_ ->]].
    apply sort_values_desc_descending.
Qed.

Lemma C9_descending_by_percentage_witness :
  exists out,
    analyze_by_state Scenario.tied_states = Ok out
    /\ Spec.descending (fun r => internet_percentage (stat r)) out.
Proof.
  eexists. split; [reflexivity|].
  apply (proj1 C9_descending_by_percentage Scenario.tied_states). reflexivity.
Defined.

(** C9, as stated, fails: two states that both reach 100 percent come out in
    the order of the dimension table, here code 2 before code 1. *)
Lemma C9_tie_break_counterexample :
  exists out,
    analyze_by_state Scenario.tied_states = Ok out
    /\ ~ Spec.ties_ascending (fun r => internet_percentage (stat r))
                             (fun r => group_code (stat r)) out.
Proof.
  eexists. split; [reflexivity|].
  intros H. specialize (H 0%nat 1%nat _ _ (Nat.lt_0_1) eq_refl eq_refl).
  simpl in H. assert (2 <= 1) by (apply H; reflexivity). lia.
Qed.

(** C10. In the per-state and per-education analyses a record with code [c]
    is in the output exactly when [c] is a code of the dimension table and,
    among the rows of that code, at least one does not carry the
    missing-data code for internet and at least one does not carry it for
    smartphone; an output is produced as soon as one code qualifies. *)
Theorem C10_record_emitted_iff :
  (forall (self : TechnologyAccessAnalyzer) out c,
      analyze_by_state self = Ok out ->
      ((exists r, In r out /\ group_code (stat r) = c)
       <-> In c (map code (state_dim self))
           /\ Spec.has_valid_row CINETHH STATEFIP c (fact_df self)
           /\ Spec.has_valid_row CISMRTPHN STATEFIP c (fact_df self)))
  /\ (forall (self : TechnologyAccessAnalyzer) out c,
         analyze_by_education self = Ok out ->
         ((exists r, In r out /\ group_code (stat r) = c)
          <-> In c (map code (educ_dim self))
              /\ Spec.has_valid_row CINETHH EDUC c (fact_df self)
              /\ Spec.has_valid_row CISMRTPHN EDUC c (fact_df self)))
  /\ (forall (self : TechnologyAccessAnalyzer) c,
         In c (map code (state_dim self)) ->
         Spec.has_valid_row CINETHH STATEFIP c (fact_df self) ->
         Spec.has_valid_row CISMRTPHN STATEFIP c (fact_df self) ->
         exists out, analyze_by_state self = Ok out)
  /\ (forall (self : TechnologyAccessAnalyzer) c,
         In c (map code (educ_dim self)) ->
         Spec.has_valid_row CINETHH EDUC c (fact_df self) ->
         Spec.has_valid_row CISMRTPHN EDUC c (fact_df self) ->
         exists out, analyze_by_education self = Ok out).
Proof.
  assert (forall l c, In c (Py.sorted l) <-> In c l) as Hsorted.
  { intros l c. split; apply Permutation_in;
      [apply sorted_perm | apply Permutation_sym, sorted_perm]. }
  split; [|split; [|split]].
  - intros self out c Hout.
    exact (emitted_iff self STATEFIP _ (state_dim self) out c Hout).
  - intros self out c Hout. rewrite <- Hsorted.
    exact (emitted_iff self EDUC _ (educ_dim self) out c Hout).
  - intros self c Hc H1 H2.
    now apply (emitted_total self STATEFIP _ (state_dim self) c).
  - intros self c Hc H1 H2.
    apply (emitted_total self EDUC _ (educ_dim self) c); trivial.
    now apply Hsorted.
Qed.

Lemma C10_record_emitted_iff_witness :
  exists out,
    analyze_by_state Scenario.four_rows_analyzer = Ok out
    /\ exists r, In r out /\ group_code (stat r) = 1.
Proof.
  assert (Spec.has_valid_row CINETHH STATEFIP 1 Scenario.four_rows) as H1.
  { exists (Scenario.respondent 1 10 1 1). simpl. intuition discriminate. }
  assert (Spec.has_valid_row CISMRTPHN STATEFIP 1 Scenario.four_rows) as H2.
  { exists (Scenario.respondent 1 10 1 1). simpl. intuition discriminate. }
  assert (In 1 (map code (state_dim Scenario.four_rows_analyzer))) as Hc
      by (left; reflexivity).
  destruct (proj1 (proj2 (proj2 C10_record_emitted_iff))
                  Scenario.four_rows_analyzer 1 Hc H1 H2) as [out Hout].
  exists out. split; [exact Hout|].
  apply (proj1 C10_record_emitted_iff Scenario.four_rows_analyzer out 1 Hout).
  auto.
Defined.

End StatisticsClaims.

(* ===================================================================== *)
(** * Further properties of the builders and analysers                    *)
(* ===================================================================== *)

(** ** [create_dimension_tables] and its neighbours *)

Section StarSchemaMore.
Import StarSchema.

Lemma forallb_sym_num_nil (l : list Z) :
  forallb is_sym (map NumCode l) = true -> l = [].
Proof. destruct l; [reflexivity | discriminate]. Qed.

Lemma sorted_nil (l : list Z) : Py.sorted l = [] -> l = [].
Proof.
  intros H. apply Permutation_nil. rewrite <- H. apply sorted_perm.
Qed.

Lemma forallb_num_sym_nil (l : list code) :
  forallb is_num l = true -> forallb is_sym l = true -> l = [].
Proof.
  destruct l as [|c l]; [reflexivity|]. simpl. unfold is_sym.
  destruct (is_num c); simpl; discriminate.
Qed.

(** When [create_dimension_table] returns and when it raises: a table is
    built exactly when the codebook declares at least one code and either
    all declared codes are integers, or all are symbolic and the fact column
    is empty; an empty [codes] dict is the only source of [KeyError], and a
    column mixing integers and strings the only source of [TypeError]. *)
Theorem create_dimension_table_returns_iff
    (var_info : VariableDefinition) (fact_column : list Z) :
  ((exists tbl, create_dimension_table var_info fact_column = Ok tbl)
   <-> codes var_info <> []
       /\ (forallb is_num (declared_codes var_info) = true
           \/ (forallb is_sym (declared_codes var_info) = true /\ fact_column = [])))
  /\ (create_dimension_table var_info fact_column = Raise KeyError
      <-> codes var_info = [])
  /\ (forall e, create_dimension_table var_info fact_column = Raise e ->
                e = KeyError \/ e = TypeError).
Proof.
  assert (codes var_info = [] ->
          create_dimension_table var_info fact_column = Raise KeyError) as Hempty.
  { intros E. unfold create_dimension_table, declared_entries. now rewrite E. }
  assert (forall e, sort_values (reconciled var_info fact_column) = Raise e ->
                    e = TypeError) as Hsort.
  { intros e. unfold sort_values. destruct (_ || _)%bool; congruence. }
  split; [|split].
  - split.
    + intros [tbl Htbl].
      pose proof (create_dimension_table_Ok_nonempty _ _ _ Htbl) as Hne.
      split; [exact Hne|].
      rewrite (create_dimension_table_unfold _ _ Hne) in Htbl.
      unfold sort_values in Htbl. rewrite reconciled_codes in Htbl.
      destruct (forallb is_num _ || forallb is_sym _)%bool eqn:E; [|discriminate].
      apply orb_true_iff in E. destruct E as [E|E]; rewrite forallb_app in E;
        apply andb_true_iff in E; destruct E as [E1 E2]; [now left|].
      right. split; [exact E1|].
      apply forallb_sym_num_nil, sorted_nil in E2.
      destruct fact_column as [|v col]; [reflexivity|]. exfalso.
      assert (In v (missing_values (v :: col)
                      (Py.unique code_eqb (declared_codes var_info)))) as Hin.
      { apply missing_values_In. split; [now left|].
        rewrite (unique_In code_eqb code_eqb_spec). intros Hd.
        rewrite forallb_forall in E1. specialize (E1 _ Hd). discriminate. }
      rewrite E2 in Hin. destruct Hin.
    + intros [Hne [Hnum|[Hsym ->]]].
      * rewrite (create_dimension_table_unfold _ _ Hne).
        rewrite sort_values_numeric; [eauto | now apply reconciled_numeric].
      * rewrite (create_dimension_table_unfold _ _ Hne).
        unfold sort_values. rewrite reconciled_codes.
        change (missing_values [] _) with (@nil Z). simpl. rewrite app_nil_r, Hsym.
        rewrite orb_true_r. eauto.
  - split; [|exact Hempty]. intros H.
    destruct (codes var_info) as [|kv l] eqn:E; [reflexivity|]. exfalso.
    assert (codes var_info <> []) as Hne by (rewrite E; discriminate).
    rewrite (create_dimension_table_unfold _ _ Hne) in H.
    apply Hsort in H. discriminate.
  - intros e H. destruct (codes var_info) as [|kv l] eqn:E.
    + rewrite (Hempty eq_refl) in H. left. congruence.
    + assert (codes var_info <> []) as Hne by (rewrite E; discriminate).
      rewrite (create_dimension_table_unfold _ _ Hne) in H. right. now apply Hsort.
Qed.

Lemma create_dimension_table_returns_iff_witness :
  (exists tbl,
      create_dimension_table
        {| desc := "Region"; codes := [("N", "North"); ("S", "South")] |} [] = Ok tbl)
  /\ create_dimension_table
       {| desc := "Region"; codes := [("N", "North"); ("S", "South")] |} [4]
     = Raise TypeError.
Proof.
  set (vi := {| desc := "Region"; codes := [("N", "North"); ("S", "South")] |}).
  pose proof (create_dimension_table_returns_iff vi []) as [Hok _].
  pose proof (create_dimension_table_returns_iff vi [4]) as [Hok4 [Hkey Hexn]].
  split.
  - apply Hok. split; [discriminate|]. right. split; reflexivity.
  - destruct (create_dimension_table vi [4]) as [tbl|e] eqn:E.
    + exfalso. assert (exists t, Ok tbl = Ok t) as Hex by eauto.
      apply Hok4 in Hex. destruct Hex as [_ [H|[_ H]]]; discriminate.
    + destruct (Hexn e eq_refl) as [->| ->]; [|reflexivity].
      exfalso. assert (codes vi = []) as H by now apply Hkey. discriminate.
Defined.

(** The rows of a table that was built: every declared code with the label
    and description of the codebook, and for every observed value that is
    not declared one row labelled [Undefined code: <value>]; nothing else.
    In particular a declared code never receives the undefined label. *)
Theorem create_dimension_table_rows
    (var_info : VariableDefinition) (fact_column : list Z) (tbl : list DimEntry) :
  create_dimension_table var_info fact_column = Ok tbl ->
  forall e,
    In e tbl
    <-> (exists k l, In (k, l) (codes var_info)
                     /\ e = {| dim_code := code_val k; dim_value := l;
                               dim_desc := desc var_info |})
        \/ (exists v, In v fact_column
                      /\ ~ In (NumCode v) (declared_codes var_info)
                      /\ e = {| dim_code := NumCode v;
                                dim_value := "Undefined code: " ++ Py.str v;
                                dim_desc := desc var_info |}).
Proof.
  intros Htbl e.
  pose proof (create_dimension_table_Ok_nonempty _ _ _ Htbl) as Hne.
  rewrite (create_dimension_table_unfold _ _ Hne) in Htbl.
  apply sort_values_Ok_perm in Htbl.
  assert (In e tbl <-> In e (reconciled var_info fact_column)) as ->.
  { split; apply Permutation_in; [exact Htbl | now apply Permutation_sym]. }
  unfold reconciled. rewrite in_app_iff, declared_entries_codes.
  unfold declared_entries. rewrite !in_map_iff. split.
  - intros [[[k l] [<- Hkl]]|[v [<- Hv]]].
    + left. exists k, l. auto.
    + right. exists v.
      apply (Permutation_in _ (sorted_perm _)), missing_values_In in Hv.
      rewrite (unique_In code_eqb code_eqb_spec) in Hv.
      destruct Hv as [Hv Hn]. auto.
  - intros [[k [l [Hkl ->]]]|[v [Hv [Hn ->]]]].
    + left. exists (k, l). auto.
    + right. exists v. split; [reflexivity|].
      apply (Permutation_in _ (Permutation_sym (sorted_perm _))).
      apply missing_values_In. rewrite (unique_In code_eqb code_eqb_spec). auto.
Qed.

Lemma create_dimension_table_rows_witness :
  exists tbl,
    create_dimension_table
      {| desc := "Answer"; codes := [("1", "Yes"); ("2", "No")] |} [2; 7] = Ok tbl
    /\ In {| dim_code := NumCode 7; dim_value := "Undefined code: 7";
             dim_desc := "Answer" |} tbl.
Proof.
  eexists. split; [reflexivity|].
  apply (create_dimension_table_rows
           {| desc := "Answer"; codes := [("1", "Yes"); ("2", "No")] |} [2; 7] _ eq_refl).
  right. exists 7. split; [simpl; auto|]. split; [|reflexivity].
  simpl. intros [H|[H|[]]]; discriminate.
Defined.

(** When the fact column only holds declared codes, reconciliation adds
    nothing: the table is a rearrangement of the codebook's own rows. *)
Theorem create_dimension_table_all_declared
    (var_info : VariableDefinition) (fact_column : list Z) (tbl : list DimEntry) :
  (forall v, In v fact_column -> In (NumCode v) (declared_codes var_info)) ->
  create_dimension_table var_info fact_column = Ok tbl ->
  Permutation tbl (declared_entries var_info).
Proof.
  intros Hall Htbl.
  pose proof (create_dimension_table_Ok_nonempty _ _ _ Htbl) as Hne.
  rewrite (create_dimension_table_unfold _ _ Hne) in Htbl.
  apply sort_values_Ok_perm in Htbl.
  assert (missing_values fact_column
            (Py.unique code_eqb (map dim_code (declared_entries var_info))) = []) as Hm.
  { destruct (missing_values _ _) as [|v l] eqn:E; [reflexivity|]. exfalso.
    assert (In v (missing_values fact_column
                    (Py.unique code_eqb (map dim_code (declared_entries var_info))))) as Hv
        by (rewrite E; now left).
    apply missing_values_In in Hv. destruct Hv as [Hv Hn]. apply Hn.
    rewrite (unique_In code_eqb code_eqb_spec), declared_entries_codes. auto. }
  unfold reconciled in Htbl. rewrite Hm in Htbl. simpl in Htbl.
  now rewrite app_nil_r in Htbl.
Qed.

Lemma create_dimension_table_all_declared_witness :
  exists tbl,
    create_dimension_table
      {| desc := "Answer"; codes := [("2", "No"); ("1", "Yes")] |} [1; 1; 2] = Ok tbl
    /\ List.length tbl = 2%nat.
Proof.
  eexists. split; [reflexivity|].
  assert (forall v, In v [1; 1; 2] ->
                    In (NumCode v)
                       (declared_codes
                          {| desc := "Answer"; codes := [("2", "No"); ("1", "Yes")] |}))
    as Hall.
  { intros v [<-|[<-|[<-|[]]]]; simpl; auto. }
  apply (Permutation_length
           (create_dimension_table_all_declared _ _ _ Hall eq_refl)).
Defined.

End StarSchemaMore.

Section DimensionLoop.
Import StarSchema.

Variable ipums_vars : list (string * VariableDefinition).

Local Abbreviation step := (Spec.dimension_step ipums_vars).
Local Abbreviation built := (Spec.table_of ipums_vars).
Local Abbreviation defined := (Spec.has_definition ipums_vars).

Lemma step_Ok (acc : list (string * list DimEntry)) (c : string * list Z) :
  step (Ok acc) c
  = match lookup (fst c) ipums_vars with
    | None => Ok acc
    | Some var_info =>
        dim_df <- create_dimension_table var_info (snd c) ;;
        Ok (acc ++ [(fst c, dim_df)])%list
    end.
Proof. reflexivity. Qed.

Lemma loop_raise (l : list (string * list Z)) (e : Py.exn) :
  fold_left step l (Raise e) = Raise e.
Proof. induction l as [|c l IH]; simpl; [reflexivity | exact IH]. Qed.

Lemma loop_Ok (l : list (string * list Z)) (acc out : list (string * list DimEntry)) :
  fold_left step l (Ok acc) = Ok out ->
  exists rest, out = (acc ++ rest)%list /\ Forall2 built (filter defined l) rest.
Proof.
  revert acc. induction l as [|c l IH]; intros acc; cbn [fold_left filter].
  - intros [= <-]. exists []. rewrite app_nil_r. split; [reflexivity | constructor].
  - rewrite step_Ok. unfold Spec.has_definition at 1.
    destruct (lookup (fst c) ipums_vars) as [vi|] eqn:El.
    + destruct (create_dimension_table vi (snd c)) as [tbl|e] eqn:Et; cbn [Py.bind].
      * intros H. apply IH in H. destruct H as [rest [-> HF]].
        exists ((fst c, tbl) :: rest). rewrite <- app_assoc. split; [reflexivity|].
        constructor; [|exact HF]. split; [reflexivity|]. exists vi. auto.
      * rewrite loop_raise. discriminate.
    + apply IH.
Qed.

Lemma loop_fails (l : list (string * list Z)) (acc : list (string * list DimEntry))
    (c : string * list Z) (var_info : VariableDefinition) (e : Py.exn) :
  In c l -> lookup (fst c) ipums_vars = Some var_info ->
  create_dimension_table var_info (snd c) = Raise e ->
  exists e', fold_left step l (Ok acc) = Raise e'.
Proof.
  revert acc. induction l as [|c' l IH]; intros acc Hin Hl He; [destruct Hin|].
  cbn [fold_left]. rewrite step_Ok. destruct Hin as [->|Hin].
  - rewrite Hl, He. cbn [Py.bind]. rewrite loop_raise. eauto.
  - destruct (lookup (fst c') ipums_vars) as [vi|]; [|now apply IH].
    destruct (create_dimension_table vi (snd c')) as [tbl|e0]; cbn [Py.bind].
    + now apply IH.
    + rewrite loop_raise. eauto.
Qed.

(** [create_dimension_tables], when it returns, has built one table for each
    column that is neither a measure nor excluded and has a definition, in
    the order of the columns, each being the table of that variable; measure
    and excluded columns and variables without definition get none. When the
    table of one such column raises, the whole call raises and the tables of
    the columns after it are not built. *)
Theorem create_dimension_tables_loop (fact_df : list (string * list Z)) :
  (forall tables,
      create_dimension_tables fact_df ipums_vars = Ok tables ->
      map fst tables
      = map fst (filter (fun col => Spec.is_dim_var col && defined col) fact_df)
      /\ forall name tbl,
          In (name, tbl) tables ->
          Py.mem String.eqb name MEASURE_VARS = false
          /\ Py.mem String.eqb name EXCLUDE_VARS = false
          /\ exists column var_info,
              In (name, column) fact_df
              /\ lookup name ipums_vars = Some var_info
              /\ create_dimension_table var_info column = Ok tbl)
  /\ (forall name column var_info e,
         In (name, column) fact_df ->
         Spec.is_dim_var (name, column) = true ->
         lookup name ipums_vars = Some var_info ->
         create_dimension_table var_info column = Raise e ->
         exists e', create_dimension_tables fact_df ipums_vars = Raise e').
Proof.
  assert (create_dimension_tables fact_df ipums_vars
          = fold_left step (filter (@Spec.is_dim_var (list Z)) fact_df) (Ok []))
    as -> by reflexivity.
  split.
  - intros tables H. apply loop_Ok in H. destruct H as [rest [-> HF]]. simpl.
    rewrite filter_filter in HF. split.
    + clear -HF. induction HF as [|c r l rest [Hr _] _ IH]; simpl; [reflexivity|].
      now rewrite Hr, IH.
    + intros name tbl Hin.
      destruct (Forall2_In_r _ _ _ _ HF Hin) as [c [Hc [Hname [vi [Hl Ht]]]]].
      simpl in Hname, Ht. subst name.
      apply filter_In in Hc. destruct Hc as [Hc Hd].
      apply andb_true_iff in Hd. destruct Hd as [Hd _].
      unfold Spec.is_dim_var in Hd. apply andb_true_iff in Hd.
      destruct Hd as [H1 H2]. apply negb_true_iff in H1, H2.
      split; [exact H1|]. split; [exact H2|].
      exists (snd c), vi. destruct c. auto.
  - intros name column vi e Hin Hd Hl He.
    apply (loop_fails _ _ (name, column) vi e); trivial.
    apply filter_In. auto.
Qed.

End DimensionLoop.

Lemma create_dimension_tables_loop_witness :
  let ipums :=
    [ ("SEX", {| StarSchema.desc := "Sex";
                 StarSchema.codes := [("1", "Male"); ("2", "Female")] |});
      ("YEAR", {| StarSchema.desc := "Year";
                  StarSchema.codes := [("2023", "2023")] |}) ] in
  let fact_df := [("YEAR", [2023]); ("SEX", [1; 2]); ("PERWT", [10; 12]); ("RACE", [1])] in
  exists tables,
    StarSchema.create_dimension_tables fact_df ipums = Ok tables
    /\ map fst tables = ["SEX"].
Proof.
  intros ipums fact_df. eexists. split; [reflexivity|].
  now rewrite (proj1 (proj1 (create_dimension_tables_loop ipums fact_df) _ eq_refl)).
Defined.


Section FactTable.
Import StarSchema.
Context {C : Type}.

Lemma String_eqb_spec' (a b : string) : String.eqb a b = true <-> a = b.
Proof. apply String.eqb_eq. Qed.

Lemma drop_column_absent (var : string) (df : list (string * C)) :
  Py.mem String.eqb var (map fst df) = false -> drop_column var df = df.
Proof.
  intros H. unfold drop_column.
  assert (forall col, In col df -> negb (String.eqb (fst col) var) = true) as Hall.
  { intros col Hc. apply negb_true_iff. apply not_true_is_false. intros E.
    apply String.eqb_eq in E.
    apply (mem_false String.eqb String_eqb_spec') in H. apply H.
    rewrite <- E. now apply in_map. }
  clear H. induction df as [|c df IH]; simpl; [reflexivity|].
  rewrite (Hall c (or_introl eq_refl)), IH; [reflexivity|].
  intros col Hc. apply Hall. now right.
Qed.

Lemma save_fact_table_filter (fact_df : list (string * C)) :
  save_fact_table fact_df
  = filter (fun col => negb (Py.mem String.eqb (fst col) EXCLUDE_VARS)) fact_df.
Proof.
  unfold save_fact_table, EXCLUDE_VARS. simpl.
  assert (forall var (df : list (string * C)),
             (if Py.mem String.eqb var (map fst df) then drop_column var df else df)
             = drop_column var df) as Hstep.
  { intros var df. destruct (Py.mem _ _ _) eqn:E; [reflexivity|].
    symmetry. now apply drop_column_absent. }
  rewrite !Hstep. unfold drop_column. rewrite filter_filter.
  apply filter_ext. intros col. unfold Py.mem. simpl.
  rewrite orb_false_r, negb_orb. reflexivity.
Qed.

End FactTable.

Section FactTableClaims.
Import StarSchema.

(** [save_fact_table] writes exactly the columns that are not excluded
    variables, in their order (so every measure and every dimension column is
    kept); and because excluded columns never get a dimension table, building
    the dimension tables from the saved fact table gives the same result as
    building them from the loaded one. *)
Theorem save_fact_table_keeps_dimensions
    (fact_df : list (string * list Z))
    (ipums_vars : list (string * VariableDefinition)) :
  save_fact_table fact_df
  = filter (fun col => negb (Py.mem String.eqb (fst col) EXCLUDE_VARS)) fact_df
  /\ (forall col, In col fact_df ->
                  Py.mem String.eqb (fst col) EXCLUDE_VARS = false ->
                  In col (save_fact_table fact_df))
  /\ save_fact_table (save_fact_table fact_df) = save_fact_table fact_df
  /\ create_dimension_tables (save_fact_table fact_df) ipums_vars
     = create_dimension_tables fact_df ipums_vars.
Proof.
  split; [apply save_fact_table_filter|]. split; [|split].
  - intros col Hc Hx. rewrite save_fact_table_filter. apply filter_In.
    split; [exact Hc | now rewrite Hx].
  - rewrite !save_fact_table_filter, filter_filter. apply filter_ext.
    intros col. now rewrite andb_diag.
  - unfold create_dimension_tables. rewrite save_fact_table_filter, filter_filter.
    f_equal. apply filter_ext. intros col.
    destruct (Py.mem String.eqb (fst col) EXCLUDE_VARS); simpl;
      [now rewrite andb_false_r | reflexivity].
Qed.

Lemma save_fact_table_keeps_dimensions_witness :
  save_fact_table [("YEAR", [2023]); ("SEX", [1]); ("PERNUM", [1]); ("PERWT", [10])]
  = [("SEX", [1]); ("PERWT", [10])].
Proof.
  rewrite (proj1 (save_fact_table_keeps_dimensions _ [])). reflexivity.
Defined.

(** *** The codes dict of [load_data] *)

Lemma lookup_dict_set {V : Type} (k k' : string) (v : V) (d : list (string * V)) :
  lookup k (dict_set k' v d)
  = if String.eqb k k' then Some v else lookup k d.
Proof.
  induction d as [|[k0 v0] d IH]; simpl.
  - reflexivity.
  - destruct (String.eqb k' k0) eqn:E; simpl.
    + apply String.eqb_eq in E. subst k0. now destruct (String.eqb k k').
    + rewrite IH. destruct (String.eqb k k0) eqn:E0; [|reflexivity].
      apply String.eqb_eq in E0. subst k0.
      rewrite String.eqb_sym, E. reflexivity.
Qed.

Lemma dict_set_keys {V : Type} (k : string) (v : V) (d : list (string * V)) (x : string) :
  In x (map fst (dict_set k v d)) <-> x = k \/ In x (map fst d).
Proof.
  induction d as [|[k0 v0] d IH]; simpl.
  - intuition.
  - destruct (String.eqb k k0) eqn:E; simpl.
    + apply String.eqb_eq in E. subst k0. intuition.
    + rewrite IH. intuition.
Qed.

Lemma dict_set_NoDup {V : Type} (k : string) (v : V) (d : list (string * V)) :
  NoDup (map fst d) -> NoDup (map fst (dict_set k v d)).
Proof.
  induction d as [|[k0 v0] d IH]; simpl; intros H.
  - repeat constructor. intros [].
  - inversion H as [|? ? Hn Hd]; subst.
    destruct (String.eqb k k0) eqn:E; simpl.
    + apply String.eqb_eq in E. subst k0. now constructor.
    + constructor; [|now apply IH].
      rewrite dict_set_keys. intros [->|Hin]; [|contradiction].
      rewrite String.eqb_refl in E. discriminate.
Qed.

Lemma lookup_app {V : Type} (k : string) (a b : list (string * V)) :
  lookup k (a ++ b)
  = match lookup k a with Some v => Some v | None => lookup k b end.
Proof.
  induction a as [|[k0 v0] a IH]; simpl; [reflexivity|].
  now destruct (String.eqb k k0).
Qed.

Lemma add_catgry_cases (codes : list (string * string)) (c : catgry) :
  (Spec.valid_pairs [c] = [] /\ add_catgry codes c = codes)
  \/ exists k l, k <> "" /\ l <> ""
                 /\ Spec.valid_pairs [c] = [(k, l)]
                 /\ add_catgry codes c = dict_set k l codes.
Proof.
  unfold add_catgry, Spec.valid_pairs. simpl.
  destruct (catValu c) as [[[|a k]|]|]; destruct (labl c) as [[[|b l]|]|]; simpl; auto.
  right. exists (String a k), (String b l). repeat split; discriminate.
Qed.

Lemma load_codes_from (catgries : list catgry) (acc : list (string * string)) :
  NoDup (map fst acc) ->
  NoDup (map fst (fold_left add_catgry catgries acc))
  /\ (forall k, lookup k (fold_left add_catgry catgries acc)
                = match lookup k (rev (Spec.valid_pairs catgries)) with
                  | Some l => Some l
                  | None => lookup k acc
                  end)
  /\ (forall k, In k (map fst (fold_left add_catgry catgries acc))
                <-> In k (map fst acc) \/ In k (map fst (Spec.valid_pairs catgries))).
Proof.
  revert acc. induction catgries as [|c cs IH]; intros acc Hnd.
  - simpl. split; [exact Hnd|]. split; [reflexivity | intuition].
  - cbn [fold_left].
    assert (Spec.valid_pairs (c :: cs)
            = (Spec.valid_pairs [c] ++ Spec.valid_pairs cs)%list) as ->
        by (unfold Spec.valid_pairs; simpl; now rewrite app_nil_r).
    destruct (add_catgry_cases acc c) as [[Hv ->]|[k0 [l0 [_ [_ [Hv ->]]]]]];
      rewrite Hv.
    + simpl. now apply IH.
    + destruct (IH (dict_set k0 l0 acc) (dict_set_NoDup _ _ _ Hnd)) as [H1 [H2 H3]].
      split; [exact H1|]. split.
      * intros k. rewrite H2. simpl. rewrite lookup_app, lookup_dict_set. simpl.
        destruct (lookup k (rev (Spec.valid_pairs cs))); [reflexivity|].
        now destruct (String.eqb k k0).
      * intros k. rewrite H3, dict_set_keys. simpl. intuition.
Qed.

(** The [codes] dict that [load_data] builds for a variable has each code
    once; it holds exactly the codes of the categories whose code and label
    are both present and non-empty, and a code that occurs in several
    categories keeps the label of the last one. *)
Theorem load_codes_dict (catgries : list catgry) :
  NoDup (map fst (load_codes catgries))
  /\ (forall k, lookup k (load_codes catgries)
                = lookup k (rev (Spec.valid_pairs catgries)))
  /\ (forall k l, In (k, l) (load_codes catgries) -> k <> "" /\ l <> "").
Proof.
  destruct (load_codes_from catgries [] (NoDup_nil _)) as [H1 [H2 H3]].
  split; [exact H1|]. split.
  - intros k. unfold load_codes. rewrite H2.
    now destruct (lookup k (rev (Spec.valid_pairs catgries))).
  - intros k l Hin.
    assert (lookup k (load_codes catgries) = Some l) as Hl.
    { clear -Hin H1. fold (load_codes catgries) in H1.
      induction (load_codes catgries) as [|[k0 l0] d IH]; [destruct Hin|].
      simpl in *. inversion H1 as [|? ? Hn Hd]; subst.
      destruct Hin as [[= -> ->]|Hin].
      - now rewrite String.eqb_refl.
      - destruct (String.eqb k k0) eqn:E; [|now apply IH].
        apply String.eqb_eq in E. subst k0. exfalso. apply Hn.
        apply in_map_iff. exists (k, l). auto. }
    unfold load_codes in Hl. rewrite H2 in Hl. simpl in Hl.
    destruct (lookup k (rev (Spec.valid_pairs catgries))) as [l'|] eqn:E; [|discriminate].
    injection Hl as ->.
    assert (In (k, l) (Spec.valid_pairs catgries)) as Hv.
    { apply in_rev. clear -E. induction (rev (Spec.valid_pairs catgries)) as [|[k0 l0] d IH];
        [discriminate|]. simpl in E. destruct (String.eqb k k0) eqn:Ek.
      - apply String.eqb_eq in Ek. injection E as ->. subst. now left.
      - right. now apply IH. }
    unfold Spec.valid_pairs in Hv. apply in_flat_map in Hv. destruct Hv as [c [_ Hc]].
    destruct (catValu c) as [[[|a k1]|]|]; destruct (labl c) as [[[|b l1]|]|];
      simpl in Hc; try contradiction.
    destruct Hc as [[= <- <-]|[]]. split; discriminate.
Qed.

End FactTableClaims.

(** ** The fixed-band builder *)

Section SchemaMore.
Import Schema.

Lemma int_raises_ValueError (s : string) (e : Py.exn) :
  Py.int s = Raise e -> e = ValueError.
Proof.
  unfold Py.int.
  destruct (match Py.strip s with
            | String "-" r => (true, r)
            | String "+" r => (false, r)
            | _ => (false, Py.strip s)
            end) as [negative digits].
  destruct (Py.parse_digits 0 false digits); congruence.
Qed.

(** [create_dimension_tables] of the fixed-band builder, for one variable:
    it returns exactly when every codebook key is an integer, and then keeps
    the codebook's order and labels, the codes being the keys' values (which
    are the codes the reconciling builder declares for the same codebook);
    any other key raises [ValueError] and no table is written. *)
Theorem schema_create_dimension_table (codes : list (string * string)) :
  (forall tbl,
      create_dimension_table codes = Ok tbl ->
      map snd tbl = map snd codes
      /\ map (fun kv => Py.int (fst kv)) codes = map (fun row => Ok (fst row)) tbl
      /\ forall d, StarSchema.declared_codes {| StarSchema.desc := d;
                                                StarSchema.codes := codes |}
                   = map (fun row => StarSchema.NumCode (fst row)) tbl)
  /\ ((forall kv, In kv codes -> exists n, Py.int (fst kv) = Ok n) ->
      exists tbl, create_dimension_table codes = Ok tbl)
  /\ ((exists kv e, In kv codes /\ Py.int (fst kv) = Raise e) ->
      create_dimension_table codes = Raise ValueError).
Proof.
  unfold create_dimension_table. split; [|split].
  - intros tbl H. apply mapM_Ok in H.
    induction H as [|[k l] [n l'] codes' tbl' Hx _ IH]; simpl; [auto|].
    simpl in Hx. destruct (Py.int k) as [m|e] eqn:E; simpl in Hx; [|discriminate].
    injection Hx as -> ->. destruct IH as [IH1 [IH2 IH3]].
    split; [now rewrite IH1|]. split; [now rewrite IH2|].
    intros d. specialize (IH3 d). unfold StarSchema.declared_codes in *. simpl in *.
    unfold StarSchema.code_val at 1. now rewrite E, IH3.
  - intros H. apply mapM_total. intros kv Hkv. destruct (H kv Hkv) as [n ->].
    simpl. eauto.
  - intros [kv [e [Hkv He]]]. apply mapM_raises.
    + intros x e'. destruct (Py.int (fst x)) eqn:E; simpl; [discriminate|].
      intros [= <-]. now apply (int_raises_ValueError (fst x)).
    + exists kv. split; [exact Hkv|]. rewrite He. simpl.
      now rewrite (int_raises_ValueError _ _ He).
Qed.

Lemma schema_create_dimension_table_witness :
  (exists tbl, create_dimension_table [("2", "Female"); ("01", "Male")] = Ok tbl
               /\ map snd tbl = ["Female"; "Male"])
  /\ create_dimension_table [("1", "Yes"); ("B", "Other")] = Raise ValueError.
Proof.
  split.
  - destruct (proj1 (proj2 (schema_create_dimension_table
                              [("2", "Female"); ("01", "Male")]))) as [tbl Htbl].
    + intros kv [<-|[<-|[]]]; eexists; vm_compute; reflexivity.
    + exists tbl. split; [exact Htbl|].
      apply (proj1 (schema_create_dimension_table _) tbl Htbl).
  - apply (proj2 (proj2 (schema_create_dimension_table _))).
    exists ("B", "Other"), ValueError. split; [simpl; auto | reflexivity].
Defined.

(** *** Age rows *)

Lemma range_In (start stop a : Z) : In a (range start stop) <-> start <= a < stop.
Proof.
  unfold range. rewrite in_map_iff. split.
  - intros [i [<- Hi]]. apply in_seq in Hi. lia.
  - intros H. exists (Z.to_nat (a - start)). split; [lia|]. apply in_seq. lia.
Qed.

(** [dim_age] has a row (age, label) exactly for the ages inside the
    inclusive range of a band with that label; with the bands of the source
    these are the ages 0 to 120, each once and in ascending order, so an age
    above 120 or below 0 has no row. *)
Theorem age_rows_cover :
  (forall (groups : list band) (age : Z) (label : string),
      In (age, label) (age_rows groups)
      <-> exists min_age max_age,
          In (min_age, max_age, label) groups /\ min_age <= age <= max_age)
  /\ map fst (age_rows age_groups) = range 0 121.
Proof.
  split; [|vm_compute; reflexivity].
  intros groups age label. unfold age_rows. rewrite in_flat_map. split.
  - intros [[[lo hi] l] [Hb Hin]]. apply in_map_iff in Hin.
    destruct Hin as [a [[= -> ->] Ha]]. apply range_In in Ha.
    exists lo, hi. split; [exact Hb | lia].
  - intros [lo [hi [Hb Ha]]]. exists (lo, hi, label). split; [exact Hb|].
    apply in_map_iff. exists age. split; [reflexivity|]. apply range_In. lia.
Qed.

(** *** Income group tables *)

Lemma Sorted_le_NoDup_lt (l : list Z) :
  Sorted (Py.le_of Z.leb) l -> NoDup l -> StronglySorted Z.lt l.
Proof.
  intros Hs Hn.
  assert (StronglySorted Z.le l) as Hss.
  { apply Sorted_StronglySorted; [intros a b c; apply Z.le_trans|].
    apply (Sorted_weaken (Py.le_of Z.leb)); [|exact Hs].
    intros a b H. now apply Z.leb_le. }
  clear Hs. induction Hss as [|a l Hss IH Hall]; [constructor|].
  inversion Hn as [|? ? Hna Hnl]; subst.
  constructor; [now apply IH|].
  rewrite Forall_forall in *. intros x Hx.
  specialize (Hall x Hx). assert (a <> x) by (intros ->; contradiction). lia.
Qed.

(** A group table ([dim_income], [dim_hhincome]) has one row per distinct
    value of the column, in strictly ascending order, each with the label
    that the band loop assigns to it. *)
Theorem group_table_rows (groups : list band) (column : list Z) :
  StronglySorted Z.lt (map fst (group_table groups column))
  /\ (forall income, In income (map fst (group_table groups column))
                     <-> In income column)
  /\ (forall income label, In (income, label) (group_table groups column)
                           -> label = assign_group groups income).
Proof.
  unfold group_table. rewrite map_map. simpl. rewrite map_id.
  split; [|split].
  - apply Sorted_le_NoDup_lt.
    + apply sort_by_sorted. intros a b H. apply Z.leb_le. apply Z.leb_gt in H. lia.
    + eapply Permutation_NoDup; [apply Permutation_sym, sorted_perm|].
      apply (unique_NoDup Z.eqb Zeqb_spec').
  - intros income. rewrite <- (unique_In Z.eqb Zeqb_spec' column).
    split; apply Permutation_in; [apply sorted_perm | apply Permutation_sym, sorted_perm].
  - intros income label H. apply in_map_iff in H. destruct H as [x [[= <- <-] _]].
    reflexivity.
Qed.

(** The personal income bands leave no gap between -10,000,000 and
    10,000,000: the label is [Unknown] exactly outside that range, so the
    value 9999999 falls in the top band. *)
Theorem income_groups_unknown_iff (income : Z) :
  (assign_group income_groups income = "Unknown"
   <-> income < -10000000 \/ 10000000 < income)
  /\ assign_group income_groups 9999999 = "$150,000+".
Proof.
  split; [|reflexivity].
  unfold income_groups, assign_group, in_band, band_label.
  repeat match goal with
         | |- context [?a <=? ?b] => destruct (Z.leb_spec a b); simpl
         end;
    (split; [try discriminate; intros _; lia | try reflexivity; intros; lia]).
Qed.

(** In the household income bands the band [N/A or Missing] comes after the
    band that already contains its only value 9999999, so no income ever
    receives that label: 9999999 is labelled [$200,000+]. *)
Theorem hhincome_missing_band_unreachable (income : Z) :
  assign_group hhincome_groups income <> "N/A or Missing"
  /\ assign_group hhincome_groups 9999999 = "$200,000+".
Proof.
  split; [|reflexivity].
  unfold hhincome_groups, assign_group, in_band, band_label.
  repeat match goal with
         | |- context [?a <=? ?b] => destruct (Z.leb_spec a b); simpl
         end; try discriminate; lia.
Qed.

End SchemaMore.

(** ** [int] after [str] *)

Section IntStr.
Import Decimal.

Local Abbreviation render := NilEmpty.string_of_uint.

Ltac eval_digit :=
  match goal with
  | |- context [Py.digit_val ?c] =>
      let v := eval vm_compute in (Py.digit_val c) in
      change (Py.digit_val c) with v
  end; cbv iota beta.

Lemma parse_digits_pos (d : uint) (acc : positive) :
  Py.parse_digits (Z.pos acc) true (render d) = Some (Z.pos (Pos.of_uint_acc d acc)).
Proof.
  revert acc. induction d; intros acc; cbn [NilEmpty.string_of_uint Pos.of_uint_acc];
    [reflexivity | ..];
    cbn [Py.parse_digits]; eval_digit; rewrite <- IHd; f_equal; lia.
Qed.

Lemma parse_digits_zero (d : uint) :
  Py.parse_digits 0 true (render d) = Some (Z.of_N (Pos.of_uint d)).
Proof.
  induction d; cbn [NilEmpty.string_of_uint Pos.of_uint]; [reflexivity | ..];
    cbn [Py.parse_digits]; eval_digit;
    try exact IHd; apply parse_digits_pos.
Qed.

Lemma parse_digits_start (d : uint) :
  d <> Nil ->
  Py.parse_digits 0 false (render d) = Some (Z.of_N (Pos.of_uint d)).
Proof.
  destruct d; intros H; [congruence | ..];
    cbn [NilEmpty.string_of_uint Pos.of_uint];
    cbn [Py.parse_digits]; eval_digit;
    try apply parse_digits_zero; apply parse_digits_pos.
Qed.

(** No character of [s] is white space. *)
Local Abbreviation spaceless s :=
  (forall c, In c (list_ascii_of_string s) -> Py.is_space c = false).

Lemma render_spaceless (d : uint) : spaceless (render d).
Proof.
  induction d; cbn [NilEmpty.string_of_uint list_ascii_of_string];
    [intros c [] | ..]; intros c [<-|Hc]; try reflexivity; now apply IHd.
Qed.

Lemma rstrip_spaceless (s : string) : spaceless s -> Py.rstrip s = s.
Proof.
  induction s as [|c s IH]; intros H; [reflexivity|].
  cbn [Py.rstrip]. rewrite IH; [|intros x Hx; apply H; now right].
  destruct s; [|reflexivity].
  now rewrite (H c (or_introl eq_refl)).
Qed.

Lemma strip_spaceless (s : string) : spaceless s -> Py.strip s = s.
Proof.
  intros H. unfold Py.strip.
  assert (Py.lstrip s = s) as ->.
  { destruct s as [|c s]; [reflexivity|]. simpl.
    now rewrite (H c (or_introl eq_refl)). }
  now apply rstrip_spaceless.
Qed.

Lemma int_render (d : uint) :
  d <> Nil -> Py.int (render d) = Ok (Z.of_N (Pos.of_uint d)).
Proof.
  intros H. unfold Py.int. rewrite (strip_spaceless _ (render_spaceless d)).
  pose proof (parse_digits_start d H) as Hp.
  destruct d; [congruence | ..]; cbn [NilEmpty.string_of_uint] in *;
    cbv iota beta; rewrite Hp; reflexivity.
Qed.

Lemma int_minus_render (d : uint) :
  d <> Nil -> Py.int (String "-" (render d)) = Ok (- Z.of_N (Pos.of_uint d)).
Proof.
  intros H. unfold Py.int. rewrite strip_spaceless.
  - cbv iota beta. now rewrite (parse_digits_start d H).
  - intros c [<-|Hc]; [reflexivity | exact (render_spaceless d c Hc)].
Qed.

Lemma string_of_uint_nonnil (d : uint) :
  d <> Nil -> NilZero.string_of_uint d = render d.
Proof. destruct d; [congruence | reflexivity ..]. Qed.

(** Parsing the decimal rendering of an integer gives the integer back. *)
Lemma int_str (n : Z) : Py.int (Py.str n) = Ok n.
Proof.
  unfold Py.str. destruct n as [|p|p]; [reflexivity | |];
    pose proof (DecimalPos.Unsigned.to_uint_nonnil p) as Hn;
    pose proof (DecimalPos.Unsigned.of_to p) as Hof;
    cbn [Z.to_int NilZero.string_of_int];
    rewrite (string_of_uint_nonnil _ Hn).
  - rewrite (int_render _ Hn), Hof. reflexivity.
  - rewrite (int_minus_render _ Hn), Hof. reflexivity.
Qed.

Lemma str_injective (a b : Z) : Py.str a = Py.str b -> a = b.
Proof.
  intros H. assert (Py.int (Py.str a) = Py.int (Py.str b)) as E by now rewrite H.
  rewrite !int_str in E. congruence.
Qed.

End IntStr.

(** ** Verifying a table against its codebook *)

Section VerifyFacts.

Lemma filter_nil {A : Type} (f : A -> bool) (l : list A) :
  (forall x, In x l -> f x = false) -> filter f l = [].
Proof.
  induction l as [|x l IH]; intros H; simpl; [reflexivity|].
  rewrite (H x (or_introl eq_refl)). apply IH. intros y Hy. apply H. now right.
Qed.

Lemma flat_map_nil {A B : Type} (f : A -> list B) (l : list A) :
  (forall x, In x l -> f x = []) -> flat_map f l = [].
Proof.
  induction l as [|x l IH]; intros H; simpl; [reflexivity|].
  rewrite (H x (or_introl eq_refl)). apply IH. intros y Hy. apply H. now right.
Qed.

Lemma lookup_NoDup {V : Type} (d : list (string * V)) (k : string) (v : V) :
  NoDup (map fst d) -> In (k, v) d -> StarSchema.lookup k d = Some v.
Proof.
  induction d as [|[k0 v0] d IH]; intros Hn Hin; [destruct Hin|].
  simpl in *. inversion Hn as [|? ? Hk Hd]; subst.
  destruct Hin as [[= -> ->]|Hin].
  - now rewrite String.eqb_refl.
  - destruct (String.eqb k k0) eqn:E; [|now apply IH].
    apply String.eqb_eq in E. subst k0. exfalso. apply Hk.
    apply in_map_iff. exists (k, v). auto.
Qed.

Lemma differs_false (value : option string) (expected_value : string) :
  Verify.differs value expected_value = false <-> value = Some expected_value.
Proof.
  destruct value as [text|]; simpl.
  - rewrite negb_false_iff, String.eqb_eq. split; [now intros -> | now intros [= ->]].
  - split; discriminate.
Qed.

(** The rows that [verify_dim_table] reports as mismatching. *)
Lemma mismatches_In (dim_df : list (Z * option string))
    (ipums_codes : list (string * string)) (k e : string) (found : option string) :
  In (k, e, found) (Verify.mismatches (Verify.verify_dim_table dim_df ipums_codes))
  <-> exists n, In (n, found) dim_df
                /\ k = Py.str n
                /\ StarSchema.lookup k ipums_codes = Some e
                /\ found <> Some e.
Proof.
  unfold Verify.verify_dim_table. cbn [Verify.mismatches].
  rewrite in_flat_map. split.
  - intros [[k' cell] [Hrow Hin]]. apply in_map_iff in Hrow.
    destruct Hrow as [[n cell'] [[= <- <-] Hrow]]. cbn [fst snd] in *.
    destruct (StarSchema.lookup (Py.str n) ipums_codes) as [expected|] eqn:El;
      [|destruct Hin].
    destruct (Verify.differs cell' expected) eqn:Ed; [|destruct Hin].
    destruct Hin as [[= <- <- <-]|[]].
    exists n. split; [exact Hrow|]. split; [reflexivity|]. split; [exact El|].
    intros E. apply differs_false in E. congruence.
  - intros [n [Hrow [-> [El Hne]]]].
    exists (Py.str n, found). split.
    + apply in_map_iff. exists (n, found). auto.
    + cbn [fst snd]. rewrite El.
      destruct (Verify.differs found e) eqn:Ed; [now left|].
      apply differs_false in Ed. contradiction.
Qed.

(** Verifying a table as it is read back. When the table holds, for distinct
    integer codes, the labels of the codebook as text, [verify_dim_table]
    finds no missing code, no extra code and no mismatching label. In
    general it reports for a row exactly when the code of the row is a key
    of the codebook and the cell of the row is not the text of the expected
    label; so a label that came back as a null cell is reported for every
    code of the codebook, whatever the codebook says. *)
Theorem verify_table_read_back :
  (forall entries : list (Z * string),
      NoDup (map fst entries) ->
      Verify.verify_dim_table
        (map (fun row => (fst row, Some (snd row))) entries)
        (map (fun row => (Py.str (fst row), snd row)) entries)
      = {| Verify.missing_codes := []; Verify.extra_codes := [];
           Verify.mismatches := [] |})
  /\ (forall dim_df ipums_codes k e found,
         In (k, e, found) (Verify.mismatches (Verify.verify_dim_table dim_df ipums_codes))
         <-> exists n, In (n, found) dim_df
                       /\ k = Py.str n
                       /\ StarSchema.lookup k ipums_codes = Some e
                       /\ found <> Some e)
  /\ (forall dim_df ipums_codes n e,
         In (n, None) dim_df ->
         StarSchema.lookup (Py.str n) ipums_codes = Some e ->
         In (Py.str n, e, None)
            (Verify.mismatches (Verify.verify_dim_table dim_df ipums_codes))).
Proof.
  split; [|split].
  - intros entries Hn.
    set (ipums_codes := map (fun row => (Py.str (fst row), snd row)) entries).
    assert (NoDup (map fst ipums_codes)) as Hkeys.
    { unfold ipums_codes. rewrite map_map. simpl.
      rewrite <- (map_map fst Py.str).
      apply Injective_map_NoDup; [exact str_injective | exact Hn]. }
    unfold Verify.verify_dim_table.
    assert (map fst (map (fun row : Z * option string => (Py.str (fst row), snd row))
                         (map (fun row : Z * string => (fst row, Some (snd row))) entries))
            = map fst ipums_codes) as Hcodes.
    { unfold ipums_codes. rewrite !map_map. reflexivity. }
    rewrite Hcodes.
    assert (forall k, In k (map fst ipums_codes) ->
                      Py.mem String.eqb k (Py.unique String.eqb (map fst ipums_codes))
                      = true) as Hin.
    { intros k Hk. apply (mem_In String.eqb String_eqb_spec').
      now apply (unique_In String.eqb String_eqb_spec'). }
    rewrite (filter_nil _ (map fst ipums_codes)).
    2:{ intros k Hk. now rewrite (Hin k Hk). }
    rewrite (filter_nil _ (Py.unique String.eqb (map fst ipums_codes))).
    2:{ intros k Hk.
        pose proof (proj1 (unique_In String.eqb String_eqb_spec' _ _) Hk) as Hk'.
        apply negb_false_iff. now apply (mem_In String.eqb String_eqb_spec'). }
    rewrite flat_map_nil; [reflexivity|].
    intros [k cell] Hkl. apply in_map_iff in Hkl.
    destruct Hkl as [[n cell'] [[= <- <-] Hrow]]. apply in_map_iff in Hrow.
    destruct Hrow as [[n' l] [[= <- <-] Hrow]]. cbn [fst snd].
    rewrite (lookup_NoDup ipums_codes (Py.str n') l Hkeys).
    + simpl. now rewrite String.eqb_refl.
    + unfold ipums_codes. apply in_map_iff. exists (n', l). auto.
  - exact mismatches_In.
  - intros dim_df ipums_codes n e Hrow El. apply mismatches_In.
    exists n. split; [exact Hrow|]. split; [reflexivity|]. split; [exact El|].
    discriminate.
Qed.

Lemma verify_table_read_back_witness :
  Verify.verify_dim_table [(1, Some "Alabama"); (2, Some "Alaska"); (-4, Some "Abroad")]
    [("1", "Alabama"); ("2", "Alaska"); ("-4", "Abroad")]
  = {| Verify.missing_codes := []; Verify.extra_codes := [];
       Verify.mismatches := [] |}
  /\ In ("9", "N/A", None)
        (Verify.mismatches
           (Verify.verify_dim_table [(1, Some "Yes"); (9, None)]
                                    [("1", "Yes"); ("9", "N/A")])).
Proof.
  split.
  - assert (NoDup (map fst [(1, "Alabama"); (2, "Alaska"); (-4, "Abroad")])) as Hn.
    { simpl. repeat constructor; simpl; intuition discriminate. }
    exact (proj1 verify_table_read_back _ Hn).
  - apply (proj2 (proj2 verify_table_read_back) [(1, Some "Yes"); (9, None)]
                 [("1", "Yes"); ("9", "N/A")] 9 "N/A").
    + right. left. reflexivity.
    + reflexivity.
Defined.

(** A key written with a leading zero is parsed to its value by the builder
    but does not come back under verification: the key is reported missing
    and its value extra, whatever cell the table holds for it. *)
Theorem verify_leading_zero_key (n : Z) (label : string) :
  0 <= n ->
  let key := String "0" (Py.str n) in
  Schema.create_dimension_table [(key, label)] = Ok [(n, label)]
  /\ forall cell : option string,
       Verify.verify_dim_table [(n, cell)] [(key, label)]
       = {| Verify.missing_codes := [key]; Verify.extra_codes := [Py.str n];
            Verify.mismatches := [] |}.
Proof.
  intros Hn key.
  assert (key <> Py.str n) as Hne.
  { unfold key. intros E.
    assert (String.length (String "0" (Py.str n)) = String.length (Py.str n)) as Hl
        by now rewrite E.
    simpl in Hl. lia. }
  assert (Py.int key = Ok n) as Hint.
  { unfold key, Py.str in *. destruct n as [|p|p]; [reflexivity| |lia].
    pose proof (DecimalPos.Unsigned.to_uint_nonnil p) as Hp.
    cbn [Z.to_int NilZero.string_of_int]. rewrite (string_of_uint_nonnil _ Hp).
    change (String "0" (NilEmpty.string_of_uint (Pos.to_uint p)))
      with (NilEmpty.string_of_uint (Decimal.D0 (Pos.to_uint p))).
    rewrite int_render; [|discriminate]. cbn [Pos.of_uint].
    now rewrite DecimalPos.Unsigned.of_to. }
  split.
  - unfold Schema.create_dimension_table. simpl. now rewrite Hint.
  - intros cell.
    assert (String.eqb key (Py.str n) = false) as E1 by now apply String.eqb_neq.
    assert (String.eqb (Py.str n) key = false) as E2
        by (apply String.eqb_neq; congruence).
    clearbody key. remember (Py.str n) as rendered.
    unfold Verify.verify_dim_table, Verify.sorted_strings, Py.mem. simpl.
    rewrite <- Heqrendered. now rewrite E1, E2.
Qed.

Lemma verify_leading_zero_key_witness :
  Verify.verify_dim_table [(1, Some "Alabama")] [("01", "Alabama")]
  = {| Verify.missing_codes := ["01"]; Verify.extra_codes := ["1"];
       Verify.mismatches := [] |}.
Proof.
  exact (proj2 (verify_leading_zero_key 1 "Alabama" ltac:(lia)) (Some "Alabama")).
Defined.

End VerifyFacts.

(** ** Income buckets and prepared data *)

Section PreparedData.
Import AccessStats.
Variable qcut : list Z -> nat -> list string -> result (list string).

Lemma fallback_cut_zero (x : Z) :
  x <= 0 -> cut fallback_bins fallback_labels (Z.max 0 x) = Some "No Income".
Proof. intros H. now replace (Z.max 0 x) with 0 by lia. Qed.

Lemma income_buckets_eq (income_data : list Z) :
  create_income_buckets qcut income_data
  = map (fun x => cut fallback_bins fallback_labels (Z.max 0 x)) income_data.
Proof.
  destruct (existsb (fun x => 0 <? x) income_data) eqn:E.
  - rewrite (create_income_buckets_fallback qcut _ E).
    unfold pd_cut, clip. now rewrite map_map.
  - rewrite create_income_buckets_no_positive.
    + apply map_ext_in. intros x Hx. symmetry. apply fallback_cut_zero.
      assert ((0 <? x) = false) as Hf.
      { destruct (0 <? x) eqn:Ex; [|reflexivity].
        assert (existsb (fun x => 0 <? x) income_data = true)
          by (apply existsb_exists; eauto). congruence. }
      apply Z.ltb_ge in Hf. exact Hf.
    + intros x Hx. destruct (0 <? x) eqn:Ex; [|now apply Z.ltb_ge in Ex].
      assert (existsb (fun x => 0 <? x) income_data = true)
        by (apply existsb_exists; eauto). congruence.
Qed.

(** Whatever [pd.qcut] does, [create_income_buckets] labels each income on
    its own: the income is clamped at zero and receives the fallback band of
    the clamped value. Every row therefore has a label, the label is one of
    the six fallback labels, and zero and negative incomes have
    [No Income]. *)
Theorem create_income_buckets_pointwise (income_data : list Z) :
  create_income_buckets qcut income_data
  = map (fun x => cut fallback_bins fallback_labels (Z.max 0 x)) income_data
  /\ (forall b, In b (create_income_buckets qcut income_data) ->
                exists l, b = Some l /\ In l fallback_labels)
  /\ (forall x, In x income_data -> x <= 0 ->
                In (Some "No Income") (create_income_buckets qcut income_data)).
Proof.
  split; [apply income_buckets_eq|]. rewrite income_buckets_eq. split.
  - intros b Hb. apply in_map_iff in Hb. destruct Hb as [x [<- _]].
    apply fallback_cut_total. lia.
  - intros x Hx Hle. apply in_map_iff. exists x. split; [|exact Hx].
    now apply fallback_cut_zero.
Qed.

Lemma zip3_map (rows : list FactRow) (f g : FactRow -> option string) :
  zip3 rows (map f rows) (map g rows)
  = map (fun r => {| fact := r; AGE_BUCKET := f r; INCTOT_BUCKET := g r |}) rows.
Proof. induction rows as [|r rows IH]; simpl; [reflexivity | now rewrite IH]. Qed.

Lemma age_bucket_none_iff (age : Z) :
  age_bucket age = None <-> age <= 0 \/ 100 < age.
Proof.
  split.
  - intros H. destruct (Z_le_gt_dec age 0) as [Hle|Hgt]; [now left|].
    destruct (Z_le_gt_dec age 100) as [Hle|Hgt']; [|right; lia].
    rewrite age_bucket_in_range in H; [discriminate | lia].
  - intros [H|H].
    + destruct (Z.eq_dec age 0) as [->|Hne]; [reflexivity|].
      apply age_bucket_out_of_range. lia.
    + apply age_bucket_out_of_range. lia.
Qed.

(** [load_and_prepare_data] keeps exactly the rows whose [CINETHH] is not 9,
    in their order. Each kept row carries the age bucket of its age, which
    is missing exactly for ages of 0 or less and ages above 100, and the
    fallback income band of its clamped income, which is never missing. *)
Theorem load_and_prepare_data_rows (fact_df : list FactRow) :
  map fact (load_and_prepare_data qcut fact_df)
  = filter (fun r => negb (CINETHH r =? 9)) fact_df
  /\ forall row, In row (load_and_prepare_data qcut fact_df) ->
       CINETHH (fact row) <> 9
       /\ AGE_BUCKET row = age_bucket (AGE (fact row))
       /\ (AGE_BUCKET row = None <-> AGE (fact row) <= 0 \/ 100 < AGE (fact row))
       /\ INCTOT_BUCKET row
          = cut fallback_bins fallback_labels (Z.max 0 (INCTOT (fact row)))
       /\ INCTOT_BUCKET row <> None.
Proof.
  unfold load_and_prepare_data.
  set (internet_data := filter (fun r => negb (CINETHH r =? 9)) fact_df).
  rewrite income_buckets_eq.
  unfold pd_cut. rewrite (map_map INCTOT), (map_map AGE), zip3_map.
  split.
  - rewrite map_map. simpl. apply map_id.
  - intros row Hrow. apply in_map_iff in Hrow. destruct Hrow as [r [<- Hr]].
    cbn [fact AGE_BUCKET INCTOT_BUCKET].
    apply filter_In in Hr. destruct Hr as [_ Hr].
    apply negb_true_iff, Z.eqb_neq in Hr.
    split; [exact Hr|]. split; [reflexivity|].
    split; [apply (age_bucket_none_iff (AGE r))|].
    split; [reflexivity|].
    destruct (fallback_cut_total (Z.max 0 (INCTOT r))) as [l [-> _]]; [lia | discriminate].
Qed.

End PreparedData.

Lemma create_income_buckets_pointwise_witness :
  In (Some "No Income")
     (AccessStats.create_income_buckets (fun _ _ _ => Raise ValueError)
        [45000; -200; 150000]).
Proof.
  apply (proj2 (proj2 (create_income_buckets_pointwise
                         (fun _ _ _ => Raise ValueError) [45000; -200; 150000]))
               (-200)).
  - simpl. auto.
  - lia.
Defined.

Lemma load_and_prepare_data_rows_witness :
  let fact_df := [Scenario.respondent 1 10 1 1; Scenario.respondent 1 5 9 1] in
  let q := fun (_ : list Z) (_ : nat) (labels : list string) => Ok labels in
  exists row,
    AccessStats.load_and_prepare_data q fact_df = [row]
    /\ AccessStats.AGE_BUCKET row = Some "36-50"
    /\ AccessStats.INCTOT_BUCKET row <> None.
Proof.
  intros fact_df q. eexists. split; [reflexivity|].
  split; [reflexivity|].
  apply (proj2 (load_and_prepare_data_rows q fact_df)). left. reflexivity.
Defined.

(** ** More on the grouped statistics *)

Section AccessStatsMore.
Import AccessStats.

Lemma mapM_Raise_inv {A B : Type} (f : A -> result B) (l : list A) (e : Py.exn) :
  Py.mapM f l = Raise e -> exists x, In x l /\ f x = Raise e.
Proof.
  induction l as [|x l IH]; simpl; [discriminate|].
  destruct (f x) as [y|e'] eqn:E; simpl.
  - destruct (Py.mapM f l) as [ys|e'']; simpl; [discriminate|].
    intros [= <-]. destruct (IH eq_refl) as [z [Hz Ez]]. eauto.
  - intros [= <-]. eauto.
Qed.

Context {Row : Type}.
Variables (group_col : Row -> Z) (weight_col : Row -> Q) (access_col : Row -> Z).

(** [calculate_weighted_access_stats] returns exactly when no group of the
    frame has zero total weight (in particular on the empty frame), and the
    only exception it raises is [ZeroDivisionError]. *)
Theorem access_stats_returns_iff (data_frame : list Row) :
  ((exists out,
       calculate_weighted_access_stats group_col weight_col access_col data_frame = Ok out)
   <-> forall g, In g (map group_col data_frame) ->
                 ~ (Spec.weight_where (fun r => group_col r =? g) weight_col data_frame
                    == 0)%Q)
  /\ (forall e,
         calculate_weighted_access_stats group_col weight_col access_col data_frame
         = Raise e ->
         e = ZeroDivisionError).
Proof.
  split; [split|].
  - intros [out Hout] g Hg Hz.
    rewrite (access_stats_zero_weight_raises _ _ access_col _ g Hg Hz) in Hout.
    discriminate.
  - apply access_stats_total.
  - intros e H. unfold calculate_weighted_access_stats in H.
    destruct (Py.mapM _ _) as [ys|e'] eqn:E; simpl in H; [discriminate|].
    injection H as ->. apply mapM_Raise_inv in E. destruct E as [g [_ Hg]].
    now apply group_stat_raises_only in Hg.
Qed.

(** Every group of the frame has exactly one record in the result. *)
Theorem access_stats_one_record_per_group (data_frame : list Row) (out : list AccessStat) :
  calculate_weighted_access_stats group_col weight_col access_col data_frame = Ok out ->
  NoDup (map dimension_value out)
  /\ forall g, In g (map dimension_value out) <-> In g (map group_col data_frame).
Proof.
  intros Hout. apply access_stats_Ok in Hout. destruct Hout as [ys [Hm ->]].
  apply mapM_Ok in Hm.
  assert (map dimension_value ys = group_keys group_col data_frame) as Hkeys.
  { induction Hm as [|g s l ys' Hgs _ IH]; simpl; [reflexivity|].
    apply group_stat_Ok in Hgs. destruct Hgs as [-> _]. now rewrite IH. }
  assert (Permutation (map dimension_value (sort_values_desc internet_percentage ys))
                      (group_keys group_col data_frame)) as Hp.
  { rewrite <- Hkeys. apply Permutation_map. apply sort_by_perm. }
  split.
  - eapply Permutation_NoDup; [apply Permutation_sym, Hp|].
    unfold group_keys. eapply Permutation_NoDup; [apply Permutation_sym, sorted_perm|].
    apply (unique_NoDup Z.eqb Zeqb_spec').
  - intros g. rewrite <- (group_keys_In group_col data_frame g).
    split; apply Permutation_in;
      [exact Hp | now apply Permutation_sym].
Qed.

End AccessStatsMore.

Lemma access_stats_returns_iff_witness :
  exists out,
    AccessStats.calculate_weighted_access_stats STATEFIP PERWT CINETHH
      (Analyzer.valid_internet Scenario.four_rows_analyzer) = Ok out.
Proof.
  apply (proj1 (access_stats_returns_iff STATEFIP PERWT CINETHH _)).
  intros g [<-|[<-|[<-|[]]]]; vm_compute; discriminate.
Defined.

Lemma access_stats_one_record_per_group_witness :
  exists out,
    AccessStats.calculate_weighted_access_stats STATEFIP PERWT CINETHH
      (Analyzer.fact_df Scenario.tied_states) = Ok out
    /\ NoDup (map AccessStats.dimension_value out).
Proof.
  eexists. split; [reflexivity|].
  apply (access_stats_one_record_per_group STATEFIP PERWT CINETHH
           (Analyzer.fact_df Scenario.tied_states) _ eq_refl).
Defined.

(** ** Merge shape and summaries *)

Section MergeShape.
Import AccessStats.

Lemma filter_code_NoDup (right : list DimRow) (k : Z) :
  NoDup (map code right) ->
  filter (fun d => code d =? k) right = []
  \/ exists d, filter (fun d => code d =? k) right = [d].
Proof.
  induction right as [|d right IH]; intros Hn; simpl; [now left|].
  inversion Hn as [|? ? Hd Hr]; subst.
  destruct (Z.eqb_spec (code d) k) as [E|E].
  - right. exists d. f_equal. apply filter_nil. intros x Hx.
    apply Z.eqb_neq. intros Ex. apply Hd. rewrite E, <- Ex. now apply in_map.
  - now apply IH.
Qed.

Lemma merge_left_unique_codes {Stat : Type} (key : Stat -> Z) (left : list Stat)
    (right : list DimRow) :
  NoDup (map code right) -> map stat (merge_left key left right) = left.
Proof.
  intros Hn. unfold merge_left. induction left as [|s left IH]; [reflexivity|].
  cbn [flat_map]. rewrite map_app, IH.
  destruct (filter_code_NoDup right (key s) Hn) as [->|[d ->]]; reflexivity.
Qed.

Lemma StronglySorted_app {A : Type} (R : A -> A -> Prop) (a b : list A) :
  StronglySorted R a -> StronglySorted R b ->
  (forall x y, In x a -> In y b -> R x y) ->
  StronglySorted R (a ++ b).
Proof.
  induction 1 as [|x a Ha IH Hall]; intros Hb Hab; simpl; [exact Hb|].
  constructor.
  - apply IH; [exact Hb|]. intros u v Hu Hv. apply Hab; [now right | exact Hv].
  - apply Forall_app. split; [exact Hall|].
    apply Forall_forall. intros y Hy. apply Hab; [now left | exact Hy].
Qed.

Lemma StronglySorted_block {A : Type} (R : A -> A -> Prop) (a : list A) :
  (forall x y, In x a -> In y a -> R x y) -> StronglySorted R a.
Proof.
  induction a as [|x a IH]; intros H; constructor.
  - apply IH. intros u v Hu Hv. apply H; now right.
  - apply Forall_forall. intros y Hy. apply H; [now left | now right].
Qed.

(** The left merge keeps a descending frame descending. *)
Lemma merge_left_descending {Stat : Type} (key : Stat -> Z) (pct : Stat -> Q)
    (left : list Stat) (right : list DimRow) :
  Spec.descending pct left ->
  Spec.descending (fun r => pct (stat r)) (merge_left key left right).
Proof.
  unfold Spec.descending. induction 1 as [|s left Hs IH Hall]; [constructor|].
  change (merge_left key (s :: left) right)
    with ((match filter (fun d => code d =? key s) right with
           | [] => [ {| stat := s; label := None |} ]
           | d :: matches =>
               map (fun d => {| stat := s; label := value d |}) (d :: matches)
           end) ++ merge_left key left right)%list.
  assert (forall r,
             In r (match filter (fun d => code d =? key s) right with
                   | [] => [ {| stat := s; label := None |} ]
                   | d :: matches =>
                       map (fun d => {| stat := s; label := value d |})
                           (d :: matches)
                   end) -> stat r = s) as Hblock.
  { intros r Hr. destruct (filter _ right) as [|d ms].
    - destruct Hr as [<-|[]]. reflexivity.
    - apply in_map_iff in Hr. destruct Hr as [d' [<- _]]. reflexivity. }
  apply StronglySorted_app.
  - apply StronglySorted_block. intros x y Hx Hy.
    rewrite (Hblock x Hx), (Hblock y Hy). apply Qle_refl.
  - exact IH.
  - intros x y Hx Hy. rewrite (Hblock x Hx).
    apply merge_left_In in Hy. destruct Hy as [Hy _].
    rewrite Forall_forall in Hall. now apply Hall.
Qed.

Lemma merge_descriptions_facts
    (stats_df : list AccessStat) (dim_table : DimTable) (dim_name : string)
    (out : list (Labeled AccessStat)) :
  merge_dimension_descriptions stats_df dim_table dim_name = Ok out ->
  (NoDup (map code (rows dim_table)) -> map stat out = stats_df)
  /\ (Spec.descending internet_percentage stats_df ->
      Spec.descending (fun r => internet_percentage (stat r)) out).
Proof.
  unfold merge_dimension_descriptions.
  assert (map stat (unlabeled stats_df) = stats_df) as Hun.
  { unfold unlabeled. rewrite map_map. simpl. apply map_id. }
  assert (Spec.descending internet_percentage stats_df ->
          Spec.descending (fun r => internet_percentage (stat r)) (unlabeled stats_df))
    as Hdun.
  { clear Hun. unfold Spec.descending, unlabeled.
    induction 1 as [|s l Hs IH Hall]; simpl; [constructor|].
    constructor; [exact IH|].
    apply Forall_forall. intros r Hr. apply in_map_iff in Hr.
    destruct Hr as [x [<- Hx]]. simpl. rewrite Forall_forall in Hall. now apply Hall. }
  destruct (negb _); [|intros [= <-]; auto].
  destruct (Py.mem String.eqb (_ ++ _)%string _); [|intros [= <-]; auto].
  destruct (Py.mem String.eqb _ _); [|discriminate].
  intros [= <-]. split.
  - apply merge_left_unique_codes.
  - apply merge_left_descending.
Qed.

(** When the dimension table lists every code once, merging the labels
    neither duplicates nor drops nor reorders the statistics rows; with
    repeated codes the rows stay in descending order of percentage. *)
Theorem merge_dimension_descriptions_shape
    (stats_df : list AccessStat) (dim_table : DimTable) (dim_name : string)
    (out : list (Labeled AccessStat)) :
  merge_dimension_descriptions stats_df dim_table dim_name = Ok out ->
  (NoDup (map code (rows dim_table)) -> map stat out = stats_df)
  /\ (Spec.descending internet_percentage stats_df ->
      Spec.descending (fun r => internet_percentage (stat r)) out).
Proof. apply merge_descriptions_facts. Qed.

Lemma merge_dimension_descriptions_shape_witness :
  let stats_df :=
    [ {| dimension_value := 1; population_estimate := 25; internet_percentage := 60 |};
      {| dimension_value := 7; population_estimate := 10; internet_percentage := 50 |} ] in
  let dim_table :=
    {| columns := ["STATEFIP"; "STATEFIP_value"];
       rows := [ {| code := 7; value := Some "Guam" |};
                 {| code := 1; value := Some "Alabama" |} ] |} in
  exists out,
    merge_dimension_descriptions stats_df dim_table "statefip" = Ok out
    /\ map stat out = stats_df.
Proof.
  intros stats_df dim_table. eexists. split; [reflexivity|].
  apply (proj1 (merge_dimension_descriptions_shape stats_df dim_table "statefip" _ eq_refl)).
  simpl. repeat constructor; simpl; intuition discriminate.
Defined.

End MergeShape.

Section Summaries.
Import AccessStats.

Lemma max_from_top (l : list Q) (m top : Q) :
  (m == top)%Q -> (forall y, In y l -> y <= top)%Q ->
  (max_from m l == top)%Q.
Proof.
  revert m. induction l as [|y l IH]; intros m Hm Hall; simpl; [exact Hm|].
  apply IH; [|intros z Hz; apply Hall; now right].
  destruct (Qle_bool m y) eqn:E; [|exact Hm].
  apply Qle_bool_iff in E. apply Qle_antisym; [apply Hall; now left|].
  now rewrite <- Hm.
Qed.

Lemma last_nonempty {A : Type} (l : list A) (a d d' : A) :
  List.last (a :: l) d = List.last (a :: l) d'.
Proof.
  revert a. induction l as [|b l IH]; intros a; [reflexivity|].
  change (List.last (b :: l) d = List.last (b :: l) d'). apply IH.
Qed.

Lemma min_from_last (l : list Q) (m : Q) :
  StronglySorted (fun a b => b <= a)%Q (m :: l) ->
  (min_from m l == List.last l m)%Q.
Proof.
  revert m. induction l as [|y l IH]; intros m Hs; [reflexivity|].
  inversion Hs as [|? ? Hs' Hall]; subst.
  assert (y <= m)%Q as Hym by (rewrite Forall_forall in Hall; apply Hall; now left).
  cbn [min_from fold_left]. apply Qle_bool_iff in Hym. rewrite Hym.
  fold (min_from y l). rewrite (IH y Hs').
  destruct l as [|q l]; [reflexivity|].
  change (List.last (y :: q :: l) m) with (List.last (q :: l) m).
  now rewrite (last_nonempty l q y m).
Qed.

Lemma descending_map {A : Type} (col : A -> Q) (l : list A) :
  Spec.descending col l -> StronglySorted (fun a b => b <= a)%Q (map col l).
Proof.
  unfold Spec.descending. induction 1 as [|x l Hs IH Hall]; simpl; constructor;
    [exact IH|].
  apply Forall_forall. intros y Hy. apply in_map_iff in Hy.
  destruct Hy as [z [<- Hz]]. rewrite Forall_forall in Hall. now apply Hall.
Qed.

Lemma last_map {A B : Type} (f : A -> B) (l : list A) (x : A) :
  List.last (map f l) (f x) = f (List.last l x).
Proof.
  induction l as [|y l IH]; [reflexivity|]. simpl.
  destruct l; [reflexivity|]. exact IH.
Qed.

(** The extremes of a descending frame sit at its ends. *)
Lemma descending_extremes {A : Type} (col : A -> Q) (first : A) (rest : list A) :
  Spec.descending col (first :: rest) ->
  (max_from (col first) (map col rest) == col first)%Q
  /\ (min_from (col first) (map col rest) == col (List.last rest first))%Q
  /\ (col (List.last rest first) <= col first)%Q.
Proof.
  intros Hd. pose proof (descending_map col _ Hd) as Hs. simpl in Hs.
  assert (forall y, In y (map col rest) -> y <= col first)%Q as Hall.
  { inversion Hs as [|? ? _ Hall]; subst. now rewrite Forall_forall in Hall. }
  split; [|split].
  - apply max_from_top; [reflexivity | exact Hall].
  - rewrite (min_from_last _ _ Hs). now rewrite last_map.
  - destruct rest as [|y rest]; [apply Qle_refl|].
    apply Hall. apply in_map.
    clear. revert y. induction rest as [|z rest IH]; intros y; [now left|].
    right. apply (IH z).
Qed.

(** The summary that [main] keeps for a coded dimension: the statistics
    frame is still in descending order after the labels are merged, so the
    highest access is the percentage of its first row, the lowest access
    that of its last row, and the access range is their non-negative
    difference. *)
Theorem summarize_analysis {Row : Type} (internet_data : list Row)
    (PERWT_col : Row -> Q) (CINETHH_col : Row -> Z)
    (dim_table : DimTable) (dim_name : string) (group_col : Row -> Z)
    (first : Labeled AccessStat) (rest : list (Labeled AccessStat)) :
  analyze_dimension internet_data PERWT_col CINETHH_col dim_table dim_name group_col
  = Ok (first :: rest) ->
  exists hi lo,
    highest_access (summarize (first :: rest)) = Some hi
    /\ lowest_access (summarize (first :: rest)) = Some lo
    /\ access_range (summarize (first :: rest)) = Some (hi - lo)%Q
    /\ (hi == internet_percentage (stat first))%Q
    /\ (lo == internet_percentage (stat (List.last rest first)))%Q
    /\ (0 <= hi - lo)%Q.
Proof.
  intros H. unfold analyze_dimension in H.
  destruct (calculate_weighted_access_stats _ _ _ _) as [stats|e] eqn:Es;
    simpl in H; [|discriminate].
  assert (Spec.descending (fun r => internet_percentage (stat r)) (first :: rest)) as Hd.
  { apply (proj2 (merge_descriptions_facts _ _ _ _ H)).
    apply access_stats_Ok in Es. destruct Es as [ys [_ ->]].
    apply sort_values_desc_descending. }
  destruct (descending_extremes _ _ _ Hd) as [Hmax [Hmin Hle]].
  unfold summarize. simpl. eexists. eexists.
  split; [reflexivity|]. split; [reflexivity|]. split; [reflexivity|].
  split; [exact Hmax|]. split; [exact Hmin|].
  rewrite Hmax, Hmin. unfold Qminus. rewrite <- Qle_minus_iff. exact Hle.
Qed.

End Summaries.

Lemma summarize_analysis_witness :
  exists results hi,
    AccessStats.analyze_dimension (Analyzer.fact_df Scenario.tied_states) PERWT CINETHH
      {| AccessStats.columns := ["STATEFIP"; "STATEFIP_value"];
         AccessStats.rows := Analyzer.state_dim Scenario.tied_states |}
      "statefip" STATEFIP = Ok results
    /\ AccessStats.highest_access (AccessStats.summarize results) = Some hi
    /\ (hi == 100)%Q.
Proof.
  pose proof (@summarize_analysis FactRow (Analyzer.fact_df Scenario.tied_states)
                PERWT CINETHH
                {| AccessStats.columns := ["STATEFIP"; "STATEFIP_value"];
                   AccessStats.rows := Analyzer.state_dim Scenario.tied_states |}
                "statefip" STATEFIP _ _ eq_refl) as [hi [lo [H1 [_ [_ [H2 _]]]]]].
  eexists. exists hi. split; [reflexivity|]. split; [exact H1|].
  rewrite H2. vm_compute. reflexivity.
Defined.

(** ** More on the per-state and per-education analyses *)

Section AnalyzerMore.
Import AccessStats Analyzer.

Lemma merge_and_sort_raise (stats : list TechStat) (dim : list DimRow) (e : Py.exn) :
  merge_and_sort stats dim = Raise e -> stats = [] /\ e = KeyError.
Proof.
  unfold merge_and_sort. destruct stats; [|discriminate]. intros [= <-]. auto.
Qed.

Lemma collect_stats_nil (self : TechnologyAccessAnalyzer) (dim_col : FactRow -> Z)
    (dim_codes : list Z) :
  collect_stats self dim_col dim_codes = []
  <-> forall c, In c dim_codes ->
                ~ (Spec.has_valid_row CINETHH dim_col c (fact_df self)
                   /\ Spec.has_valid_row CISMRTPHN dim_col c (fact_df self)).
Proof.
  split.
  - intros E c Hc [H1 H2]. apply valid_count_pos in H1, H2.
    pose proof (proj2 (code_stats_In self dim_col c _) (conj H1 (conj H2 eq_refl))) as Hs.
    assert (In _ (collect_stats self dim_col dim_codes)) as Hin
        by (apply collect_stats_In; split; [|exact Hs]; exact Hc).
    rewrite E in Hin. destruct Hin.
  - intros H. destruct (collect_stats self dim_col dim_codes) as [|s l] eqn:E;
      [reflexivity|]. exfalso.
    assert (In s (collect_stats self dim_col dim_codes)) as Hs by (rewrite E; now left).
    apply collect_stats_In in Hs. destruct Hs as [Hc Hs].
    apply code_stats_In in Hs. destruct Hs as [H1 [H2 _]].
    apply valid_count_pos in H1, H2. now apply (H _ Hc).
Qed.

(** The per-state and per-education analyses fail exactly when no code of
    the dimension table has both a row valid for internet and a row valid
    for smartphone (an empty dimension table or an empty fact table, for
    instance); the failure is the [KeyError] of merging a frame without
    columns. *)
Theorem analyses_fail_iff (self : TechnologyAccessAnalyzer) :
  (analyze_by_state self = Raise KeyError
   <-> forall c, In c (map code (state_dim self)) ->
                 ~ (Spec.has_valid_row CINETHH STATEFIP c (fact_df self)
                    /\ Spec.has_valid_row CISMRTPHN STATEFIP c (fact_df self)))
  /\ (analyze_by_education self = Raise KeyError
      <-> forall c, In c (map code (educ_dim self)) ->
                    ~ (Spec.has_valid_row CINETHH EDUC c (fact_df self)
                       /\ Spec.has_valid_row CISMRTPHN EDUC c (fact_df self)))
  /\ (forall e, analyze_by_state self = Raise e \/ analyze_by_education self = Raise e ->
                e = KeyError).
Proof.
  assert (forall dim_col dim_codes dim,
             merge_and_sort (collect_stats self dim_col dim_codes) dim = Raise KeyError
             <-> collect_stats self dim_col dim_codes = []) as Hgen.
  { intros dim_col dim_codes dim. split.
    - intros H. now apply merge_and_sort_raise in H.
    - intros ->. reflexivity. }
  split; [|split].
  - unfold analyze_by_state. rewrite Hgen. apply collect_stats_nil.
  - unfold analyze_by_education. rewrite Hgen, collect_stats_nil.
    split; intros H c Hc; apply H.
    + revert Hc. apply Permutation_in, Permutation_sym, sorted_perm.
    + revert Hc. apply Permutation_in, sorted_perm.
  - intros e [H|H]; now apply merge_and_sort_raise in H.
Qed.

Lemma analyses_fail_iff_witness :
  analyze_by_state {| fact_df := Scenario.four_rows; state_dim := []; educ_dim := [] |}
  = Raise KeyError.
Proof.
  apply (proj1 (analyses_fail_iff
                  {| fact_df := Scenario.four_rows; state_dim := []; educ_dim := [] |})).
  intros c [].
Defined.

Lemma code_stats_keys (self : TechnologyAccessAnalyzer) (dim_col : FactRow -> Z)
    (dim_codes : list Z) :
  NoDup dim_codes -> NoDup (map group_code (collect_stats self dim_col dim_codes)).
Proof.
  induction dim_codes as [|c l IH]; intros Hn; [constructor|].
  inversion Hn as [|? ? Hc Hl]; subst.
  unfold collect_stats. cbn [flat_map]. rewrite map_app. apply NoDup_app.
  - unfold code_stats. destruct (_ && _)%bool; simpl; repeat constructor. intros [].
  - now apply IH.
  - intros g Hg Hg'. apply in_map_iff in Hg. destruct Hg as [s [<- Hs]].
    apply code_stats_In in Hs. destruct Hs as [_ [_ ->]]. simpl in Hg'.
    apply in_map_iff in Hg'. destruct Hg' as [s' [E Hs']].
    apply (collect_stats_In self dim_col l s') in Hs'. destruct Hs' as [Hin _].
    rewrite E in Hin. contradiction.
Qed.

Lemma analysis_labels (self : TechnologyAccessAnalyzer) (dim_col : FactRow -> Z)
    (dim_codes : list Z) (dim : list DimRow) (out : list (Labeled TechStat)) :
  (forall c, In c dim_codes -> In c (map code dim)) ->
  merge_and_sort (collect_stats self dim_col dim_codes) dim = Ok out ->
  (forall r, In r out ->
             exists d, In d dim /\ code d = group_code (stat r)
                       /\ label r = value d)
  /\ (NoDup dim_codes -> NoDup (map code dim) ->
      NoDup (map (fun r => group_code (stat r)) out)).
Proof.
  intros Hcodes Hout. pose proof (merge_and_sort_Ok _ _ _ Hout) as ->. split.
  - intros r Hr. apply sort_values_desc_In, merge_left_In in Hr.
    destruct Hr as [Hs [Hl|[Hu _]]]; [exact Hl|].
    exfalso. apply collect_stats_In in Hs. destruct Hs as [Hc _].
    apply Hcodes, in_map_iff in Hc. destruct Hc as [d [Hk Hd]].
    now apply (Hu d Hd).
  - intros Hn Hd.
    rewrite <- (map_map stat group_code).
    eapply Permutation_NoDup.
    + apply Permutation_map, Permutation_map, Permutation_sym, sort_by_perm.
    + rewrite (merge_left_unique_codes group_code _ dim Hd). now apply code_stats_keys.
Qed.

(** In the per-state and per-education analyses every output row has a
    match in the dimension table, because the codes come from that table:
    the label of a row is the label cell of a dimension row with its code.
    So a label is null only where the dimension table itself holds a null
    cell for that code, and no label is null when the table has none. When
    the dimension table lists each code once, each code has at most one
    output row. *)
Theorem analyses_rows_are_matched (self : TechnologyAccessAnalyzer) :
  (forall out,
      analyze_by_state self = Ok out ->
      (forall r, In r out ->
                 exists d, In d (state_dim self) /\ code d = group_code (stat r)
                           /\ label r = value d)
      /\ ((forall d, In d (state_dim self) -> value d <> None) ->
          forall r, In r out -> label r <> None)
      /\ (NoDup (map code (state_dim self)) ->
          NoDup (map (fun r => group_code (stat r)) out)))
  /\ (forall out,
         analyze_by_education self = Ok out ->
         (forall r, In r out ->
                    exists d, In d (educ_dim self) /\ code d = group_code (stat r)
                              /\ label r = value d)
         /\ ((forall d, In d (educ_dim self) -> value d <> None) ->
             forall r, In r out -> label r <> None)
         /\ (NoDup (map code (educ_dim self)) ->
             NoDup (map (fun r => group_code (stat r)) out))).
Proof.
  split; intros out Hout.
  - destruct (analysis_labels self STATEFIP _ _ _ (fun c H => H) Hout) as [H1 H2].
    split; [exact H1|]. split.
    + intros Hv r Hr. destruct (H1 r Hr) as [d [Hd [_ ->]]]. now apply Hv.
    + intros Hn. now apply H2.
  - assert (forall c, In c (Py.sorted (map code (educ_dim self))) ->
                      In c (map code (educ_dim self))) as Hc
        by (intros c; apply Permutation_in, sorted_perm).
    destruct (analysis_labels self EDUC _ _ _ Hc Hout) as [H1 H2].
    split; [exact H1|]. split.
    + intros Hv r Hr. destruct (H1 r Hr) as [d [Hd [_ ->]]]. now apply Hv.
    + intros Hn. apply H2; [|exact Hn].
      eapply Permutation_NoDup; [apply Permutation_sym, sorted_perm | exact Hn].
Qed.

Lemma analyses_rows_are_matched_witness :
  (exists out r,
      analyze_by_education Scenario.four_rows_analyzer = Ok out
      /\ In r out /\ label r = Some "Grade 12")
  /\ (exists out r,
         analyze_by_state
           {| fact_df := Scenario.four_rows;
              state_dim := [ {| code := 1; value := None |} ];
              educ_dim := [] |} = Ok out
         /\ In r out /\ label r = None).
Proof.
  split.
  - eexists. eexists. split; [reflexivity|]. split; [left; reflexivity|].
    destruct (proj1 (proj2 (analyses_rows_are_matched Scenario.four_rows_analyzer)
                           _ eq_refl) _ (or_introl eq_refl)) as [d [Hd [_ Hl]]].
    destruct Hd as [<-|[]]. exact Hl.
  - eexists. eexists. split; [reflexivity|]. split; [left; reflexivity|].
    destruct (proj1 (proj1 (analyses_rows_are_matched
                              {| fact_df := Scenario.four_rows;
                                 state_dim := [ {| code := 1; value := None |} ];
                                 educ_dim := [] |})
                           _ eq_refl) _ (or_introl eq_refl)) as [d [Hd [_ Hl]]].
    destruct Hd as [<-|[]]. exact Hl.
Defined.

End AnalyzerMore.

Section SummaryStatisticsFacts.
Import AccessStats Analyzer.

Lemma analyses_descending :
  (forall (self : TechnologyAccessAnalyzer) out,
      analyze_by_state self = Ok out ->
      Spec.descending (fun r => internet_percentage (stat r)) out)
  /\ (forall (self : TechnologyAccessAnalyzer) out,
         analyze_by_education self = Ok out ->
         Spec.descending (fun r => internet_percentage (stat r)) out).
Proof.
  split; intros self out Hout; apply merge_and_sort_Ok in Hout; subst out;
    apply sort_values_desc_descending.
Qed.

Lemma merge_and_sort_nonempty (stats : list TechStat) (dim : list DimRow)
    (out : list (Labeled TechStat)) :
  merge_and_sort stats dim = Ok out -> out <> [].
Proof.
  intros H E. destruct stats as [|s stats]; [discriminate|].
  assert (In s (s :: stats)) as Hs by now left.
  apply (merge_and_sort_stats _ _ _ _ H) in Hs. destruct Hs as [r [Hr _]].
  rewrite E in Hr. destruct Hr.
Qed.

Lemma StronglySorted_split {A : Type} (R : A -> A -> Prop) (a b : list A) :
  StronglySorted R (a ++ b) -> forall x y, In x a -> In y b -> R x y.
Proof.
  induction a as [|u a IH]; intros Hs x y Hx Hy; [destruct Hx|].
  simpl in Hs. inversion Hs as [|? ? Hs' Hall]; subst.
  destruct Hx as [->|Hx]; [|now apply IH].
  rewrite Forall_forall in Hall. apply Hall. apply in_or_app. now right.
Qed.

(** After both analyses have returned, [generate_summary_statistics] does
    not hit the [IndexError] of an empty education frame. The row it prints
    as highest education level is the first row and its percentage is the
    maximum printed next to it; the row printed as lowest is the last row
    and its percentage is the minimum; the five top states have percentages
    at least as high as every state outside the top five; and the state-level
    digital divide is a non-negative number. *)
Theorem summary_statistics_consistent (self : TechnologyAccessAnalyzer)
    (state_stats_df educ_stats_df : list (Labeled TechStat)) :
  analyze_by_state self = Ok state_stats_df ->
  analyze_by_education self = Ok educ_stats_df ->
  exists summary,
    generate_summary_statistics state_stats_df educ_stats_df = Some summary
    /\ nth_error educ_stats_df 0 = Some (fst (highest_education summary))
    /\ (snd (highest_education summary)
        == internet_percentage (stat (fst (highest_education summary))))%Q
    /\ (snd (lowest_education summary)
        == internet_percentage (stat (fst (lowest_education summary))))%Q
    /\ (forall a b, In a (top_states summary) -> In b (skipn 5 state_stats_df) ->
                    (internet_percentage (stat b) <= internet_percentage (stat a))%Q)
    /\ exists range, internet_range summary = Some range /\ (0 <= range)%Q.
Proof.
  intros Hstate Heduc.
  pose proof (merge_and_sort_nonempty _ _ _ Hstate) as Hsne.
  pose proof (merge_and_sort_nonempty _ _ _ Heduc) as Hene.
  pose proof (proj1 analyses_descending self _ Hstate) as Hsd.
  pose proof (proj2 analyses_descending self _ Heduc) as Hed.
  destruct educ_stats_df as [|e0 erest]; [congruence|].
  destruct state_stats_df as [|s0 srest]; [congruence|].
  destruct (descending_extremes _ _ _ Hed) as [Hemax [Hemin _]].
  destruct (descending_extremes _ _ _ Hsd) as [Hsmax [Hsmin Hsle]].
  eexists. split; [reflexivity|]. cbn [highest_education lowest_education
                                       top_states internet_range fst snd nth_error].
  split; [reflexivity|]. split; [exact Hemax|]. split; [exact Hemin|]. split.
  - intros a b Ha Hb.
    apply (StronglySorted_split
             (fun a b => internet_percentage (stat b) <= internet_percentage (stat a))%Q
             (firstn 5 (s0 :: srest)) (skipn 5 (s0 :: srest))); trivial.
    rewrite firstn_skipn. exact Hsd.
  - cbn [series_max series_min map]. eexists. split; [reflexivity|].
    rewrite Hsmax, Hsmin. unfold Qminus. rewrite <- Qle_minus_iff. exact Hsle.
Qed.

End SummaryStatisticsFacts.

Lemma summary_statistics_consistent_witness :
  exists state_stats_df educ_stats_df summary,
    Analyzer.analyze_by_state Scenario.tied_states = Ok state_stats_df
    /\ Analyzer.analyze_by_education
         {| Analyzer.fact_df := Analyzer.fact_df Scenario.tied_states;
            Analyzer.state_dim := Analyzer.state_dim Scenario.tied_states;
            Analyzer.educ_dim := [ {| AccessStats.code := 6;
                                      AccessStats.value := Some "Grade 12" |} ] |}
       = Ok educ_stats_df
    /\ Analyzer.generate_summary_statistics state_stats_df educ_stats_df = Some summary
    /\ (snd (Analyzer.highest_education summary) == 100)%Q.
Proof.
  set (self := {| Analyzer.fact_df := Analyzer.fact_df Scenario.tied_states;
                  Analyzer.state_dim := Analyzer.state_dim Scenario.tied_states;
                  Analyzer.educ_dim := [ {| AccessStats.code := 6;
                                            AccessStats.value := Some "Grade 12" |} ] |}).
  destruct (summary_statistics_consistent self _ _ eq_refl eq_refl)
    as [summary [Hs [_ [Hmax _]]]].
  eexists. eexists. exists summary.
  split; [reflexivity|]. split; [reflexivity|]. split; [exact Hs|].
  rewrite Hmax. injection Hs as <-. vm_compute. reflexivity.
Defined.

Lemma load_codes_dict_witness :
  let catgries :=
    [ {| StarSchema.catValu := Some (Some "1"); StarSchema.labl := Some (Some "Yes") |};
      {| StarSchema.catValu := Some (Some "2"); StarSchema.labl := Some None |};
      {| StarSchema.catValu := Some (Some "1"); StarSchema.labl := Some (Some "Oui") |} ] in
  StarSchema.lookup "1" (StarSchema.load_codes catgries) = Some "Oui"
  /\ StarSchema.lookup "2" (StarSchema.load_codes catgries) = None.
Proof.
  intros catgries.
  rewrite !(proj1 (proj2 (load_codes_dict catgries))). split; reflexivity.
Defined.

Lemma age_rows_cover_witness :
  In (17, "5-17") (Schema.age_rows Schema.age_groups)
  /\ ~ In (121, "75+") (Schema.age_rows Schema.age_groups).
Proof.
  split.
  - apply (proj1 age_rows_cover). exists 5, 17. split; [simpl; auto | lia].
  - intros H. apply (proj1 age_rows_cover) in H. destruct H as [lo [hi [Hb Hr]]].
    simpl in Hb.
    repeat (destruct Hb as [Hb|Hb]; [try discriminate; injection Hb as <- <-; lia|]).
    destruct Hb.
Defined.

Lemma group_table_rows_witness :
  map fst (Schema.group_table Schema.income_groups [52000; -30; 52000; 0])
  = [-30; 0; 52000]
  /\ forall income label,
      In (income, label) (Schema.group_table Schema.income_groups [52000; -30; 52000; 0]) ->
      label = Schema.assign_group Schema.income_groups income.
Proof.
  split; [reflexivity|].
  apply (proj2 (proj2 (group_table_rows Schema.income_groups [52000; -30; 52000; 0]))).
Defined.

Lemma income_groups_unknown_iff_witness :
  Schema.assign_group Schema.income_groups 10000001 = "Unknown"
  /\ Schema.assign_group Schema.income_groups 10000000 <> "Unknown".
Proof.
  split.
  - apply (proj1 (income_groups_unknown_iff 10000001)). lia.
  - intros H. apply (proj1 (income_groups_unknown_iff 10000000)) in H. lia.
Defined.

Lemma hhincome_missing_band_unreachable_witness :
  Schema.assign_group Schema.hhincome_groups 9999999 <> "N/A or Missing".
Proof. exact (proj1 (hhincome_missing_band_unreachable 9999999)). Defined.
